(** * KPI dashboard backend: the fiscal-calendar KPI aggregation core

    A shallow embedding of the pure calculation functions of
    [app/services/metrics.py] and [app/services/period_utils.py], of the
    target upsert of [app/services/target_service.py], of the department
    summary of [app/services/kpi_service.py] and of the regional rollup of
    [app/services/regional_service.py], with the properties the design
    document states about them.

    Conventions of the embedding.
    - Python [int] is [Z]; [str] is [string]; [None] is [None] of [option].
    - [datetime.date] is the record [date]; the constructor [date(y, m, d)]
      is [date_new], which raises [ValueError] outside MINYEAR..MAXYEAR or
      for a day the month does not have.
    - [Decimal] (and the JSON numbers read from the fact table) are exact
      rationals [Q]: additions, divisions and comparisons are those of the
      rationals.  The decimal context (28 significant digits) and binary
      floating point are not part of the model.
    - A raised exception is the [Raise] outcome of [result]. *)

From Stdlib Require Import ZArith QArith Qround Qabs Lia Lqa List Bool.
From stdpp Require Import base option list gmap strings fin_maps sorting pretty.

Local Open Scope Z_scope.

(** ** Exceptions and fallible computations *)

Inductive exn : Type :=
  | ValueError
  | TypeError
  | KeyError
  | InvalidOperation
  | APIError
  | Exception (msg : string)
  | FuelExhausted.

Inductive result (A : Type) : Type :=
  | Ok (a : A)
  | Raise (e : exn).
Arguments Ok {A} a.
Arguments Raise {A} e.

Definition rbind {A B : Type} (c : result A) (k : A -> result B) : result B :=
  match c with
  | Ok a => k a
  | Raise e => Raise e
  end.

Notation "'let!' x ':=' c 'in' k" := (rbind c (fun x => k))
  (at level 10, x pattern, c at level 100, k at level 200).

(** ** Calendar dates ([datetime.date]) *)

Record date : Type := Date { year : Z; month : Z; day : Z }.

Definition MINYEAR : Z := 1.
Definition MAXYEAR : Z := 9999.

(** [calendar.isleap] *)
Definition isleap (y : Z) : bool :=
  (y mod 4 =? 0) && (negb (y mod 100 =? 0) || (y mod 400 =? 0)).

(** [calendar.mdays], with the leap day of February *)
Definition days_in_month (y m : Z) : Z :=
  if m =? 2 then (if isleap y then 29 else 28)
  else if (m =? 4) || (m =? 6) || (m =? 9) || (m =? 11) then 30
  else 31.

Definition valid_ymd (y m d : Z) : bool :=
  (MINYEAR <=? y) && (y <=? MAXYEAR) &&
  (1 <=? m) && (m <=? 12) &&
  (1 <=? d) && (d <=? days_in_month y m).

Definition valid_date (d : date) : bool := valid_ymd (year d) (month d) (day d).

(** [date(y, m, d)] *)
Definition date_new (y m d : Z) : result date :=
  if valid_ymd y m d then Ok (Date y m d) else Raise ValueError.

(** [calendar.monthrange(year, month)], second component: the number of
    days of the month.  The weekday it also returns is discarded by the
    only caller.  Any year is accepted; the month must be 1..12. *)
Definition monthrange (y m : Z) : result Z :=
  if (1 <=? m) && (m <=? 12) then Ok (days_in_month y m) else Raise ValueError.

(** [a < b], [a <= b], [a == b] on dates: lexicographic on (year, month, day) *)
Definition date_ltb (a b : date) : bool :=
  (year a <? year b) ||
  ((year a =? year b) &&
   ((month a <? month b) || ((month a =? month b) && (day a <? day b)))).

Definition date_eqb (a b : date) : bool :=
  (year a =? year b) && (month a =? month b) && (day a =? day b).

Definition date_leb (a b : date) : bool := date_ltb a b || date_eqb a b.

(** [min(a, b)] on dates: the first argument unless the second is smaller *)
Definition date_min (a b : date) : date := if date_ltb b a then b else a.

(** ** Fiscal year ([metrics.py]) *)

Definition default_start_month : Z := 9.

Definition get_fiscal_year (target_date : date) (start_month : Z) : Z :=
  if start_month <=? month target_date
  then year target_date
  else year target_date - 1.

Definition get_fiscal_year_range (fiscal_year start_month : Z)
  : result (date * date) :=
  let! start_date := date_new fiscal_year start_month 1 in
  let! end_date :=
    (if start_month =? 1 then date_new fiscal_year 12 31
     else
       let end_year := fiscal_year + 1 in
       let end_month := start_month - 1 in
       let! last_day := monthrange end_year end_month in
       date_new end_year end_month last_day) in
  Ok (start_date, end_date).

(** The first day of the month after [current] *)
Definition next_month_start (current : date) : result date :=
  if month current =? 12 then date_new (year current + 1) 1 1
  else date_new (year current) (month current + 1) 1.

(** The [while current <= end_date] loop of [get_months_in_fiscal_year].
    [fuel] bounds the number of iterations; [get_months_never_exhausts]
    below shows that the bound chosen by the caller is never reached. *)
Fixpoint months_loop (fuel : nat) (current end_date : date)
  : result (list date) :=
  if date_leb current end_date then
    match fuel with
    | O => Raise FuelExhausted
    | S fuel' =>
        let! next := next_month_start current in
        let! months := months_loop fuel' next end_date in
        Ok (current :: months)
    end
  else Ok [].

Definition months_fuel (current end_date : date) : nat :=
  Z.to_nat (12 * (year end_date - year current + 1) + 2).

Definition get_months_in_fiscal_year
    (fiscal_year : Z) (up_to_month : option date) (start_month : Z)
  : result (list date) :=
  let! (start_date, end_date) := get_fiscal_year_range fiscal_year start_month in
  let end_date :=
    match up_to_month with
    | Some u => date_min end_date u
    | None => end_date
    end in
  months_loop (months_fuel start_date end_date) start_date end_date.

Definition normalize_to_month_start (target_date : date) : result date :=
  date_new (year target_date) (month target_date) 1.

Definition get_previous_year_month (target_date : date) : result date :=
  date_new (year target_date - 1) (month target_date) 1.

(** ** Quarters ([period_utils.py]) *)

Definition quarter_to_months : gmap Z (Z * Z * Z) :=
  <[4 := (6, 7, 8)]> (<[3 := (3, 4, 5)]> (<[2 := (12, 1, 2)]>
    (<[1 := (9, 10, 11)]> ∅))).

(** [quarter_to_months.get(quarter, (9, 10, 11))] *)
Definition get_quarter_months (quarter : Z) : Z * Z * Z :=
  default (9, 10, 11) (quarter_to_months !! quarter).

(** ** Decimal values *)

(** A [Decimal] is a rational [Q]; an [Optional[Decimal]] is an
    [option Q]. *)

(** Nearest integer, ties away from zero ([ROUND_HALF_UP]) *)
Definition round_half_up (q : Q) : Z :=
  if Qle_bool 0 q then Qfloor (q + (1 # 2))%Q
  else - Qfloor ((- q) + (1 # 2))%Q.

(** [q.quantize(Decimal(unit), rounding=ROUND_HALF_UP)] for a unit
    [1 / 10^k], given by its denominator [den]: the multiple of [1 / den]
    nearest to [q]. *)
Definition quantize (den : positive) (q : Q) : Q :=
  (round_half_up (q * inject_Z (Z.pos den)) # den)%Q.

(** [x == 0] where [x] may be [None]: [None == 0] is [False]. *)
Definition py_is_zero (x : option Q) : bool :=
  match x with
  | Some q => Qeq_bool q 0
  | None => false
  end.

(** ** Derived metrics ([metrics.py]) *)

(** The arguments are declared [Decimal]; a caller can still pass [None],
    which the arithmetic rejects with [TypeError]. *)
Definition calculate_achievement_rate (actual target : option Q)
  : result (option Q) :=
  if py_is_zero target then Ok None
  else
    match actual, target with
    | Some a, Some t => Ok (Some (quantize 100 ((a / t) * 100)%Q))
    | _, _ => Raise TypeError
    end.

Definition calculate_yoy_rate (current previous : option Q)
  : result (option Q) :=
  if py_is_zero previous then Ok None
  else
    match current, previous with
    | Some c, Some p => Ok (Some (quantize 100 (((c - p) / p) * 100)%Q))
    | _, _ => Raise TypeError
    end.

Definition get_alert_level (achievement_rate : option Q) : string :=
  match achievement_rate with
  | None => "none"
  | Some r =>
      if Qle_bool 100 r then "none"
      else if Qle_bool 80 r then "warning"
      else "critical"
  end.

(** ** Fact rows *)

(** A row of the [kpi_values] table as the queries return it.  [kv_value]
    is [None] for a null value. *)
Record kpi_value : Type := KpiValue {
  kv_segment_id : string;
  kv_kpi_id : string;
  kv_date : date;
  kv_value : option Q;
  kv_is_target : bool
}.

(** ** Year-to-date sum ([metrics.py]) *)

(** One iteration of the [for item in values] loop of [calculate_ytd]. *)
Definition ytd_step (start_date target_date : date) (is_target : bool)
    (total : Q) (item : kpi_value) : Q :=
  if negb (Bool.eqb (kv_is_target item) is_target) then total
  else if date_leb start_date (kv_date item)
          && date_leb (kv_date item) target_date then
    match kv_value item with
    | Some value => (total + value)%Q
    | None => total
    end
  else total.

Definition calculate_ytd (values : list kpi_value) (target_date : date)
    (is_target : bool) : result Q :=
  let fiscal_year := get_fiscal_year target_date default_start_month in
  let! (start_date, _) := get_fiscal_year_range fiscal_year default_start_month in
  Ok (fold_left (ytd_step start_date target_date is_target) values 0%Q).

(** ** The persistence service

    The tables the core reads and writes.  [kpi_values] maps the primary
    key [id] to the row; the reference tables are lists in table order. *)

Record department : Type := Department {
  dept_id : string; dept_name : string; dept_slug : string }.

Record kpi_definition : Type := KpiDefinition {
  kd_id : string; kd_department_id : string; kd_name : string;
  kd_unit : string; kd_category : string; kd_display_order : Z;
  kd_is_visible : bool }.

Record segment : Type := Segment {
  seg_id : string; seg_name : string; seg_department_id : string }.

Record region : Type := Region {
  reg_id : string; reg_name : string; reg_display_order : Z }.

Record region_mapping : Type := RegionMapping {
  rm_segment_id : string; rm_region_id : string }.

Record database : Type := Database {
  departments : list department;
  kpi_definitions : list kpi_definition;
  segments : list segment;
  regions : list region;
  store_region_mapping : list region_mapping;
  kpi_values : gmap Z kpi_value
}.

Definition set_kpi_values (d : database) (t : gmap Z kpi_value) : database :=
  {| departments := departments d;
     kpi_definitions := kpi_definitions d;
     segments := segments d;
     regions := regions d;
     store_region_mapping := store_region_mapping d;
     kpi_values := t |}.

(** The service as the client sees it: the database, and for each coming
    request whether the service fails on it ([true]: the request raises
    [APIError] and changes nothing).  Past the end of [faults] every
    request is served. *)
Record service : Type := Service {
  db : database;
  faults : list bool
}.

(** Computations that talk to the service and may raise *)
Definition M (A : Type) : Type := service -> service * result A.

Definition mret {A : Type} (a : A) : M A := fun s => (s, Ok a).
Definition mraise {A : Type} (e : exn) : M A := fun s => (s, Raise e).
Definition lift {A : Type} (r : result A) : M A := fun s => (s, r).

Definition mbind {A B : Type} (c : M A) (k : A -> M B) : M B :=
  fun s =>
    match c s with
    | (s', Ok a) => k a s'
    | (s', Raise e) => (s', Raise e)
    end.

Notation "'do!' x ':=' c 'in' k" := (mbind c (fun x => k))
  (at level 10, x pattern, c at level 100, k at level 200).

(** [query.execute()] *)
Definition execute {A : Type} (query : database -> database * A) : M A :=
  fun s =>
    match faults s with
    | true :: rest => ({| db := db s; faults := rest |}, Raise APIError)
    | _ =>
        let '(d, a) := query (db s) in
        ({| db := d; faults := tail (faults s) |}, Ok a)
    end.

(** A read-only query *)
Definition fetch {A : Type} (query : database -> A) : M A :=
  execute (fun d => (d, query d)).

(** [table("kpi_values").select("id").eq(..)...]: the ids of the rows that
    satisfy [p] *)
Definition select_ids (p : kpi_value -> bool) (d : database) : list Z :=
  (filter (fun kv : Z * kpi_value => p kv.2 = true)
          (map_to_list (kpi_values d))).*1.

(** [table("kpi_values").select(..)...]: the rows that satisfy [p] *)
Definition select_values (p : kpi_value -> bool) (d : database)
  : list kpi_value :=
  filter (fun r : kpi_value => p r = true) (map_to_list (kpi_values d)).*2.

(** [table("kpi_values").update(data).eq("id", i)]: every column of the
    row with id [i] is set from [data]; the updated rows are returned. *)
Definition update_by_id (i : Z) (data : kpi_value) (d : database)
  : database * list (Z * kpi_value) :=
  match kpi_values d !! i with
  | Some _ => (set_kpi_values d (<[i := data]> (kpi_values d)), [(i, data)])
  | None => (d, [])
  end.

(** [table("kpi_values").insert(data)]: the service picks an unused id. *)
Definition insert_row (data : kpi_value) (d : database)
  : database * list (Z * kpi_value) :=
  let i := fresh (dom (kpi_values d)) in
  (set_kpi_values d (<[i := data]> (kpi_values d)), [(i, data)]).

(** ** Target upsert ([target_service.py]) *)

Record upsert_result : Type := UpsertResult { id : Z; is_created : bool }.

(** The composite identity (segment_id, kpi_id, date, is_target) *)
Definition has_identity (segment_id kpi_id : string) (d : date)
    (is_target : bool) (r : kpi_value) : bool :=
  bool_decide (kv_segment_id r = segment_id)
  && bool_decide (kv_kpi_id r = kpi_id)
  && date_eqb (kv_date r) d
  && Bool.eqb (kv_is_target r) is_target.

Definition create_target_value (segment_id kpi_id : string) (month : date)
    (value : Q) : M upsert_result :=
  do! month := lift (normalize_to_month_start month) in
  do! existing :=
    fetch (select_ids (has_identity segment_id kpi_id month true)) in
  let data :=
    {| kv_segment_id := segment_id; kv_kpi_id := kpi_id; kv_date := month;
       kv_value := Some value; kv_is_target := true |} in
  do! (response, is_created) :=
    (match existing with
     | existing_id :: _ =>
         do! response := execute (update_by_id existing_id data) in
         mret (response, false)
     | [] =>
         do! response := execute (insert_row data) in
         mret (response, true)
     end) in
  match response with
  | [] => mraise (Exception "目標値の登録に失敗しました")
  | (row_id, _) :: _ => mret {| id := row_id; is_created := is_created |}
  end.

(** An entry of the [targets] list: a dict with the four keys the
    endpoints build. *)
Record target_input : Type := TargetInput {
  ti_segment_id : string; ti_kpi_id : string; ti_month : date; ti_value : Q }.

Record bulk_result : Type := BulkResult {
  created_count : Z; updated_count : Z; errors : list string }.

(** [str(e)]: the text of the exception, one text per kind in the model *)
Definition exn_str (e : exn) : string :=
  match e with
  | ValueError => "ValueError"
  | TypeError => "TypeError"
  | KeyError => "KeyError"
  | InvalidOperation => "InvalidOperation"
  | APIError => "APIError"
  | Exception msg => msg
  | FuelExhausted => "FuelExhausted"
  end.

(** The message the [except] handler appends for [target] *)
Definition error_entry (target : target_input) (e : exn) : string :=
  "店舗 " +:+ ti_segment_id target +:+ ", KPI " +:+ ti_kpi_id target
  +:+ ": " +:+ exn_str e.

(** The body of the [for target in targets] loop: the [try] and its
    [except Exception] handler. *)
Definition bulk_step (result : bulk_result) (target : target_input)
    (s : service) : service * bulk_result :=
  match create_target_value (ti_segment_id target) (ti_kpi_id target)
          (ti_month target) (ti_value target) s with
  | (s', Ok res) =>
      (s', if is_created res
           then {| created_count := created_count result + 1;
                   updated_count := updated_count result;
                   errors := errors result |}
           else {| created_count := created_count result;
                   updated_count := updated_count result + 1;
                   errors := errors result |})
  | (s', Raise e) =>
      (s', {| created_count := created_count result;
              updated_count := updated_count result;
              errors := errors result ++ [error_entry target e] |})
  end.

Fixpoint bulk_loop (targets : list target_input) (result : bulk_result)
    (s : service) : service * bulk_result :=
  match targets with
  | [] => (s, result)
  | target :: rest =>
      let '(s', result') := bulk_step result target s in
      bulk_loop rest result' s'
  end.

Definition initial_bulk_result : bulk_result :=
  {| created_count := 0; updated_count := 0; errors := [] |}.

Definition bulk_upsert_targets (targets : list target_input) : M bulk_result :=
  fun s =>
    let '(s', result) := bulk_loop targets initial_bulk_result s in
    (s', Ok result).

(** ** Department summary ([kpi_service.py]) *)

(** [Decimal(str(v["value"]))]: the conversion of the text of a null
    value fails with [decimal.InvalidOperation]. *)
Definition to_decimal (v : option Q) : result Q :=
  match v with
  | Some q => Ok q
  | None => Raise InvalidOperation
  end.

(** [sum(Decimal(str(v["value"])) for v in rows)], from [total] *)
Fixpoint sum_values (rows : list kpi_value) (total : Q) : result Q :=
  match rows with
  | [] => Ok total
  | v :: rest =>
      let! x := to_decimal (kv_value v) in
      sum_values rest (total + x)%Q
  end.

(** Truth value of a number: zero is false. *)
Definition truthy (q : Q) : bool := negb (Qeq_bool q 0).

(** [q > 0] *)
Definition is_positive (q : Q) : bool := negb (Qle_bool q 0).

(** [float(x) if x else None] *)
Definition float_or_none (q : Q) : option Q :=
  if truthy q then Some q else None.

(** [float(x) if x else None] for an optional decimal *)
Definition float_or_none_opt (x : option Q) : option Q :=
  match x with
  | Some q => float_or_none q
  | None => None
  end.

Record kpi_summary : Type := KpiSummary {
  ks_name : string;
  ks_unit : string;
  ks_category : string;
  ks_actual : option Q;
  ks_target : option Q;
  ks_ytd_actual : option Q;
  ks_ytd_target : option Q;
  ks_achievement_rate : option Q;
  ks_yoy_rate : option Q;
  ks_alert_level : string
}.

Record department_summary : Type := DepartmentSummary {
  ds_department : department;
  ds_period : date;
  ds_fiscal_year : Z;
  ds_kpis : list kpi_summary
}.

(** The body of the [for kpi_def in kpi_definitions] loop *)
Definition summarize_kpi (kpi_def : kpi_definition)
    (all_values prev_year_values : list kpi_value) (target_month : date)
    (include_ytd : bool) : result kpi_summary :=
  let kpi_id := kd_id kpi_def in
  let kpi_values :=
    filter (fun v => kv_kpi_id v = kpi_id) all_values in
  let kpi_prev_values :=
    filter (fun v => kv_kpi_id v = kpi_id) prev_year_values in
  let! monthly_actual :=
    sum_values
      (filter (fun v => date_eqb (kv_date v) target_month
                        && negb (kv_is_target v) = true) kpi_values) 0%Q in
  let! monthly_target :=
    sum_values
      (filter (fun v => date_eqb (kv_date v) target_month
                        && kv_is_target v = true) kpi_values) 0%Q in
  let! (ytd_actual, ytd_target) :=
    (if include_ytd then
       let! a := calculate_ytd kpi_values target_month false in
       let! t := calculate_ytd kpi_values target_month true in
       Ok (a, t)
     else Ok (0%Q, 0%Q)) in
  let! prev_year_actual := sum_values kpi_prev_values 0%Q in
  let! achievement_rate :=
    (if is_positive ytd_target
     then calculate_achievement_rate (Some ytd_actual) (Some ytd_target)
     else Ok None) in
  let! yoy_rate :=
    (if is_positive prev_year_actual
     then calculate_yoy_rate (Some monthly_actual) (Some prev_year_actual)
     else Ok None) in
  let alert_level := get_alert_level achievement_rate in
  Ok {| ks_name := kd_name kpi_def;
        ks_unit := kd_unit kpi_def;
        ks_category := kd_category kpi_def;
        ks_actual := float_or_none monthly_actual;
        ks_target := float_or_none monthly_target;
        ks_ytd_actual := if include_ytd then Some ytd_actual else None;
        ks_ytd_target := if include_ytd then Some ytd_target else None;
        ks_achievement_rate := float_or_none_opt achievement_rate;
        ks_yoy_rate := float_or_none_opt yoy_rate;
        ks_alert_level := alert_level |}.

(** [.single()]: exactly one row, or the request fails *)
Definition single {A : Type} (rows : list A) : result A :=
  match rows with
  | [row] => Ok row
  | _ => Raise APIError
  end.

(** A loop whose body may raise, collecting the results in order *)
Fixpoint for_each {A B : Type} (body : A -> result B) (l : list A)
  : result (list B) :=
  match l with
  | [] => Ok []
  | x :: rest =>
      let! y := body x in
      let! ys := for_each body rest in
      Ok (y :: ys)
  end.

(** [.order("display_order")] *)
Definition by_display_order (a b : kpi_definition) : Prop :=
  kd_display_order a <= kd_display_order b.

#[local] Instance by_display_order_dec (a b : kpi_definition)
  : Decision (by_display_order a b) :=
  Z_le_dec (kd_display_order a) (kd_display_order b).

Definition visible_kpi_definitions (department_id : string) (d : database)
  : list kpi_definition :=
  merge_sort by_display_order
    (filter (fun k => kd_department_id k = department_id
                      /\ kd_is_visible k = true) (kpi_definitions d)).

Definition get_department_summary (department_id : string)
    (target_month : date) (include_ytd : bool) : M department_summary :=
  do! target_month := lift (normalize_to_month_start target_month) in
  let fiscal_year := get_fiscal_year target_month default_start_month in
  do! previous_month := lift (get_previous_year_month target_month) in
  do! dept_rows :=
    fetch (fun d => filter (fun x => dept_id x = department_id) (departments d)) in
  do! department := lift (single dept_rows) in
  do! kpi_defs := fetch (visible_kpi_definitions department_id) in
  do! segment_rows :=
    fetch (fun d => filter (fun x => seg_department_id x = department_id)
                      (segments d)) in
  let segment_ids := map seg_id segment_rows in
  match segment_ids with
  | [] =>
      mret {| ds_department := department; ds_period := target_month;
              ds_fiscal_year := fiscal_year; ds_kpis := [] |}
  | _ =>
      do! (fiscal_start, _) :=
        lift (get_fiscal_year_range fiscal_year default_start_month) in
      do! all_values :=
        fetch (select_values (fun v =>
                 bool_decide (kv_segment_id v ∈ segment_ids)
                 && date_leb fiscal_start (kv_date v)
                 && date_leb (kv_date v) target_month)) in
      do! prev_year_values :=
        fetch (select_values (fun v =>
                 bool_decide (kv_segment_id v ∈ segment_ids)
                 && date_eqb (kv_date v) previous_month
                 && negb (kv_is_target v))) in
      do! kpis_result :=
        lift (for_each (fun kpi_def =>
                summarize_kpi kpi_def all_values prev_year_values
                  target_month include_ytd) kpi_defs) in
      mret {| ds_department := department; ds_period := target_month;
              ds_fiscal_year := fiscal_year; ds_kpis := kpis_result |}
  end.

(** ** Regional rollup ([regional_service.py])

    The sums of sales and customers per store, per region and overall.
    The rates, unit prices and targets that the response derives from
    these sums do not feed back into them and are left out. *)

(** A dict in insertion order: setting an existing key keeps its place. *)
Fixpoint odict_set {A : Type} (k : string) (v : A) (l : list (string * A))
  : list (string * A) :=
  match l with
  | [] => [(k, v)]
  | (k', v') :: rest =>
      if bool_decide (k' = k) then (k, v) :: rest
      else (k', v') :: odict_set k v rest
  end.

(** [{s["id"]: s for s in rows}] *)
Definition segments_by_id (rows : list segment) : list (string * segment) :=
  fold_left (fun acc s => odict_set (seg_id s) s acc) rows [].

(** [{m["segment_id"]: m["region_id"] for m in rows}] *)
Definition segment_to_region_of (rows : list region_mapping)
  : gmap string string :=
  fold_left (fun acc m => <[rm_segment_id m := rm_region_id m]> acc) rows ∅.

(** [{k["name"]: k["id"] for k in rows}] *)
Definition kpi_map_of (rows : list kpi_definition) : gmap string string :=
  fold_left (fun acc k => <[kd_name k := kd_id k]> acc) rows ∅.

(** The per-store sums: one pass over the fetched rows, adding
    [v["value"] or 0] under the row's segment for the sales KPI and for
    the customers KPI. *)
Definition store_sums_step (sales_kpi_id customers_kpi_id : option string)
    (acc : gmap string Q * gmap string Q) (v : kpi_value)
  : gmap string Q * gmap string Q :=
  let seg_id := kv_segment_id v in
  let kpi_id := kv_kpi_id v in
  let value := default 0%Q (kv_value v) in
  if bool_decide (Some kpi_id = sales_kpi_id) then
    (<[seg_id := (default 0%Q (acc.1 !! seg_id) + value)%Q]> acc.1, acc.2)
  else if bool_decide (Some kpi_id = customers_kpi_id) then
    (acc.1, <[seg_id := (default 0%Q (acc.2 !! seg_id) + value)%Q]> acc.2)
  else acc.

Definition store_sums (sales_kpi_id customers_kpi_id : option string)
    (rows : list kpi_value) : gmap string Q * gmap string Q :=
  fold_left (store_sums_step sales_kpi_id customers_kpi_id) rows (∅, ∅).

(** [x if x > 0 else None] *)
Definition positive_or_none (q : Q) : option Q :=
  if is_positive q then Some q else None.

(** [int(x) if x > 0 else None] *)
Definition int_positive_or_none (q : Q) : option Z :=
  if is_positive q then Some (Qfloor q) else None.

Record store_data : Type := StoreData {
  sd_segment_id : string;
  sd_segment_name : string;
  sd_sales : option Q;
  sd_sales_previous_year : option Q;
  sd_customers : option Z;
  sd_customers_previous_year : option Z
}.

(** An entry of [regional_data] *)
Record bucket : Type := Bucket {
  b_region_id : string;
  b_region_name : string;
  b_stores : list store_data;
  b_total_sales : Q;
  b_total_sales_previous_year : Q;
  b_total_customers : Q;
  b_total_customers_previous_year : Q
}.

(** The per-store sums of the current and of the previous year *)
Record store_totals : Type := StoreTotals {
  store_sales : gmap string Q;
  store_sales_prev : gmap string Q;
  store_customers : gmap string Q;
  store_customers_prev : gmap string Q
}.

(** [regional_data], one empty bucket per region *)
Definition init_regional_data (regions : list region) : gmap string bucket :=
  fold_left (fun acc r =>
      <[reg_id r := {| b_region_id := reg_id r; b_region_name := reg_name r;
                       b_stores := []; b_total_sales := 0;
                       b_total_sales_previous_year := 0;
                       b_total_customers := 0;
                       b_total_customers_previous_year := 0 |}]> acc)
    regions ∅.

(** The name of the region that receives the stores without a mapping *)
Definition unassigned_region_name : string := "その他".

(** The [for r in regions] search with its [break] *)
Fixpoint find_unassigned_region_id (regions : list region) : option string :=
  match regions with
  | [] => None
  | r :: rest =>
      if bool_decide (reg_name r = unassigned_region_name) then Some (reg_id r)
      else find_unassigned_region_id rest
  end.

(** [segment_to_region.get(seg_id, unassigned_region_id)] *)
Definition region_of (segment_to_region : gmap string string)
    (unassigned_region_id : option string) (seg_id : string) : option string :=
  match segment_to_region !! seg_id with
  | Some region_id => Some region_id
  | None => unassigned_region_id
  end.

Definition store_data_of (totals : store_totals) (seg_id : string)
    (seg : segment) : store_data :=
  let sales := default 0%Q (store_sales totals !! seg_id) in
  let sales_prev := default 0%Q (store_sales_prev totals !! seg_id) in
  let customers := default 0%Q (store_customers totals !! seg_id) in
  let customers_prev := default 0%Q (store_customers_prev totals !! seg_id) in
  {| sd_segment_id := seg_id;
     sd_segment_name := seg_name seg;
     sd_sales := positive_or_none sales;
     sd_sales_previous_year := positive_or_none sales_prev;
     sd_customers := int_positive_or_none customers;
     sd_customers_previous_year := int_positive_or_none customers_prev |}.

(** What one store adds to the bucket of its region *)
Definition add_store (totals : store_totals) (rd : bucket)
    (item : string * segment) : bucket :=
  let seg_id := item.1 in
  {| b_region_id := b_region_id rd;
     b_region_name := b_region_name rd;
     b_stores := b_stores rd ++ [store_data_of totals seg_id item.2];
     b_total_sales :=
       (b_total_sales rd + default 0 (store_sales totals !! seg_id))%Q;
     b_total_sales_previous_year :=
       (b_total_sales_previous_year rd
        + default 0 (store_sales_prev totals !! seg_id))%Q;
     b_total_customers :=
       (b_total_customers rd + default 0 (store_customers totals !! seg_id))%Q;
     b_total_customers_previous_year :=
       (b_total_customers_previous_year rd
        + default 0 (store_customers_prev totals !! seg_id))%Q |}.

(** The body of the [for seg_id, seg in segments.items()] loop, with its
    [if region_id not in regional_data: continue] guard *)
Definition assign_store (segment_to_region : gmap string string)
    (unassigned_region_id : option string) (totals : store_totals)
    (regional_data : gmap string bucket) (item : string * segment)
  : gmap string bucket :=
  match region_of segment_to_region unassigned_region_id item.1 with
  | None => regional_data
  | Some region_id =>
      match regional_data !! region_id with
      | None => regional_data
      | Some rd => <[region_id := add_store totals rd item]> regional_data
      end
  end.

Record region_summary : Type := RegionSummary {
  rs_region_id : string;
  rs_region_name : string;
  rs_total_sales : option Q;
  rs_total_sales_previous_year : option Q;
  rs_total_customers : option Z;
  rs_total_customers_previous_year : option Z;
  rs_stores : list store_data
}.

Record grand_total_summary : Type := GrandTotal {
  gt_total_sales : Q;
  gt_total_sales_previous_year : option Q;
  gt_total_customers : option Z;
  gt_total_customers_previous_year : option Z
}.

(** The running state of the [for region in regions] loop *)
Record rollup_acc : Type := RollupAcc {
  result_regions : list region_summary;
  grand_total_sales : Q;
  grand_total_sales_prev : Q;
  grand_total_customers : Q;
  grand_total_customers_prev : Q
}.

(** The body of the [for region in regions] loop.  [regional_data] has an
    entry for every region of the list; a missing one is a [KeyError]. *)
Definition rollup_step (regional_data : gmap string bucket)
    (acc : rollup_acc) (r : region) : result rollup_acc :=
  match regional_data !! reg_id r with
  | None => Raise KeyError
  | Some rd =>
      match b_stores rd with
      | [] => Ok acc
      | _ =>
          Ok {| result_regions := result_regions acc ++
                  [{| rs_region_id := reg_id r;
                      rs_region_name := reg_name r;
                      rs_total_sales := positive_or_none (b_total_sales rd);
                      rs_total_sales_previous_year :=
                        positive_or_none (b_total_sales_previous_year rd);
                      rs_total_customers :=
                        int_positive_or_none (b_total_customers rd);
                      rs_total_customers_previous_year :=
                        int_positive_or_none (b_total_customers_previous_year rd);
                      rs_stores := b_stores rd |}];
                grand_total_sales :=
                  (grand_total_sales acc + b_total_sales rd)%Q;
                grand_total_sales_prev :=
                  (grand_total_sales_prev acc + b_total_sales_previous_year rd)%Q;
                grand_total_customers :=
                  (grand_total_customers acc + b_total_customers rd)%Q;
                grand_total_customers_prev :=
                  (grand_total_customers_prev acc
                   + b_total_customers_previous_year rd)%Q |}
      end
  end.

Fixpoint rollup_loop (regional_data : gmap string bucket)
    (regions : list region) (acc : rollup_acc) : result rollup_acc :=
  match regions with
  | [] => Ok acc
  | r :: rest =>
      let! acc' := rollup_step regional_data acc r in
      rollup_loop regional_data rest acc'
  end.

(** The in-memory part of [get_regional_summary]: from the region list,
    the segments of the department, the mapping and the per-store sums to
    the regions of the response and its grand total. *)
Definition regional_rollup (regions : list region)
    (segments : list (string * segment))
    (segment_to_region : gmap string string) (totals : store_totals)
  : result (list region_summary * option grand_total_summary) :=
  let regional_data := init_regional_data regions in
  let unassigned_region_id := find_unassigned_region_id regions in
  let regional_data :=
    fold_left (assign_store segment_to_region unassigned_region_id totals)
      segments regional_data in
  let! acc :=
    rollup_loop regional_data regions
      {| result_regions := []; grand_total_sales := 0;
         grand_total_sales_prev := 0; grand_total_customers := 0;
         grand_total_customers_prev := 0 |} in
  let grand_total :=
    if is_positive (grand_total_sales acc) then
      Some {| gt_total_sales := grand_total_sales acc;
              gt_total_sales_previous_year :=
                positive_or_none (grand_total_sales_prev acc);
              gt_total_customers :=
                int_positive_or_none (grand_total_customers acc);
              gt_total_customers_previous_year :=
                int_positive_or_none (grand_total_customers_prev acc) |}
    else None in
  Ok (result_regions acc, grand_total).

Record regional_summary : Type := RegionalSummary {
  rg_period : date;
  rg_period_type : string;
  rg_fiscal_year : option Z;
  rg_regions : list region_summary;
  rg_grand_total : option grand_total_summary
}.

Definition by_region_order (a b : region) : Prop :=
  reg_display_order a <= reg_display_order b.

#[local] Instance by_region_order_dec (a b : region)
  : Decision (by_region_order a b) :=
  Z_le_dec (reg_display_order a) (reg_display_order b).

Definition get_regions : M (list region) :=
  fetch (fun d => merge_sort by_region_order (regions d)).

Definition sales_kpi_name : string := "売上高".
Definition customers_kpi_name : string := "客数".

Definition get_regional_summary (department_id : string)
    (target_month : date) (period_type : string) : M regional_summary :=
  do! target_month := lift (normalize_to_month_start target_month) in
  let fiscal_year := get_fiscal_year target_month default_start_month in
  do! prev_month := lift (get_previous_year_month target_month) in
  do! (fiscal_start, prev_fiscal_start) :=
    lift (if bool_decide (period_type = "cumulative") then
            let! (fs, _) :=
              get_fiscal_year_range fiscal_year default_start_month in
            let! (pfs, _) :=
              get_fiscal_year_range (fiscal_year - 1) default_start_month in
            Ok (fs, pfs)
          else Ok (target_month, prev_month)) in
  let fiscal_year_field :=
    if bool_decide (period_type = "cumulative") then Some fiscal_year
    else None in
  do! regions := get_regions in
  do! segment_rows :=
    fetch (fun d => filter (fun x => seg_department_id x = department_id)
                      (segments d)) in
  let segments := segments_by_id segment_rows in
  let segment_ids := map fst segments in
  match segment_ids with
  | [] =>
      mret {| rg_period := target_month; rg_period_type := period_type;
              rg_fiscal_year := fiscal_year_field;
              rg_regions := []; rg_grand_total := None |}
  | _ =>
      do! mapping_rows :=
        fetch (fun d => filter (fun m => rm_segment_id m ∈ segment_ids)
                          (store_region_mapping d)) in
      let segment_to_region := segment_to_region_of mapping_rows in
      do! kpi_rows :=
        fetch (fun d =>
                 filter (fun k => kd_department_id k = department_id
                           /\ kd_name k ∈ [sales_kpi_name; customers_kpi_name])
                   (kpi_definitions d)) in
      let kpi_map := kpi_map_of kpi_rows in
      let sales_kpi_id := kpi_map !! sales_kpi_name in
      let customers_kpi_id := kpi_map !! customers_kpi_name in
      do! current_rows :=
        fetch (select_values (fun v =>
                 bool_decide (kv_segment_id v ∈ segment_ids)
                 && negb (kv_is_target v)
                 && date_leb fiscal_start (kv_date v)
                 && date_leb (kv_date v) target_month)) in
      do! prev_rows :=
        fetch (select_values (fun v =>
                 bool_decide (kv_segment_id v ∈ segment_ids)
                 && negb (kv_is_target v)
                 && date_leb prev_fiscal_start (kv_date v)
                 && date_leb (kv_date v) prev_month)) in
      do! store_target_rows :=
        fetch (select_values (fun v =>
                 bool_decide (kv_segment_id v ∈ segment_ids)
                 && kv_is_target v
                 && date_leb fiscal_start (kv_date v)
                 && date_leb (kv_date v) target_month)) in
      let current := store_sums sales_kpi_id customers_kpi_id current_rows in
      let prev := store_sums sales_kpi_id customers_kpi_id prev_rows in
      let totals :=
        {| store_sales := current.1; store_sales_prev := prev.1;
           store_customers := current.2; store_customers_prev := prev.2 |} in
      do! (regions_result, grand_total) :=
        lift (regional_rollup regions segments segment_to_region totals) in
      mret {| rg_period := target_month; rg_period_type := period_type;
              rg_fiscal_year := fiscal_year_field;
              rg_regions := regions_result; rg_grand_total := grand_total |}
  end.

(** ** Target update and deletion ([target_service.py]) *)

Definition with_value (r : kpi_value) (value : Q) : kpi_value :=
  {| kv_segment_id := kv_segment_id r; kv_kpi_id := kv_kpi_id r;
     kv_date := kv_date r; kv_value := Some value;
     kv_is_target := kv_is_target r |}.

(** [table("kpi_values").update({"value": value}).eq("id", i)
    .eq("is_target", True)]: the value of the target row with id [i] is
    set; the updated rows are returned. *)
Definition update_value_by_id (i : Z) (value : Q) (d : database)
  : database * list (Z * kpi_value) :=
  match kpi_values d !! i with
  | Some r =>
      if kv_is_target r
      then (set_kpi_values d (<[i := with_value r value]> (kpi_values d)),
            [(i, with_value r value)])
      else (d, [])
  | None => (d, [])
  end.

Definition update_target_value (target_id : Z) (value : Q)
  : M (Z * kpi_value) :=
  do! response := execute (update_value_by_id target_id value) in
  match response with
  | [] => mraise (Exception "目標値が見つかりません")
  | row :: _ => mret row
  end.

(** [table("kpi_values").delete().eq("id", i).eq("is_target", True)]: the
    deleted rows are returned. *)
Definition delete_target_by_id (i : Z) (d : database)
  : database * list (Z * kpi_value) :=
  match kpi_values d !! i with
  | Some r =>
      if kv_is_target r
      then (set_kpi_values d (delete i (kpi_values d)), [(i, r)])
      else (d, [])
  | None => (d, [])
  end.

(** [bool(response.data)] *)
Definition delete_target_value (target_id : Z) : M bool :=
  do! response := execute (delete_target_by_id target_id) in
  mret (match response with [] => false | _ => true end).

(** ** Unit price and items per customer ([metrics.py]) *)

(** [sales] is a [Decimal], [customers] an [int]. *)
Definition calculate_customer_unit_price (sales : Q) (customers : Z)
  : option Q :=
  if customers =? 0 then None
  else Some (quantize 1 (sales / inject_Z customers)%Q).

Definition calculate_items_per_customer (items customers : Z) : option Q :=
  if customers =? 0 then None
  else Some (quantize 10 (inject_Z items / inject_Z customers)%Q).

(** ** Periods ([period_utils.py]) *)

Module PeriodUtils.

Definition FISCAL_YEAR_START_MONTH : Z := 9.

Definition get_fiscal_year (target_date : date) : Z :=
  if FISCAL_YEAR_START_MONTH <=? month target_date
  then year target_date
  else year target_date - 1.

(** [%] and [//] are the floored remainder and quotient. *)
Definition get_quarter (month : Z) : Z :=
  let fiscal_month := (month - FISCAL_YEAR_START_MONTH) mod 12 + 1 in
  (fiscal_month - 1) / 3 + 1.

(** [f"{year}年{month}月"] *)
Definition monthly_label (year month : Z) : string :=
  pretty year +:+ "年" +:+ pretty month +:+ "月".

(** [f"{fiscal_year}年度Q{quarter}"] *)
Definition quarterly_label (fiscal_year quarter : Z) : string :=
  pretty fiscal_year +:+ "年度Q" +:+ pretty quarter.

(** [f"{fiscal_year}年度"] *)
Definition yearly_label (fiscal_year : Z) : string :=
  pretty fiscal_year +:+ "年度".

Definition _get_monthly_range (year month : Z) : result (date * date * string) :=
  let! start_date := date_new year month 1 in
  let! last_day := monthrange year month in
  let! end_date := date_new year month last_day in
  Ok (start_date, end_date, monthly_label year month).

Definition _get_quarterly_range (fiscal_year quarter : Z)
  : result (date * date * string) :=
  let '(start_month, _, end_month) := get_quarter_months quarter in
  let '(start_year, end_year) :=
    if quarter =? 1 then (fiscal_year, fiscal_year)
    else if quarter =? 2 then (fiscal_year, fiscal_year + 1)
    else (fiscal_year + 1, fiscal_year + 1) in
  let! start_date := date_new start_year start_month 1 in
  let! last_day := monthrange end_year end_month in
  let! end_date := date_new end_year end_month last_day in
  Ok (start_date, end_date, quarterly_label fiscal_year quarter).

Definition _get_yearly_range (fiscal_year : Z) : result (date * date * string) :=
  let! start_date := date_new fiscal_year FISCAL_YEAR_START_MONTH 1 in
  let end_year := fiscal_year + 1 in
  let end_month := FISCAL_YEAR_START_MONTH - 1 in
  let! last_day := monthrange end_year end_month in
  let! end_date := date_new end_year end_month last_day in
  Ok (start_date, end_date, yearly_label fiscal_year).

Definition get_period_range (period_type : string) (year month quarter : Z)
  : result (date * date * string) :=
  if bool_decide (period_type = "monthly") then _get_monthly_range year month
  else if bool_decide (period_type = "quarterly")
       then _get_quarterly_range year quarter
  else if bool_decide (period_type = "yearly") then _get_yearly_range year
  else _get_monthly_range year month.

(** [date(y, m, d)] inside [try], with the [except ValueError] fallback to
    the last day of the month *)
Definition date_or_month_end (y m d : Z) : result date :=
  match date_new y m d with
  | Ok x => Ok x
  | Raise ValueError =>
      let! last_day := monthrange y m in
      date_new y m last_day
  | Raise e => Raise e
  end.

Definition get_previous_year_range (start_date end_date : date)
  : result (date * date) :=
  let! prev_start :=
    date_new (year start_date - 1) (month start_date) (day start_date) in
  let! prev_end :=
    date_or_month_end (year end_date - 1) (month end_date) (day end_date) in
  Ok (prev_start, prev_end).

Definition get_two_years_ago_range (start_date end_date : date)
  : result (date * date) :=
  let! prev2_start :=
    date_new (year start_date - 2) (month start_date) (day start_date) in
  let! prev2_end :=
    date_or_month_end (year end_date - 2) (month end_date) (day end_date) in
  Ok (prev2_start, prev2_end).

(** [get_current_period_defaults], for the date [today] that
    [date.today()] returns *)
Definition get_current_period_defaults (today : date) : Z * Z * Z :=
  let fiscal_year := get_fiscal_year today in
  let current_month := month today in
  let current_quarter := get_quarter current_month in
  (fiscal_year, current_month, current_quarter).

End PeriodUtils.

(** ** Target listing ([target_service.py]) *)

(** [d.get(k)] on a dict in insertion order *)
Fixpoint odict_get {A : Type} (k : string) (l : list (string * A))
  : option A :=
  match l with
  | [] => None
  | (k', v) :: rest => if bool_decide (k' = k) then Some v else odict_get k rest
  end.

(** [{k["id"]: k for k in rows}] *)
Definition kpis_by_id (rows : list kpi_definition)
  : list (string * kpi_definition) :=
  fold_left (fun acc k => odict_set (kd_id k) k acc) rows [].

(** [if x: query = query.eq("id", x)] for an optional string [x]: [None]
    and the empty string do not filter. *)
Definition eq_if_given (x : option string) (id : string) : bool :=
  match x with
  | None => true
  | Some x => if bool_decide (x = "") then true else bool_decide (id = x)
  end.

(** [table("kpi_values").select("id, ...")...]: the rows that satisfy [p],
    with their ids *)
Definition select_rows (p : kpi_value -> bool) (d : database)
  : list (Z * kpi_value) :=
  filter (fun kv : Z * kpi_value => p kv.2 = true) (map_to_list (kpi_values d)).

(** [float(x)]: [float(None)] raises [TypeError]. *)
Definition to_float (x : option Q) : result Q :=
  match x with
  | Some q => Ok q
  | None => Raise TypeError
  end.

Record target_value_entry : Type := TargetValueEntry {
  tv_id : Z;
  tv_segment_id : string;
  tv_segment_name : option string;
  tv_kpi_id : string;
  tv_kpi_name : option string;
  tv_month : date;
  tv_value : Q
}.

(** The body of the [for v in values_response.data] loop *)
Definition target_value_entry_of (segments : list (string * segment))
    (kpis : list (string * kpi_definition)) (v : Z * kpi_value)
  : result target_value_entry :=
  let segment := odict_get (kv_segment_id v.2) segments in
  let kpi := odict_get (kv_kpi_id v.2) kpis in
  let! value := to_float (kv_value v.2) in
  Ok {| tv_id := v.1;
        tv_segment_id := kv_segment_id v.2;
        tv_segment_name := seg_name <$> segment;
        tv_kpi_id := kv_kpi_id v.2;
        tv_kpi_name := kd_name <$> kpi;
        tv_month := kv_date v.2;
        tv_value := value |}.

Definition get_target_values (department_id : string) (month : date)
    (segment_id kpi_id : option string) : M (list target_value_entry) :=
  do! month := lift (normalize_to_month_start month) in
  do! segments_response :=
    fetch (fun d =>
             filter (fun x => seg_department_id x = department_id
                              /\ eq_if_given segment_id (seg_id x) = true)
                    (segments d)) in
  let segments := segments_by_id segments_response in
  match segments with
  | [] => mret []
  | _ =>
      do! kpis_response :=
        fetch (fun d =>
                 merge_sort by_display_order
                   (filter (fun k => kd_department_id k = department_id
                                     /\ kd_is_visible k = true
                                     /\ eq_if_given kpi_id (kd_id k) = true)
                           (kpi_definitions d))) in
      let kpis := kpis_by_id kpis_response in
      match kpis with
      | [] => mret []
      | _ =>
          do! values_response :=
            fetch (select_rows (fun v =>
                     bool_decide (kv_segment_id v ∈ segments.*1)
                     && bool_decide (kv_kpi_id v ∈ kpis.*1)
                     && date_eqb (kv_date v) month
                     && kv_is_target v)) in
          lift (for_each (target_value_entry_of segments kpis)
                  values_response)
      end
  end.

(** ** Store-region mapping ([regional_service.py]) *)

Definition set_store_region_mapping (d : database)
    (rows : list region_mapping) : database :=
  {| departments := departments d;
     kpi_definitions := kpi_definitions d;
     segments := segments d;
     regions := regions d;
     store_region_mapping := rows;
     kpi_values := kpi_values d |}.

(** The table has one row per segment, the key that [on_conflict] names:
    the row of the segment is replaced in place, or the row is added. *)
Fixpoint upsert_by_segment (m : region_mapping) (rows : list region_mapping)
  : list region_mapping :=
  match rows with
  | [] => [m]
  | r :: rest =>
      if bool_decide (rm_segment_id r = rm_segment_id m) then m :: rest
      else r :: upsert_by_segment m rest
  end.

(** [table("store_region_mapping").upsert(row, on_conflict="segment_id")]:
    the upserted rows are returned. *)
Definition upsert_mapping (m : region_mapping) (d : database)
  : database * list region_mapping :=
  (set_store_region_mapping d (upsert_by_segment m (store_region_mapping d)),
   [m]).

Record mapping_update : Type := MappingUpdate {
  mu_success : bool; mu_data : list region_mapping }.

Definition update_store_region_mapping (segment_id region_id : string)
  : M mapping_update :=
  do! response :=
    execute (upsert_mapping {| rm_segment_id := segment_id;
                               rm_region_id := region_id |}) in
  mret {| mu_success := true; mu_data := response |}.

Record bulk_mapping_update : Type := BulkMappingUpdate {
  bm_success : bool; bm_updated : Z }.

(** The [for mapping in mappings] loop: nothing catches what an update
    raises. *)
Fixpoint update_mappings (mappings : list region_mapping) : M unit :=
  match mappings with
  | [] => mret tt
  | mapping :: rest =>
      do! _ := update_store_region_mapping (rm_segment_id mapping)
                 (rm_region_id mapping) in
      update_mappings rest
  end.

Definition bulk_update_store_region_mappings (mappings : list region_mapping)
  : M bulk_mapping_update :=
  do! _ := update_mappings mappings in
  mret {| bm_success := true;
          bm_updated := Z.of_nat (length mappings) |}.

(** ** Alerts ([kpi_service.py]) *)

Record alert : Type := Alert {
  al_department_name : string;
  al_segment_name : string;
  al_kpi_name : string;
  al_achievement_rate : Q;
  al_alert_level : string;
  al_ytd_actual : Q;
  al_ytd_target : Q
}.

(** A [for] loop whose body may raise, threading what it builds *)
Fixpoint for_loop {A S : Type} (body : S -> A -> result S) (l : list A)
    (acc : S) : result S :=
  match l with
  | [] => Ok acc
  | x :: rest =>
      let! acc' := body acc x in
      for_loop body rest acc'
  end.

(** The same for a body that talks to the service *)
Fixpoint for_loop_m {A S : Type} (body : S -> A -> M S) (l : list A)
    (acc : S) : M S :=
  match l with
  | [] => mret acc
  | x :: rest =>
      do! acc' := body acc x in
      for_loop_m body rest acc'
  end.

(** The body of the [for segment_id, segment in segments.items()] loop *)
Definition check_cell (dept : department) (kpi_def : kpi_definition)
    (all_values : list kpi_value) (target_month : date) (alerts : list alert)
    (item : string * segment) : result (list alert) :=
  let kpi_id := kd_id kpi_def in
  let segment_values :=
    filter (fun v => kv_kpi_id v = kpi_id /\ kv_segment_id v = item.1)
           all_values in
  let! ytd_actual := calculate_ytd segment_values target_month false in
  let! ytd_target := calculate_ytd segment_values target_month true in
  if is_positive ytd_target then
    let! achievement_rate :=
      calculate_achievement_rate (Some ytd_actual) (Some ytd_target) in
    let alert_level := get_alert_level achievement_rate in
    if bool_decide (alert_level ∈ ["warning"; "critical"]) then
      let! rate := to_float achievement_rate in
      Ok (alerts ++
          [{| al_department_name := dept_name dept;
              al_segment_name := seg_name item.2;
              al_kpi_name := kd_name kpi_def;
              al_achievement_rate := rate;
              al_alert_level := alert_level;
              al_ytd_actual := ytd_actual;
              al_ytd_target := ytd_target |}])
    else Ok alerts
  else Ok alerts.

(** The body of the [for dept in departments] loop, with its [continue]
    for a department without segments *)
Definition check_department (fiscal_start target_month : date)
    (alerts : list alert) (dept : department) : M (list alert) :=
  let dept_id := dept_id dept in
  do! kpi_definitions :=
    fetch (fun d => filter (fun k => kd_department_id k = dept_id
                                     /\ kd_is_visible k = true)
                      (kpi_definitions d)) in
  do! segment_rows :=
    fetch (fun d => filter (fun x => seg_department_id x = dept_id)
                      (segments d)) in
  let segments := segments_by_id segment_rows in
  match segments with
  | [] => mret alerts
  | _ =>
      do! all_values :=
        fetch (select_values (fun v =>
                 bool_decide (kv_segment_id v ∈ segments.*1)
                 && date_leb fiscal_start (kv_date v)
                 && date_leb (kv_date v) target_month)) in
      lift (for_loop
              (fun alerts kpi_def =>
                 for_loop (check_cell dept kpi_def all_values target_month)
                   segments alerts)
              kpi_definitions alerts)
  end.

(** The sort key [(0 if x["alert_level"] == "critical" else 1,
    x["achievement_rate"])] *)
Definition alert_key (a : alert) : Z * Q :=
  (if bool_decide (al_alert_level a = "critical") then 0 else 1,
   al_achievement_rate a).

(** [k1 <= k2] on the key tuples *)
Definition key_le (k1 k2 : Z * Q) : bool :=
  (k1.1 <? k2.1) || ((k1.1 =? k2.1) && Qle_bool k1.2 k2.2).

(** [alerts.sort(key=...)]: the sort is stable, an alert stays before the
    later alerts of an equal key. *)
Fixpoint insert_alert (x : alert) (l : list alert) : list alert :=
  match l with
  | [] => [x]
  | y :: rest =>
      if key_le (alert_key x) (alert_key y) then x :: y :: rest
      else y :: insert_alert x rest
  end.

Definition sort_alerts (l : list alert) : list alert :=
  foldr insert_alert [] l.

(** [today] stands for [date.today()]. *)
Definition get_alerts (department_id : option string)
    (target_month : option date) (today : date) : M (list alert) :=
  let target_month :=
    match target_month with
    | None => today
    | Some m => m
    end in
  do! target_month := lift (normalize_to_month_start target_month) in
  let fiscal_year := get_fiscal_year target_month default_start_month in
  do! (fiscal_start, _) :=
    lift (get_fiscal_year_range fiscal_year default_start_month) in
  do! departments :=
    fetch (fun d => filter (fun x => eq_if_given department_id (dept_id x) = true)
                      (departments d)) in
  do! alerts :=
    for_loop_m (check_department fiscal_start target_month) departments [] in
  mret (sort_alerts alerts).

(** ** Reference notions used by the statements *)

(** The twelve month starts of fiscal year [Y] *)
Definition fiscal_months (Y : Z) : list date :=
  [Date Y 9 1; Date Y 10 1; Date Y 11 1; Date Y 12 1;
   Date (Y + 1) 1 1; Date (Y + 1) 2 1; Date (Y + 1) 3 1; Date (Y + 1) 4 1;
   Date (Y + 1) 5 1; Date (Y + 1) 6 1; Date (Y + 1) 7 1; Date (Y + 1) 8 1].

(** [r] is [q] rounded to a whole number of hundredths, the nearest one,
    a tie going away from zero ([ROUND_HALF_UP]). *)
Definition rounded_to_cents (q r : Q) : Prop :=
  exists h : Z,
    r = (h # 100)%Q /\
    ((0 <= q -> inject_Z h - (1 # 2) <= q * 100
                /\ q * 100 < inject_Z h + (1 # 2)) /\
     (q < 0 -> inject_Z h - (1 # 2) < q * 100
               /\ q * 100 <= inject_Z h + (1 # 2)))%Q.

(** The rows that count for a year-to-date sum as of [target_date]: the
    requested variant, dated from the start of the fiscal year of
    [target_date] through [target_date]. *)
Definition in_ytd_window (target_date : date) (is_target : bool)
    (r : kpi_value) : bool :=
  Bool.eqb (kv_is_target r) is_target
  && date_leb (Date (get_fiscal_year target_date default_start_month) 9 1)
              (kv_date r)
  && date_leb (kv_date r) target_date.

(** The sum of the values of the rows that count, a null value counting
    for nothing *)
Definition ytd_reference (values : list kpi_value) (target_date : date)
    (is_target : bool) : Q :=
  foldr Qplus 0%Q
    (map (fun r => default 0%Q (kv_value r))
         (filter (fun r => in_ytd_window target_date is_target r = true)
                 values)).

(** The sum of the values of [rows], a null value counting for nothing *)
Definition values_sum (rows : list kpi_value) : Q :=
  foldr Qplus 0%Q (map (fun r => default 0%Q (kv_value r)) rows).

(** The rows of one KPI for the month [target_month] and one variant *)
Definition monthly_rows (kpi_id : string) (target_month : date)
    (is_target : bool) (all_values : list kpi_value) : list kpi_value :=
  filter (fun v => date_eqb (kv_date v) target_month
                   && (if is_target then kv_is_target v
                       else negb (kv_is_target v)) = true)
    (filter (fun v => kv_kpi_id v = kpi_id) all_values).

(** A small store department: one segment, one KPI whose actual and
    target of November 2024 are both 0, and a target of 100 in October. *)
Definition zero_month_service : service :=
  {| db :=
       {| departments := [Department "d1" "Stores" "store"];
          kpi_definitions := [KpiDefinition "k1" "d1" "売上高" "円" "全体" 1 true];
          segments := [Segment "s1" "三股店" "d1"];
          regions := [];
          store_region_mapping := [];
          kpi_values :=
            <[3 := KpiValue "s1" "k1" (Date 2024 10 1) (Some 100%Q) true]>
            (<[2 := KpiValue "s1" "k1" (Date 2024 11 1) (Some 0%Q) true]>
            (<[1 := KpiValue "s1" "k1" (Date 2024 11 1) (Some 0%Q) false]> ∅))
       |};
     faults := [] |}.

(** Two rows with the same composite identity *)
Definition same_identity (r1 r2 : kpi_value) : Prop :=
  kv_segment_id r1 = kv_segment_id r2 /\ kv_kpi_id r1 = kv_kpi_id r2 /\
  kv_date r1 = kv_date r2 /\ kv_is_target r1 = kv_is_target r2.

(** The uniqueness constraint of the fact table: at most one row per
    composite identity *)
Definition identity_unique (t : gmap Z kpi_value) : Prop :=
  forall (i j : Z) (r1 r2 : kpi_value),
    t !! i = Some r1 -> t !! j = Some r2 -> same_identity r1 r2 -> i = j.

(** The service serves the next [n] requests. *)
Definition served (n : nat) (s : service) : Prop :=
  forall i : nat, (i < n)%nat -> faults s !! i <> Some true.

(** The target row for a segment, a KPI and the month of the date [d] *)
Definition target_row (segment_id kpi_id : string) (d : date) (value : Q)
  : kpi_value :=
  {| kv_segment_id := segment_id; kv_kpi_id := kpi_id;
     kv_date := Date (year d) (month d) 1;
     kv_value := Some value; kv_is_target := true |}.

(** A fact table with one target row, on a service without faults *)
Definition one_target_service : service :=
  {| db :=
       {| departments := []; kpi_definitions := []; segments := [];
          regions := []; store_region_mapping := [];
          kpi_values :=
            {[ 7 := KpiValue "s1" "k1" (Date 2024 11 1) (Some 100%Q) true ]} |};
     faults := [] |}.

(** The same table on a service that fails on the third request *)
Definition faulty_service : service :=
  {| db := db one_target_service; faults := [false; false; true] |}.

(** Three target rows: an update of the existing row, and two new rows *)
Definition three_targets : list target_input :=
  [ TargetInput "s1" "k1" (Date 2024 11 1) 120%Q;
    TargetInput "s2" "k1" (Date 2024 11 1) 80%Q;
    TargetInput "s3" "k1" (Date 2024 11 1) 60%Q ].

(** The segments that the rollup assigns to the region [region_id] *)
Definition region_segments (segment_to_region : gmap string string)
    (unassigned_region_id : option string) (region_id : string)
    (segments : list (string * segment)) : list (string * segment) :=
  filter (fun item =>
            region_of segment_to_region unassigned_region_id item.1
            = Some region_id) segments.

(** The sum of [f] over the items of [l], in list order *)
Definition sum_over {A : Type} (f : A -> Q) (l : list A) : Q :=
  fold_left (fun acc x => (acc + f x)%Q) l 0%Q.

Definition sales_of (totals : store_totals) (item : string * segment) : Q :=
  default 0%Q (store_sales totals !! item.1).

Definition customers_of (totals : store_totals) (item : string * segment) : Q :=
  default 0%Q (store_customers totals !! item.1).

(** A department with one region, none of them named for unassigned
    stores, and one store without a region mapping that sold 500 to 20
    customers in November 2024. *)
Definition no_fallback_service : service :=
  {| db :=
       {| departments := [Department "d1" "Stores" "store"];
          kpi_definitions :=
            [KpiDefinition "k1" "d1" "売上高" "円" "全体" 1 true;
             KpiDefinition "k2" "d1" "客数" "人" "全体" 2 true];
          segments := [Segment "s9" "新店" "d1"];
          regions := [Region "r1" "都城地区" 1];
          store_region_mapping := [];
          kpi_values :=
            <[2 := KpiValue "s9" "k2" (Date 2024 11 1) (Some 20%Q) false]>
            (<[1 := KpiValue "s9" "k1" (Date 2024 11 1) (Some 500%Q) false]> ∅)
       |};
     faults := [] |}.

(** The same department with a region named for unassigned stores *)
Definition fallback_service : service :=
  {| db :=
       {| departments := departments (db no_fallback_service);
          kpi_definitions := kpi_definitions (db no_fallback_service);
          segments := segments (db no_fallback_service);
          regions := [Region "r1" "都城地区" 1; Region "r9" "その他" 9];
          store_region_mapping := [];
          kpi_values := kpi_values (db no_fallback_service) |};
     faults := [] |}.

(** [start <= d <= end] *)
Definition date_between (start_date end_date d : date) : bool :=
  date_leb start_date d && date_leb d end_date.

(** The first and the last month of quarter [q] of fiscal year [Y], with
    their calendar years *)
Definition quarter_span (Y q : Z) : (Z * Z) * (Z * Z) :=
  if q =? 1 then ((Y, 9), (Y, 11))
  else if q =? 2 then ((Y, 12), (Y + 1, 2))
  else if q =? 3 then ((Y + 1, 3), (Y + 1, 5))
  else ((Y + 1, 6), (Y + 1, 8)).

(** [r] is [q] rounded to a whole number of [1 / den], the nearest one, a
    tie going away from zero ([ROUND_HALF_UP]). *)
Definition rounded_to (den : positive) (q r : Q) : Prop :=
  exists h : Z,
    r = (h # den)%Q /\
    ((0 <= q -> inject_Z h - (1 # 2) <= q * inject_Z (Z.pos den)
                /\ q * inject_Z (Z.pos den) < inject_Z h + (1 # 2)) /\
     (q < 0 -> inject_Z h - (1 # 2) < q * inject_Z (Z.pos den)
               /\ q * inject_Z (Z.pos den) <= inject_Z h + (1 # 2)))%Q.

(** [months] are successive month starts from [current], all of them not
    after [end_date], and the month start after the last one is after
    [end_date]. *)
Inductive month_chain (end_date : date) : date -> list date -> Prop :=
  | chain_end (current : date) :
      date_leb current end_date = false ->
      month_chain end_date current []
  | chain_step (current next : date) (months : list date) :
      date_leb current end_date = true ->
      next_month_start current = Ok next ->
      month_chain end_date next months ->
      month_chain end_date current (current :: months).

(** The rows of one variant dated after [d1] and not after [d2] *)
Definition rows_between (d1 d2 : date) (is_target : bool)
    (values : list kpi_value) : list kpi_value :=
  filter (fun r => Bool.eqb (kv_is_target r) is_target
                   && date_ltb d1 (kv_date r)
                   && date_leb (kv_date r) d2 = true) values.

(** The target row an entry of a bulk request stands for *)
Definition row_of (target : target_input) : kpi_value :=
  target_row (ti_segment_id target) (ti_kpi_id target) (ti_month target)
    (ti_value target).

(** A sequence of row writes, each under an id, applied in order *)
Definition apply_writes (ws : list (Z * kpi_value)) (t : gmap Z kpi_value)
  : gmap Z kpi_value :=
  fold_left (fun acc w => <[w.1 := w.2]> acc) ws t.

(** The row the last write under the id [j] leaves, if there is one *)
Fixpoint last_write (j : Z) (ws : list (Z * kpi_value)) : option kpi_value :=
  match ws with
  | [] => None
  | w :: rest =>
      match last_write j rest with
      | Some r => Some r
      | None => if decide (w.1 = j) then Some w.2 else None
      end
  end.

(** Every id of [t] still holds a row of the same identity in [t']. *)
Definition keeps_identities (t t' : gmap Z kpi_value) : Prop :=
  forall (j : Z) (r : kpi_value),
    t !! j = Some r ->
    exists r' : kpi_value, t' !! j = Some r' /\ same_identity r' r.

(** The segment [sg] belongs to the department and passes the filter. *)
Definition listed_segment (department_id : string) (given : option string)
    (d : database) (sg : segment) : Prop :=
  sg ∈ segments d /\ seg_department_id sg = department_id /\
  eq_if_given given (seg_id sg) = true.

(** The KPI [k] is a visible KPI of the department and passes the filter. *)
Definition listed_kpi (department_id : string) (given : option string)
    (d : database) (k : kpi_definition) : Prop :=
  k ∈ kpi_definitions d /\ kd_department_id k = department_id /\
  kd_is_visible k = true /\ eq_if_given given (kd_id k) = true.

(** The listing of the targets of a month as a function of the database:
    what [get_target_values] computes from the three responses *)
Definition target_listing (department_id : string) (month : date)
    (segment_id kpi_id : option string) (d : database)
  : result (list target_value_entry) :=
  let! month := normalize_to_month_start month in
  let segs :=
    segments_by_id
      (filter (fun x => seg_department_id x = department_id
                        /\ eq_if_given segment_id (seg_id x) = true)
              (segments d)) in
  let kpis :=
    kpis_by_id
      (merge_sort by_display_order
         (filter (fun k => kd_department_id k = department_id
                           /\ kd_is_visible k = true
                           /\ eq_if_given kpi_id (kd_id k) = true)
                 (kpi_definitions d))) in
  for_each (target_value_entry_of segs kpis)
    (select_rows (fun v =>
       bool_decide (kv_segment_id v ∈ segs.*1)
       && bool_decide (kv_kpi_id v ∈ kpis.*1)
       && date_eqb (kv_date v) month
       && kv_is_target v) d).

(** A department with two stores and two visible KPIs, and one target *)
Definition listing_service : service :=
  {| db :=
       {| departments := [Department "d1" "Stores" "stores"];
          kpi_definitions :=
            [ KpiDefinition "k1" "d1" "Sales" "yen" "all" 1 true;
              KpiDefinition "k2" "d1" "Customers" "people" "all" 2 true ];
          segments :=
            [ Segment "s1" "Store 1" "d1"; Segment "s2" "Store 2" "d1" ];
          regions := []; store_region_mapping := [];
          kpi_values :=
            {[ 7 := KpiValue "s1" "k1" (Date 2024 11 1) (Some 100%Q) true ]} |};
     faults := [] |}.

(** The mapping of segments to regions after the rows of [mappings] have
    been written over [base], in order: a later row of a segment wins. *)
Definition remapped (mappings : list region_mapping)
    (base : gmap string string) : gmap string string :=
  fold_left (fun acc m => <[rm_segment_id m := rm_region_id m]> acc)
    mappings base.

(** Two stores mapped to regions, on a service that fails on the second
    request *)
Definition mapping_service : service :=
  {| db :=
       {| departments := []; kpi_definitions := []; segments := [];
          regions := [];
          store_region_mapping :=
            [RegionMapping "s1" "r1"; RegionMapping "s2" "r1"];
          kpi_values := ∅ |};
     faults := [false; true] |}.

(** The fact rows of a KPI and a segment *)
Definition cell_rows (d : database) (kpi_id segment_id : string)
  : list kpi_value :=
  filter (fun v => kv_kpi_id v = kpi_id /\ kv_segment_id v = segment_id)
         (map_to_list (kpi_values d)).*2.

(** A cell of the alert check: a department that passes the optional
    filter, one of its visible KPIs and one of its segments *)
Definition alert_cell (d : database) (department_id : option string)
    (dept : department) (kd : kpi_definition) (sg : segment) : Prop :=
  dept ∈ departments d /\ eq_if_given department_id (dept_id dept) = true /\
  kd ∈ kpi_definitions d /\ kd_department_id kd = dept_id dept /\
  kd_is_visible kd = true /\
  sg ∈ segments d /\ seg_department_id sg = dept_id dept.

(** The alert level of a rate below 100 *)
Definition level_below_100 (rate : Q) : string :=
  if Qle_bool 80 rate then "warning" else "critical".

(** One department, one KPI and two stores behind their targets for
    fiscal year 2024: store 1 at 50 of 100, store 2 at 90 of 100 *)
Definition alerts_service : service :=
  {| db :=
       {| departments := [Department "d1" "Stores" "stores"];
          kpi_definitions :=
            [KpiDefinition "k1" "d1" "Sales" "yen" "all" 1 true];
          segments :=
            [ Segment "s2" "Store 2" "d1"; Segment "s1" "Store 1" "d1" ];
          regions := []; store_region_mapping := [];
          kpi_values :=
            <[4 := KpiValue "s2" "k1" (Date 2024 11 1) (Some 90%Q) false]>
            (<[3 := KpiValue "s2" "k1" (Date 2024 11 1) (Some 100%Q) true]>
            (<[2 := KpiValue "s1" "k1" (Date 2024 11 1) (Some 50%Q) false]>
            (<[1 := KpiValue "s1" "k1" (Date 2024 11 1) (Some 100%Q) true]>
               ∅))) |};
     faults := [] |}.

(** A computation that only reads the database *)
Definition read_only {A : Type} (c : M A) : Prop :=
  forall (s s' : service) (o : result A), c s = (s', o) -> db s' = db s.

(** What an alert stands for: a cell of the check whose year-to-date
    target is positive and whose achievement rate, rounded to cents, is
    below 100, with the sums of the cell and the level of the rate *)
Definition justified_alert (d : database) (department_id : option string)
    (m : date) (a : alert) : Prop :=
  exists (dept : department) (kd : kpi_definition) (sg : segment),
    alert_cell d department_id dept kd sg /\
    al_department_name a = dept_name dept /\
    al_kpi_name a = kd_name kd /\
    al_segment_name a = seg_name sg /\
    calculate_ytd (cell_rows d (kd_id kd) (seg_id sg)) m false
    = Ok (al_ytd_actual a) /\
    calculate_ytd (cell_rows d (kd_id kd) (seg_id sg)) m true
    = Ok (al_ytd_target a) /\
    (0 < al_ytd_target a)%Q /\
    al_achievement_rate a
    = quantize 100 (al_ytd_actual a / al_ytd_target a * 100)%Q /\
    (al_achievement_rate a < 100)%Q /\
    al_alert_level a = level_below_100 (al_achievement_rate a).

(** The order of the sort key *)
Definition alert_le (a b : alert) : Prop :=
  key_le (alert_key a) (alert_key b) = true.

(** * Properties *)

(** ** Quarters *)

(** C10. The quarter-to-months lookup is total: quarters 1 to 4 give their
    three months and every other integer gives the months of quarter 1. *)
Theorem get_quarter_months_total (q : Z) :
  get_quarter_months 1 = (9, 10, 11) /\
  get_quarter_months 2 = (12, 1, 2) /\
  get_quarter_months 3 = (3, 4, 5) /\
  get_quarter_months 4 = (6, 7, 8) /\
  (q < 1 \/ 4 < q -> get_quarter_months q = (9, 10, 11)) /\
  (get_quarter_months q = (9, 10, 11) \/ get_quarter_months q = (12, 1, 2) \/
   get_quarter_months q = (3, 4, 5) \/ get_quarter_months q = (6, 7, 8)).
Proof.
  assert (Hout : q < 1 \/ 4 < q -> get_quarter_months q = (9, 10, 11)).
  { intros Hq. unfold get_quarter_months, quarter_to_months.
    rewrite !lookup_insert_ne by lia. by rewrite lookup_empty. }
  repeat split; try reflexivity; try exact Hout.
  destruct (decide (q = 1)) as [->|?]; [by left|].
  destruct (decide (q = 2)) as [->|?]; [by right; left|].
  destruct (decide (q = 3)) as [->|?]; [by right; right; left|].
  destruct (decide (q = 4)) as [->|?]; [by right; right; right|].
  left. apply Hout. lia.
Qed.

Lemma get_quarter_months_total_witness :
  get_quarter_months 7 = (9, 10, 11) /\ get_quarter_months 0 = (9, 10, 11).
Proof.
  split.
  - destruct (get_quarter_months_total 7) as (_ & _ & _ & _ & H & _).
    apply H. right. lia.
  - destruct (get_quarter_months_total 0) as (_ & _ & _ & _ & H & _).
    apply H. left. lia.
Defined.

(** ** Dates *)

Lemma date_ltb_spec (a b : date) :
  date_ltb a b = true <->
  year a < year b \/
  (year a = year b /\
   (month a < month b \/ (month a = month b /\ day a < day b))).
Proof.
  unfold date_ltb.
  rewrite orb_true_iff, andb_true_iff, orb_true_iff, andb_true_iff.
  rewrite !Z.ltb_lt, !Z.eqb_eq. tauto.
Qed.

Lemma date_eqb_spec (a b : date) : date_eqb a b = true <-> a = b.
Proof.
  unfold date_eqb. rewrite !andb_true_iff, !Z.eqb_eq.
  destruct a, b; simpl. split.
  - intros [[-> ->] ->]. reflexivity.
  - intros [= -> -> ->]. auto.
Qed.

Lemma date_leb_spec (a b : date) :
  date_leb a b = true <->
  year a < year b \/
  (year a = year b /\
   (month a < month b \/ (month a = month b /\ day a <= day b))).
Proof.
  unfold date_leb. rewrite orb_true_iff, date_ltb_spec, date_eqb_spec.
  split.
  - intros [H | ->]; lia.
  - intros H. destruct (decide (day a = day b)) as [Hd|Hd].
    + destruct (decide (month a = month b)) as [Hm|Hm];
        destruct (decide (year a = year b)) as [Hy|Hy]; try (left; lia).
      right. destruct a, b; simpl in *; congruence.
    + left. lia.
Qed.

Lemma date_leb_refl (a : date) : date_leb a a = true.
Proof. apply date_leb_spec. lia. Qed.

Lemma date_new_ok (y m d : Z) :
  valid_ymd y m d = true -> date_new y m d = Ok (Date y m d).
Proof. unfold date_new. by intros ->. Qed.

Lemma date_new_inv (y m d : Z) (x : date) :
  date_new y m d = Ok x -> x = Date y m d /\ valid_ymd y m d = true.
Proof.
  unfold date_new. destruct (valid_ymd y m d); [|discriminate].
  by intros [= <-].
Qed.

Lemma days_in_month_lower (y m : Z) : 28 <= days_in_month y m.
Proof.
  unfold days_in_month.
  repeat match goal with |- context [if ?c then _ else _] => destruct c end;
    lia.
Qed.

Lemma valid_ymd_spec (y m d : Z) :
  valid_ymd y m d = true <->
  MINYEAR <= y <= MAXYEAR /\ 1 <= m <= 12 /\ 1 <= d <= days_in_month y m.
Proof.
  unfold valid_ymd. rewrite !andb_true_iff, !Z.leb_le. tauto.
Qed.

Lemma valid_month_start (y m : Z) :
  MINYEAR <= y <= MAXYEAR -> 1 <= m <= 12 -> valid_ymd y m 1 = true.
Proof.
  intros Hy Hm. apply valid_ymd_spec.
  pose proof (days_in_month_lower y m). lia.
Qed.

(** ** Fiscal year *)

Lemma get_fiscal_year_range_default (Y : Z) :
  MINYEAR <= Y -> Y + 1 <= MAXYEAR ->
  get_fiscal_year_range Y default_start_month
  = Ok (Date Y 9 1, Date (Y + 1) 8 31).
Proof.
  intros Hlo Hhi. unfold get_fiscal_year_range, default_start_month.
  rewrite (date_new_ok Y 9 1)
    by (apply valid_month_start; unfold MINYEAR, MAXYEAR in *; lia).
  change (9 =? 1) with false. change (9 - 1) with 8.
  change (monthrange (Y + 1) 8) with (Ok (A := Z) 31).
  cbn [rbind].
  rewrite (date_new_ok (Y + 1) 8 31); [reflexivity|].
  apply valid_ymd_spec. change (days_in_month (Y + 1) 8) with 31.
  unfold MINYEAR, MAXYEAR in *. lia.
Qed.

Lemma get_fiscal_year_range_inv (Y : Z) (p : date * date) :
  get_fiscal_year_range Y default_start_month = Ok p ->
  MINYEAR <= Y /\ Y + 1 <= MAXYEAR /\ p = (Date Y 9 1, Date (Y + 1) 8 31).
Proof.
  intros H.
  assert (Hb : MINYEAR <= Y /\ Y + 1 <= MAXYEAR).
  { revert H. unfold get_fiscal_year_range, default_start_month.
    destruct (date_new Y 9 1) as [s|] eqn:Hs; [|discriminate].
    apply date_new_inv in Hs as [_ Hs]. apply valid_ymd_spec in Hs.
    change (9 =? 1) with false. change (9 - 1) with 8.
    change (monthrange (Y + 1) 8) with (Ok (A := Z) 31). cbn [rbind].
    destruct (date_new (Y + 1) 8 31) as [e|] eqn:He; [|discriminate].
    apply date_new_inv in He as [_ He]. apply valid_ymd_spec in He.
    intros _. lia. }
  destruct Hb as [Hlo Hhi]. rewrite get_fiscal_year_range_default in H by done.
  by injection H as <-.
Qed.

(** C7. A date from September 1 of year Y through August 31 of year Y+1
    belongs to fiscal year Y, which is the calendar year of the date from
    September on and the year before otherwise; the range of fiscal year Y
    is (September 1 of Y, August 31 of Y+1).  Both bounds are dates, so Y
    and Y+1 lie in MINYEAR..MAXYEAR. *)
Theorem fiscal_year_window (Y : Z) (d : date) :
  valid_date (Date Y 9 1) = true ->
  valid_date (Date (Y + 1) 8 31) = true ->
  date_leb (Date Y 9 1) d = true ->
  date_leb d (Date (Y + 1) 8 31) = true ->
  get_fiscal_year d default_start_month = Y /\
  get_fiscal_year d default_start_month
    = (if 9 <=? month d then year d else year d - 1) /\
  get_fiscal_year_range Y default_start_month
    = Ok (Date Y 9 1, Date (Y + 1) 8 31).
Proof.
  intros Hs He Hlo Hhi.
  apply valid_ymd_spec in Hs. apply valid_ymd_spec in He.
  apply date_leb_spec in Hlo. apply date_leb_spec in Hhi.
  cbn [year month day] in *.
  split; [|split].
  - unfold get_fiscal_year, default_start_month.
    destruct (Z.leb_spec 9 (month d)); lia.
  - reflexivity.
  - apply get_fiscal_year_range_default; lia.
Qed.

Lemma fiscal_year_window_witness :
  get_fiscal_year (Date 2025 4 15) default_start_month = 2024 /\
  get_fiscal_year_range 2024 default_start_month
    = Ok (Date 2024 9 1, Date 2025 8 31).
Proof.
  destruct (fiscal_year_window 2024 (Date 2025 4 15)) as (H1 & _ & H3);
    try reflexivity.
  split; [exact H1 | exact H3].
Defined.

(** ** Months of a fiscal year *)

Lemma next_month_start_inv (current next : date) :
  next_month_start current = Ok next ->
  1 <= month next <= 12 /\
  12 * year next + month next = 12 * year current + month current + 1.
Proof.
  unfold next_month_start.
  destruct (Z.eqb_spec (month current) 12) as [Hm|Hm];
    intros H; apply date_new_inv in H as [-> H];
    apply valid_ymd_spec in H; cbn [year month day]; lia.
Qed.

(** The loop stops before [fuel] runs out as soon as [fuel] exceeds the
    number of months from [current] to the end of the year of [end_date]. *)
Lemma months_loop_fuel (end_date : date) (fuel : nat) :
  forall current : date,
    1 <= month current <= 12 ->
    12 * (year end_date - year current) + 12 - month current < Z.of_nat fuel ->
    months_loop fuel current end_date <> Raise FuelExhausted.
Proof.
  induction fuel as [|fuel IH]; intros current Hm Hfuel; cbn [months_loop].
  - destruct (date_leb current end_date) eqn:Hle; [|discriminate].
    apply date_leb_spec in Hle. lia.
  - destruct (date_leb current end_date) eqn:Hle; [|discriminate].
    destruct (next_month_start current) as [next|e] eqn:Hnext; cbn [rbind].
    + apply next_month_start_inv in Hnext as [Hm' Hstep].
      specialize (IH next Hm' ltac:(lia)).
      destruct (months_loop fuel next end_date) as [ms|e]; cbn [rbind];
        congruence.
    + unfold next_month_start in Hnext.
      destruct (month current =? 12); unfold date_new in Hnext;
        destruct (valid_ymd _ _ _); congruence.
Qed.

(** [get_months_in_fiscal_year] always returns or raises a Python
    exception: the iteration bound of the model is never the outcome. *)
Lemma get_months_never_exhausts (fiscal_year : Z) (up_to_month : option date)
    (start_month : Z) :
  get_months_in_fiscal_year fiscal_year up_to_month start_month
  <> Raise FuelExhausted.
Proof.
  unfold get_months_in_fiscal_year, get_fiscal_year_range.
  destruct (date_new fiscal_year start_month 1) as [s|e] eqn:Hs; cbn [rbind].
  2:{ unfold date_new in Hs. destruct (valid_ymd _ _ _); congruence. }
  apply date_new_inv in Hs as [-> Hs]. apply valid_ymd_spec in Hs.
  match goal with
  | |- context [rbind ?c (fun end_date => Ok (_, end_date))] =>
      destruct c as [e|x] eqn:He
  end; cbn [rbind].
  - apply months_loop_fuel; cbn [year month]; [lia|].
    unfold months_fuel. cbn [year]. lia.
  - intros [= ->].
    destruct (start_month =? 1); unfold date_new, monthrange in He;
      repeat match type of He with
             | context [if ?c then _ else _] => destruct c; cbn [rbind] in He
             end; congruence.
Qed.

Lemma months_loop_step (fuel : nat) (current next end_date : date) :
  date_leb current end_date = true ->
  next_month_start current = Ok next ->
  months_loop (S fuel) current end_date
  = (let! months := months_loop fuel next end_date in Ok (current :: months)).
Proof. intros Hle Hnext. cbn [months_loop]. by rewrite Hle, Hnext. Qed.

Lemma months_loop_stop (fuel : nat) (current end_date : date) :
  date_leb current end_date = false ->
  months_loop fuel current end_date = Ok [].
Proof. intros Hle. destruct fuel; cbn [months_loop]; by rewrite Hle. Qed.

Lemma next_month_start_same_year (y m : Z) :
  MINYEAR <= y <= MAXYEAR -> 1 <= m < 12 ->
  next_month_start (Date y m 1) = Ok (Date y (m + 1) 1).
Proof.
  intros Hy Hm. unfold next_month_start. cbn [year month].
  destruct (Z.eqb_spec m 12); [lia|].
  apply date_new_ok, valid_month_start; lia.
Qed.

Lemma next_month_start_december (y : Z) :
  MINYEAR <= y + 1 <= MAXYEAR ->
  next_month_start (Date y 12 1) = Ok (Date (y + 1) 1 1).
Proof.
  intros Hy. unfold next_month_start. cbn [year month]. change (12 =? 12) with true.
  cbn iota. apply date_new_ok, valid_month_start; lia.
Qed.

(** C9. Without an up-to bound the months of fiscal year Y are twelve
    month starts in order, from September 1 of Y to August 1 of Y+1, each
    the first day of the month after the one before.  September 1 of Y
    and August of Y+1 are dates, so Y and Y+1 lie in MINYEAR..MAXYEAR. *)
Theorem months_in_fiscal_year_twelve (Y : Z) :
  MINYEAR <= Y -> Y + 1 <= MAXYEAR ->
  exists months : list date,
    get_months_in_fiscal_year Y None default_start_month = Ok months /\
    months = fiscal_months Y /\
    length months = 12%nat /\
    head months = Some (Date Y 9 1) /\
    last months = Some (Date (Y + 1) 8 1) /\
    (forall (i : nat) (a b : date),
        months !! i = Some a -> months !! S i = Some b ->
        next_month_start a = Ok b).
Proof.
  intros Hlo Hhi. unfold MINYEAR, MAXYEAR in *.
  exists (fiscal_months Y).
  assert (Hnext : forall (i : nat) (a b : date),
             fiscal_months Y !! i = Some a -> fiscal_months Y !! S i = Some b ->
             next_month_start a = Ok b).
  { intros i a b Ha Hb.
    do 12 (destruct i as [|i];
           [cbn in Ha, Hb; try discriminate;
            injection Ha as <-; injection Hb as <-;
            first [ rewrite next_month_start_december
                      by (unfold MINYEAR, MAXYEAR; lia)
                  | rewrite next_month_start_same_year
                      by (unfold MINYEAR, MAXYEAR; lia) ];
            reflexivity
           |]).
    cbn in Ha. destruct i; discriminate. }
  split; [|repeat split; try reflexivity; exact Hnext].
  unfold get_months_in_fiscal_year.
  rewrite get_fiscal_year_range_default by (unfold MINYEAR, MAXYEAR; lia).
  cbn [rbind]. unfold months_fuel. cbn [year].
  replace (12 * (Y + 1 - Y + 1) + 2) with 26 by lia.
  change (Z.to_nat 26) with 26%nat.
  unfold fiscal_months.
  do 12 (erewrite months_loop_step;
         [| apply date_leb_spec; cbn [year month day]; lia
          | first [ apply next_month_start_december; unfold MINYEAR, MAXYEAR; lia
                  | apply (next_month_start_same_year _ _);
                    unfold MINYEAR, MAXYEAR; lia ] ];
         cbn [Z.add Pos.add Pos.succ]).
  rewrite months_loop_stop; [reflexivity|].
  apply not_true_is_false. rewrite date_leb_spec. cbn [year month day]. lia.
Qed.

Lemma months_in_fiscal_year_twelve_witness :
  exists months : list date,
    get_months_in_fiscal_year 2024 None default_start_month = Ok months /\
    length months = 12%nat /\
    head months = Some (Date 2024 9 1) /\
    last months = Some (Date 2025 8 1).
Proof.
  destruct (months_in_fiscal_year_twelve 2024) as (months & H1 & _ & H2 & H3 & H4 & _).
  - unfold MINYEAR. lia.
  - unfold MAXYEAR. lia.
  - exists months. auto.
Defined.

(** ** Alert level *)

(** C6. The alert level is "none" from 100 up and for a null rate,
    "warning" from 80 up to but excluding 100, "critical" below 80, and
    nothing else; 80.00 is "warning" and 79.99 is "critical". *)
Theorem get_alert_level_thresholds (rate : option Q) :
  (rate = None -> get_alert_level rate = "none") /\
  (forall r : Q, rate = Some r -> (100 <= r)%Q ->
                 get_alert_level rate = "none") /\
  (forall r : Q, rate = Some r -> (80 <= r)%Q -> (r < 100)%Q ->
                 get_alert_level rate = "warning") /\
  (forall r : Q, rate = Some r -> (r < 80)%Q ->
                 get_alert_level rate = "critical") /\
  (get_alert_level rate = "none" \/ get_alert_level rate = "warning" \/
   get_alert_level rate = "critical") /\
  get_alert_level (Some 100%Q) = "none" /\
  get_alert_level (Some (8000 # 100)%Q) = "warning" /\
  get_alert_level (Some (7999 # 100)%Q) = "critical" /\
  get_alert_level None = "none".
Proof.
  split; [by intros ->|].
  split.
  { intros r -> Hr. unfold get_alert_level.
    apply Qle_bool_iff in Hr. by rewrite Hr. }
  split.
  { intros r -> Hlo Hhi. unfold get_alert_level.
    destruct (Qle_bool 100 r) eqn:H100.
    - apply Qle_bool_iff in H100. exfalso. by apply (Qlt_not_le r 100).
    - apply Qle_bool_iff in Hlo. by rewrite Hlo. }
  split.
  { intros r -> Hr. unfold get_alert_level.
    destruct (Qle_bool 100 r) eqn:H100.
    { apply Qle_bool_iff in H100. exfalso.
      apply (Qlt_not_le r 80); [done|].
      apply Qle_trans with 100%Q; [discriminate|done]. }
    destruct (Qle_bool 80 r) eqn:H80; [|done].
    apply Qle_bool_iff in H80. exfalso. by apply (Qlt_not_le r 80). }
  split; [|by repeat split].
  unfold get_alert_level. destruct rate as [r|]; [|by left].
  destruct (Qle_bool 100 r); [by left|].
  destruct (Qle_bool 80 r); [right; by left | right; by right].
Qed.

Lemma get_alert_level_thresholds_witness :
  get_alert_level (Some (8333 # 100)%Q) = "warning" /\
  get_alert_level (Some (7999 # 100)%Q) = "critical" /\
  get_alert_level (Some (12000 # 100)%Q) = "none" /\
  get_alert_level None = "none".
Proof.
  split; [|split; [|split]].
  - destruct (get_alert_level_thresholds (Some (8333 # 100)%Q))
      as (_ & _ & H & _).
    apply (H (8333 # 100)%Q); [reflexivity | discriminate | reflexivity].
  - destruct (get_alert_level_thresholds (Some (7999 # 100)%Q))
      as (_ & _ & _ & H & _).
    apply (H (7999 # 100)%Q); reflexivity.
  - destruct (get_alert_level_thresholds (Some (12000 # 100)%Q))
      as (_ & H & _).
    apply (H (12000 # 100)%Q); [reflexivity | discriminate].
  - destruct (get_alert_level_thresholds None) as (H & _).
    apply H. reflexivity.
Defined.

(** ** Achievement rate *)

Lemma py_is_zero_Some (q : Q) : py_is_zero (Some q) = true <-> (q == 0)%Q.
Proof. unfold py_is_zero. apply Qeq_bool_iff. Qed.

(** [round_half_up q] is the integer nearest to [q]; a tie goes away from
    zero. *)
Lemma round_half_up_spec (q : Q) :
  ((0 <= q -> inject_Z (round_half_up q) - (1 # 2) <= q
              /\ q < inject_Z (round_half_up q) + (1 # 2)) /\
   (q < 0 -> inject_Z (round_half_up q) - (1 # 2) < q
             /\ q <= inject_Z (round_half_up q) + (1 # 2)))%Q.
Proof.
  unfold round_half_up. split; intros Hq.
  - apply Qle_bool_iff in Hq as Hb. rewrite Hb.
    pose proof (Qfloor_le (q + (1 # 2))) as Hlo.
    pose proof (Qlt_floor (q + (1 # 2))) as Hhi.
    rewrite inject_Z_plus in Hhi. change (inject_Z 1) with 1%Q in Hhi.
    split; lra.
  - destruct (Qle_bool 0 q) eqn:Hb.
    { apply Qle_bool_iff in Hb. lra. }
    pose proof (Qfloor_le (- q + (1 # 2))) as Hlo.
    pose proof (Qlt_floor (- q + (1 # 2))) as Hhi.
    rewrite inject_Z_plus in Hhi. change (inject_Z 1) with 1%Q in Hhi.
    rewrite inject_Z_opp. split; lra.
Qed.

Lemma quantize_cents (q : Q) : rounded_to_cents q (quantize 100 q).
Proof.
  exists (round_half_up (q * 100)). split; [reflexivity|].
  destruct (round_half_up_spec (q * 100)) as [Hpos Hneg].
  split; intros Hq; [apply Hpos | apply Hneg]; lra.
Qed.




(** ** Year-to-date sum *)

Lemma ytd_step_window (start_date target_date : date) (is_target : bool)
    (total : Q) (item : kpi_value) :
  ytd_step start_date target_date is_target total item
  = if Bool.eqb (kv_is_target item) is_target
       && date_leb start_date (kv_date item)
       && date_leb (kv_date item) target_date
    then (match kv_value item with
          | Some value => (total + value)%Q
          | None => total
          end)
    else total.
Proof.
  unfold ytd_step.
  destruct (Bool.eqb (kv_is_target item) is_target); cbn [negb andb];
    [|reflexivity].
  by destruct (date_leb start_date (kv_date item) &&
               date_leb (kv_date item) target_date).
Qed.

Lemma ytd_loop_sum (target_date : date) (is_target : bool)
    (values : list kpi_value) :
  forall total : Q,
    (fold_left
       (ytd_step (Date (get_fiscal_year target_date default_start_month) 9 1)
          target_date is_target) values total
     == total + ytd_reference values target_date is_target)%Q.
Proof.
  unfold ytd_reference.
  induction values as [|item values IH]; intros total; cbn [fold_left].
  - cbn. lra.
  - rewrite IH, ytd_step_window. rewrite filter_cons.
    change (Bool.eqb (kv_is_target item) is_target
            && date_leb
                 (Date (get_fiscal_year target_date default_start_month) 9 1)
                 (kv_date item)
            && date_leb (kv_date item) target_date)
      with (in_ytd_window target_date is_target item).
    destruct (decide (in_ytd_window target_date is_target item = true))
      as [Hin|Hout].
    + rewrite Hin. cbn [map foldr].
      destruct (kv_value item) as [value|]; unfold default; cbn; lra.
    + apply not_true_is_false in Hout. rewrite Hout. lra.
Qed.

Lemma ytd_loop_no_match (target_date : date) (is_target : bool)
    (values : list kpi_value) (total : Q) :
  (forall r : kpi_value,
      r ∈ values -> in_ytd_window target_date is_target r = false) ->
  fold_left
    (ytd_step (Date (get_fiscal_year target_date default_start_month) 9 1)
       target_date is_target) values total
  = total.
Proof.
  revert total.
  induction values as [|item values IH]; intros total Hnone; [reflexivity|].
  cbn [fold_left]. rewrite ytd_step_window.
  change (Bool.eqb (kv_is_target item) is_target
          && date_leb
               (Date (get_fiscal_year target_date default_start_month) 9 1)
               (kv_date item)
          && date_leb (kv_date item) target_date)
    with (in_ytd_window target_date is_target item).
  rewrite (Hnone item) by apply list_elem_of_here.
  apply IH. intros r Hr. apply Hnone. by apply list_elem_of_further.
Qed.




(** ** Department summary *)

Lemma sum_values_sum (rows : list kpi_value) :
  forall total t : Q,
    sum_values rows total = Ok t -> (t == total + values_sum rows)%Q.
Proof.
  unfold values_sum.
  induction rows as [|v rows IH]; intros total t; cbn [sum_values].
  - intros [= <-]. cbn. lra.
  - cbn [map foldr].
    destruct (kv_value v) as [x|]; cbn [to_decimal rbind]; [|discriminate].
    intros H. apply IH in H. rewrite H. unfold default. cbn. lra.
Qed.

Lemma sum_values_total (rows : list kpi_value) :
  forall total : Q,
    (forall v : kpi_value, v ∈ rows -> kv_value v <> None) ->
    exists t : Q, sum_values rows total = Ok t.
Proof.
  induction rows as [|v rows IH]; intros total Hrows; cbn [sum_values].
  - by eexists.
  - destruct (kv_value v) as [x|] eqn:Hv; cbn [to_decimal rbind].
    + apply IH. intros w Hw. apply Hrows. by apply list_elem_of_further.
    + destruct (Hrows v); [apply list_elem_of_here | exact Hv].
Qed.

Lemma truthy_false_iff (q : Q) : truthy q = false <-> (q == 0)%Q.
Proof.
  unfold truthy. rewrite negb_false_iff. apply Qeq_bool_iff.
Qed.

Lemma float_or_none_zero (q : Q) : (q == 0)%Q -> float_or_none q = None.
Proof.
  intros H. unfold float_or_none. apply truthy_false_iff in H. by rewrite H.
Qed.

Lemma float_or_none_nonzero (q : Q) :
  ~ (q == 0)%Q -> float_or_none q = Some q.
Proof.
  intros H. unfold float_or_none. destruct (truthy q) eqn:Ht; [done|].
  apply truthy_false_iff in Ht. contradiction.
Qed.

Lemma float_or_none_opt_Some (x : option Q) (r : Q) :
  float_or_none_opt x = Some r -> x = Some r /\ ~ (r == 0)%Q.
Proof.
  destruct x as [q|]; cbn [float_or_none_opt]; [|discriminate].
  unfold float_or_none. destruct (truthy q) eqn:Ht; [|discriminate].
  intros [= <-]. split; [done|]. intros H. apply truthy_false_iff in H.
  congruence.
Qed.

Lemma calculate_ytd_inv (values : list kpi_value) (target_date : date)
    (is_target : bool) (total : Q) :
  calculate_ytd values target_date is_target = Ok total ->
  (total == ytd_reference values target_date is_target)%Q.
Proof.
  unfold calculate_ytd.
  destruct (get_fiscal_year_range _ _) as [p|] eqn:Hr; cbn [rbind];
    [|discriminate].
  apply get_fiscal_year_range_inv in Hr as (_ & _ & ->).
  intros [= <-]. rewrite ytd_loop_sum. lra.
Qed.

Lemma rate_on_positive_ok (num den : Q) :
  is_positive den = true ->
  exists r : Q,
    calculate_achievement_rate (Some num) (Some den) = Ok (Some r) /\
    calculate_yoy_rate (Some num) (Some den)
    = Ok (Some (quantize 100 ((num - den) / den * 100)%Q)).
Proof.
  intros Hpos. unfold calculate_achievement_rate, calculate_yoy_rate.
  assert (Hz : py_is_zero (Some den) = false).
  { apply not_true_is_false. intros Hz. apply py_is_zero_Some in Hz.
    unfold is_positive in Hpos. apply negb_true_iff in Hpos.
    assert (Hle : Qle_bool den 0 = true) by (apply Qle_bool_iff; lra).
    congruence. }
  rewrite Hz. by eexists.
Qed.

Lemma is_positive_false (q : Q) : is_positive q = false <-> (q <= 0)%Q.
Proof.
  unfold is_positive. rewrite negb_false_iff. apply Qle_bool_iff.
Qed.




Lemma for_each_entries {A B : Type} (body : A -> result B) (l : list A) :
  forall ys : list B,
    for_each body l = Ok ys -> Forall2 (fun x y => body x = Ok y) l ys.
Proof.
  induction l as [|x l IH]; intros ys; cbn [for_each].
  - intros [= <-]. constructor.
  - destruct (body x) as [y|] eqn:Hy; cbn [rbind]; [|discriminate].
    destruct (for_each body l) as [ys'|]; cbn [rbind]; [|discriminate].
    intros [= <-]. constructor; [exact Hy | by apply IH].
Qed.

Lemma mbind_inv {A B : Type} (c : M A) (k : A -> M B) (s s' : service)
    (b : B) :
  mbind c k s = (s', Ok b) ->
  exists (a : A) (s1 : service), c s = (s1, Ok a) /\ k a s1 = (s', Ok b).
Proof.
  unfold mbind. destruct (c s) as [s1 [a|e]]; [|discriminate].
  intros H. by exists a, s1.
Qed.

(** The entries of a department summary are the [summarize_kpi] of the
    KPI definitions over the fetched rows, in order. *)
Lemma get_department_summary_entries (department_id : string)
    (target_month : date) (include_ytd : bool) (s s' : service)
    (summary : department_summary) :
  get_department_summary department_id target_month include_ytd s
  = (s', Ok summary) ->
  exists (kpi_defs : list kpi_definition)
         (all_values prev_year_values : list kpi_value),
    ds_kpis summary = [] \/
    Forall2 (fun kpi_def e =>
               summarize_kpi kpi_def all_values prev_year_values
                 (ds_period summary) include_ytd = Ok e)
            kpi_defs (ds_kpis summary).
Proof.
  unfold get_department_summary. intros H.
  apply mbind_inv in H as (tm & s1 & _ & H).
  apply mbind_inv in H as (pm & s2 & _ & H).
  apply mbind_inv in H as (dept_rows & s3 & _ & H).
  apply mbind_inv in H as (dept & s4 & _ & H).
  apply mbind_inv in H as (kpi_defs & s5 & _ & H).
  apply mbind_inv in H as (segment_rows & s6 & _ & H).
  destruct (map seg_id segment_rows) as [|sid sids].
  { injection H as _ <-. exists [], [], []. by left. }
  apply mbind_inv in H as ([fiscal_start fiscal_end] & s7 & _ & H).
  apply mbind_inv in H as (all_values & s8 & _ & H).
  apply mbind_inv in H as (prev_year_values & s9 & _ & H).
  apply mbind_inv in H as (kpis_result & s10 & Hloop & H).
  injection H as _ <-. cbn [ds_kpis ds_period].
  exists kpi_defs, all_values, prev_year_values. right.
  unfold lift in Hloop. injection Hloop as _ Hloop.
  by apply for_each_entries.
Qed.

(** ** Target upsert *)

Lemma has_identity_spec (segment_id kpi_id : string) (d : date)
    (is_target : bool) (r : kpi_value) :
  has_identity segment_id kpi_id d is_target r = true <->
  kv_segment_id r = segment_id /\ kv_kpi_id r = kpi_id /\
  kv_date r = d /\ kv_is_target r = is_target.
Proof.
  unfold has_identity.
  rewrite !andb_true_iff, !bool_decide_eq_true, date_eqb_spec, Bool.eqb_true_iff.
  tauto.
Qed.

Lemma select_ids_elem (p : kpi_value -> bool) (d : database) (i : Z) :
  i ∈ select_ids p d <->
  exists r : kpi_value, kpi_values d !! i = Some r /\ p r = true.
Proof.
  unfold select_ids. rewrite list_elem_of_fmap. split.
  - intros ([j r] & -> & Hin). apply list_elem_of_filter in Hin as [Hp Hin].
    apply elem_of_map_to_list in Hin. by exists r.
  - intros (r & Hr & Hp). exists (i, r). split; [done|].
    apply list_elem_of_filter. split; [done|]. by apply elem_of_map_to_list.
Qed.

Lemma served_execute {A : Type} (query : database -> database * A)
    (n : nat) (s : service) :
  served (S n) s ->
  execute query s
  = ({| db := (query (db s)).1; faults := tail (faults s) |},
     Ok (query (db s)).2) /\
  served n {| db := (query (db s)).1; faults := tail (faults s) |}.
Proof.
  intros Hs. split.
  - unfold execute. destruct (faults s) as [|[|] rest] eqn:Hf.
    + by destruct (query (db s)).
    + destruct (Hs 0%nat); [lia|]. by rewrite Hf.
    + by destruct (query (db s)).
  - intros i Hi. cbn [faults]. rewrite lookup_tail. apply Hs. lia.
Qed.

(** One call of [create_target_value] on a working service: the row of the
    identity is found and replaced, or no row has the identity and one is
    inserted under an unused id; either way the table then holds the
    target row under the returned id and nowhere else. *)
Lemma create_target_value_run (segment_id kpi_id : string) (d : date)
    (value : Q) (s : service) :
  valid_date d = true ->
  served 2 s ->
  identity_unique (kpi_values (db s)) ->
  exists (i : Z) (created : bool),
    let t := kpi_values (db s) in
    let data := target_row segment_id kpi_id d value in
    create_target_value segment_id kpi_id d value s
    = ({| db := set_kpi_values (db s) (<[i := data]> t);
          faults := tail (tail (faults s)) |},
       Ok {| id := i; is_created := created |}) /\
    (created = false ->
     exists r0 : kpi_value, t !! i = Some r0 /\ same_identity r0 data) /\
    (created = true ->
     forall (j : Z) (r : kpi_value), t !! j = Some r -> ~ same_identity r data) /\
    (forall (j : Z) (r : kpi_value),
        <[i := data]> t !! j = Some r -> same_identity r data -> j = i).
Proof.
  intros Hd Hserved Huniq.
  set (t := kpi_values (db s)). set (data := target_row segment_id kpi_id d value).
  set (p := has_identity segment_id kpi_id (Date (year d) (month d) 1) true).
  assert (Hp : forall r, p r = true <-> same_identity r data).
  { intros r. unfold p. rewrite has_identity_spec. unfold same_identity, data.
    cbn. tauto. }
  assert (Hnorm : normalize_to_month_start d = Ok (Date (year d) (month d) 1)).
  { apply date_new_ok, valid_month_start; apply valid_ymd_spec in Hd; lia. }
  destruct (served_execute (fun d0 => (d0, select_ids p d0)) 1 s Hserved)
    as [Hsel Hserved1].
  cbn [fst snd] in Hsel, Hserved1.
  unfold create_target_value, mbind at 1, lift. rewrite Hnorm.
  unfold mbind at 1, fetch. fold p. rewrite Hsel.
  change (KpiValue segment_id kpi_id (Date (year d) (month d) 1) (Some value)
            true) with data.
  destruct (select_ids p (db s)) as [|i0 rest] eqn:Hids.
  - (* no row has the identity: insert *)
    set (i := fresh (dom t)).
    assert (Hfresh : t !! i = None).
    { apply not_elem_of_dom. apply is_fresh. }
    exists i, true.
    destruct (served_execute (insert_row data) 0
                {| db := db s; faults := tail (faults s) |} Hserved1)
      as [Hins _].
    unfold mbind. rewrite Hins. unfold insert_row, mret. cbn.
    split; [reflexivity|]. split; [discriminate|].
    assert (Hnone : forall j r, t !! j = Some r -> ~ same_identity r data).
    { intros j r Hj Hsame. apply Hp in Hsame.
      assert (Hin : j ∈ select_ids p (db s)) by (apply select_ids_elem; eauto).
      rewrite Hids in Hin. by apply elem_of_nil in Hin. }
    split; [by intros _|].
    intros j r Hj Hsame. destruct (decide (j = i)) as [->|Hne]; [done|].
    fold t i in Hj. rewrite lookup_insert_ne in Hj by done.
    by destruct (Hnone j r).
  - (* the row of the identity exists: update it *)
    assert (Hi0 : i0 ∈ select_ids p (db s)) by (rewrite Hids; apply list_elem_of_here).
    apply select_ids_elem in Hi0 as (r0 & Hr0 & Hp0).
    exists i0, false.
    destruct (served_execute (update_by_id i0 data) 0
                {| db := db s; faults := tail (faults s) |} Hserved1)
      as [Hupd _].
    unfold mbind. rewrite Hupd. unfold update_by_id, mret. cbn [db].
    rewrite Hr0. cbn.
    split; [reflexivity|]. split.
    { intros _. exists r0. split; [done|]. by apply Hp. }
    split; [discriminate|].
    intros j r Hj Hsame. destruct (decide (j = i0)) as [->|Hne]; [done|].
    fold t in Hj. rewrite lookup_insert_ne in Hj by done.
    apply (Huniq j i0 r r0 Hj Hr0).
    apply Hp in Hp0. unfold same_identity in *. intuition congruence.
Qed.

(** C2. On a fact table with at most one row per composite identity and
    a service that answers, two calls of the target upsert with the same
    segment, KPI, month and value both succeed; the second reports the row
    as updated, under the id the first returned, and changes nothing; the
    table then holds exactly one row of that identity, with the given
    value. *)
Theorem create_target_value_twice (segment_id kpi_id : string) (d : date)
    (value : Q) (s : service) :
  valid_date d = true ->
  served 4 s ->
  identity_unique (kpi_values (db s)) ->
  exists (s1 s2 : service) (r1 r2 : upsert_result),
    let data := target_row segment_id kpi_id d value in
    create_target_value segment_id kpi_id d value s = (s1, Ok r1) /\
    create_target_value segment_id kpi_id d value s1 = (s2, Ok r2) /\
    is_created r2 = false /\
    id r2 = id r1 /\
    kpi_values (db s2) !! id r2 = Some data /\
    (forall (j : Z) (r : kpi_value),
        kpi_values (db s2) !! j = Some r -> same_identity r data ->
        j = id r2 /\ kv_value r = Some value) /\
    kpi_values (db s2) = kpi_values (db s1) /\
    identity_unique (kpi_values (db s2)).
Proof.
  intros Hd Hserved Huniq.
  set (data := target_row segment_id kpi_id d value).
  destruct (create_target_value_run segment_id kpi_id d value s Hd)
    as (i & c1 & Hrun1 & _ & _ & Honly); [| done |].
  { intros k Hk. apply Hserved. lia. }
  cbv zeta in Hrun1, Honly. fold data in Hrun1, Honly.
  set (t1 := <[i := data]> (kpi_values (db s))) in *.
  set (s1 := {| db := set_kpi_values (db s) t1;
                faults := tail (tail (faults s)) |}) in *.
  assert (Huniq1 : identity_unique t1).
  { intros a b ra rb Ha Hb Hsame.
    destruct (decide (a = i)) as [->|Ha'].
    - unfold t1 in Ha. rewrite lookup_insert_eq in Ha. injection Ha as <-.
      symmetry. apply (Honly b rb Hb). unfold same_identity in *.
      intuition congruence.
    - destruct (decide (b = i)) as [->|Hb'].
      + unfold t1 in Hb. rewrite lookup_insert_eq in Hb. injection Hb as <-.
        by apply (Honly a ra Ha).
      + unfold t1 in Ha, Hb. rewrite lookup_insert_ne in Ha, Hb by done.
        by apply (Huniq a b ra rb). }
  destruct (create_target_value_run segment_id kpi_id d value s1 Hd)
    as (i2 & c2 & Hrun2 & Hupd & Hins & _).
  { intros k Hk. unfold s1. cbn [faults]. rewrite !lookup_tail.
    apply Hserved. lia. }
  { exact Huniq1. }
  cbv zeta in Hrun2, Hupd, Hins. fold data in Hrun2, Hupd, Hins.
  change (kpi_values (db s1)) with t1 in Hrun2, Hupd, Hins.
  assert (Hat : t1 !! i = Some data) by (unfold t1; apply lookup_insert_eq).
  assert (Hsame : same_identity data data) by (by unfold same_identity).
  destruct c2.
  { destruct (Hins eq_refl i data Hat Hsame). }
  destruct (Hupd eq_refl) as (r0 & Hr0 & Hsame0).
  assert (Hi2 : i2 = i) by (by apply (Honly i2 r0 Hr0)).
  subst i2.
  assert (Hsame_t : <[i := data]> t1 = t1).
  { unfold t1. apply insert_insert_eq. }
  rewrite Hsame_t in Hrun2.
  eexists s1, _, _, _. cbv zeta.
  split; [exact Hrun1|]. split; [exact Hrun2|].
  cbn [is_created id db kpi_values set_kpi_values].
  split; [done|]. split; [done|]. split; [done|].
  split; [|split; [done|exact Huniq1]].
  intros j r Hj Hsamej.
  assert (j = i) as -> by (by apply (Honly j r Hj)).
  split; [done|]. rewrite Hat in Hj. by injection Hj as <-.
Qed.

Lemma create_target_value_twice_witness :
  exists (s1 s2 : service) (r1 r2 : upsert_result),
    create_target_value "s1" "k1" (Date 2024 11 20) 120%Q one_target_service
    = (s1, Ok r1) /\
    create_target_value "s1" "k1" (Date 2024 11 20) 120%Q s1 = (s2, Ok r2) /\
    is_created r2 = false /\
    kpi_values (db s2) !! id r2
    = Some (KpiValue "s1" "k1" (Date 2024 11 1) (Some 120%Q) true).
Proof.
  destruct (create_target_value_twice "s1" "k1" (Date 2024 11 20) 120%Q
              one_target_service)
    as (s1 & s2 & r1 & r2 & H1 & H2 & Hupd & _ & Hrow & _).
  - reflexivity.
  - intros i _. cbn. by rewrite lookup_nil.
  - intros i j ra rb Ha Hb _. cbn in Ha, Hb.
    apply lookup_singleton_Some in Ha as [<- _].
    by apply lookup_singleton_Some in Hb as [<- _].
  - by exists s1, s2, r1, r2.
Defined.

(** ** Bulk target upsert *)

Lemma execute_inv {A : Type} (query : database -> database * A)
    (s s' : service) (o : result A) :
  execute query s = (s', o) ->
  (o = Raise APIError /\ db s' = db s) \/
  (o = Ok (query (db s)).2 /\ db s' = (query (db s)).1).
Proof.
  unfold execute.
  destruct (faults s) as [|[|] rest]; destruct (query (db s)) as [d a];
    intros [= <- <-]; cbn [db fst snd]; auto.
Qed.

(** A call of [create_target_value] that returns has written the target
    row under the id it returns; a call that raises has written nothing. *)
Lemma create_target_value_outcome (segment_id kpi_id : string) (d : date)
    (value : Q) (s s' : service) (o : result upsert_result) :
  create_target_value segment_id kpi_id d value s = (s', o) ->
  match o with
  | Ok res =>
      kpi_values (db s') !! id res
      = Some (target_row segment_id kpi_id d value)
  | Raise _ => kpi_values (db s') = kpi_values (db s)
  end.
Proof.
  unfold create_target_value, mbind at 1, lift, normalize_to_month_start.
  destruct (date_new (year d) (month d) 1) as [m|e] eqn:Hm.
  2:{ by intros [= <- <-]. }
  apply date_new_inv in Hm as [-> _].
  change (KpiValue segment_id kpi_id (Date (year d) (month d) 1) (Some value)
            true) with (target_row segment_id kpi_id d value).
  set (data := target_row segment_id kpi_id d value).
  unfold mbind at 1, fetch.
  destruct (execute _ s) as [s1 [existing|e]] eqn:Hsel.
  2:{ intros [= <- <-]. by apply execute_inv in Hsel as [[_ ->]|[? _]]. }
  apply execute_inv in Hsel as [[? _]|[_ Hdb1]]; [discriminate|].
  cbn [fst] in Hdb1.
  unfold mbind.
  destruct existing as [|existing_id rest].
  - destruct (execute (insert_row data) s1) as [s2 [response|e]] eqn:Hins.
    2:{ intros [= <- <-]. apply execute_inv in Hins as [[_ ->]|[? _]];
          [by rewrite Hdb1 | discriminate]. }
    apply execute_inv in Hins as [[? _]|[[= ->] Hdb2]]; [discriminate|].
    unfold insert_row, mret. cbn [fst snd]. intros [= <- <-].
    cbn [id]. rewrite Hdb2. unfold insert_row. cbn [fst kpi_values set_kpi_values].
    apply lookup_insert_eq.
  - destruct (execute (update_by_id existing_id data) s1)
      as [s2 [response|e]] eqn:Hupd.
    2:{ intros [= <- <-]. apply execute_inv in Hupd as [[_ ->]|[? _]];
          [by rewrite Hdb1 | discriminate]. }
    apply execute_inv in Hupd as [[? _]|[[= ->] Hdb2]]; [discriminate|].
    unfold update_by_id in *. unfold mret, mraise.
    destruct (kpi_values (db s1) !! existing_id) as [r0|] eqn:Hr0;
      cbn [fst snd] in *; intros [= <- <-].
    + cbn [id]. rewrite Hdb2. cbn [kpi_values set_kpi_values].
      apply lookup_insert_eq.
    + by rewrite Hdb2, Hdb1.
Qed.

Lemma bulk_loop_app (before after : list target_input) :
  forall (result : bulk_result) (s : service),
    bulk_loop (before ++ after) result s
    = (let '(s1, r1) := bulk_loop before result s in bulk_loop after r1 s1).
Proof.
  induction before as [|target before IH]; intros result s; [reflexivity|].
  cbn [app bulk_loop]. destruct (bulk_step result target s) as [s1 r1].
  apply IH.
Qed.

Lemma bulk_step_count (result result' : bulk_result) (target : target_input)
    (s s' : service) :
  bulk_step result target s = (s', result') ->
  created_count result' + updated_count result'
    + Z.of_nat (length (errors result'))
  = created_count result + updated_count result
    + Z.of_nat (length (errors result)) + 1.
Proof.
  unfold bulk_step.
  destruct (create_target_value _ _ _ _ s) as [s1 [res|e]].
  - destruct (is_created res); intros [= _ <-]; cbn; lia.
  - intros [= _ <-]. cbn [created_count updated_count errors].
    rewrite length_app. cbn [length]. lia.
Qed.

Lemma bulk_loop_count (targets : list target_input) :
  forall (result result' : bulk_result) (s s' : service),
    bulk_loop targets result s = (s', result') ->
    created_count result' + updated_count result'
      + Z.of_nat (length (errors result'))
    = created_count result + updated_count result
      + Z.of_nat (length (errors result)) + Z.of_nat (length targets).
Proof.
  induction targets as [|target targets IH]; intros result result' s s';
    cbn [bulk_loop].
  - intros [= <- <-]. cbn [length]. lia.
  - destruct (bulk_step result target s) as [s1 r1] eqn:Hstep.
    intros Hloop. apply IH in Hloop. apply bulk_step_count in Hstep.
    cbn [length]. lia.
Qed.

(** C3. The bulk upsert never raises and accounts for every row:
    created + updated + errors = rows.  Each row is handled on its own, on
    the state its predecessors left: a row whose upsert raises adds one
    error entry, leaves the counts and the table as they were, and the
    loop goes on with the rows after it; a row whose upsert returns is
    written to the table and counted once, as created or as updated. *)
Theorem bulk_upsert_rows_independent (targets : list target_input)
    (s : service) :
  exists (s' : service) (report : bulk_result),
    bulk_upsert_targets targets s = (s', Ok report) /\
    created_count report + updated_count report
      + Z.of_nat (length (errors report))
    = Z.of_nat (length targets) /\
    (forall (before after : list target_input) (target : target_input),
        targets = before ++ target :: after ->
        exists (s1 s2 : service) (r1 r2 : bulk_result)
               (o : result upsert_result),
          bulk_loop before initial_bulk_result s = (s1, r1) /\
          create_target_value (ti_segment_id target) (ti_kpi_id target)
            (ti_month target) (ti_value target) s1 = (s2, o) /\
          bulk_loop after r2 s2 = (s', report) /\
          match o with
          | Ok res =>
              errors r2 = errors r1 /\
              (if is_created res
               then created_count r2 = created_count r1 + 1
                    /\ updated_count r2 = updated_count r1
               else created_count r2 = created_count r1
                    /\ updated_count r2 = updated_count r1 + 1) /\
              kpi_values (db s2) !! id res
              = Some (target_row (ti_segment_id target) (ti_kpi_id target)
                        (ti_month target) (ti_value target))
          | Raise e =>
              errors r2 = errors r1 ++ [error_entry target e] /\
              created_count r2 = created_count r1 /\
              updated_count r2 = updated_count r1 /\
              kpi_values (db s2) = kpi_values (db s1)
          end).
Proof.
  unfold bulk_upsert_targets.
  destruct (bulk_loop targets initial_bulk_result s) as [s' report] eqn:Hloop.
  exists s', report. split; [reflexivity|]. split.
  { apply bulk_loop_count in Hloop. cbn in Hloop. lia. }
  intros before after target ->.
  rewrite bulk_loop_app in Hloop.
  destruct (bulk_loop before initial_bulk_result s) as [s1 r1].
  cbn [bulk_loop] in Hloop.
  destruct (bulk_step r1 target s1) as [s2 r2] eqn:Hstep.
  unfold bulk_step in Hstep.
  destruct (create_target_value _ _ _ _ s1) as [s2' o] eqn:Hcall.
  pose proof (create_target_value_outcome _ _ _ _ _ _ _ Hcall) as Hout.
  exists s1, s2, r1, r2, o.
  destruct o as [res|e]; injection Hstep as -> <-.
  - repeat split; try done.
    + by destruct (is_created res).
    + by destruct (is_created res).
  - by repeat split.
Qed.

Lemma bulk_upsert_rows_independent_witness :
  exists (s' : service) (report : bulk_result),
    bulk_upsert_targets three_targets faulty_service = (s', Ok report) /\
    created_count report + updated_count report
      + Z.of_nat (length (errors report)) = 3.
Proof.
  destruct (bulk_upsert_rows_independent three_targets faulty_service)
    as (s' & report & Hrun & Hcount & _).
  exists s', report. split; [exact Hrun | exact Hcount].
Defined.

(** The second row fails on the service fault; the first is updated and
    the third is still created. *)
Example bulk_upsert_partial_failure :
  exists s' : service,
    bulk_upsert_targets three_targets faulty_service
    = (s', Ok {| created_count := 1; updated_count := 1;
                 errors := [error_entry (TargetInput "s2" "k1"
                                           (Date 2024 11 1) 80%Q) APIError] |})
    /\ (exists i : Z,
          kpi_values (db s') !! i
          = Some (KpiValue "s3" "k1" (Date 2024 11 1) (Some 60%Q) true))
    /\ kpi_values (db s') !! 7
       = Some (KpiValue "s1" "k1" (Date 2024 11 1) (Some 120%Q) true).
Proof.
  eexists. split; [vm_compute; reflexivity|].
  split; [exists 8; vm_compute; reflexivity | vm_compute; reflexivity].
Qed.

(** ** Regional rollup *)

Section Rollup.
Variable segment_to_region : gmap string string.
Variable unassigned_region_id : option string.
Variable totals : store_totals.

Let assign := assign_store segment_to_region unassigned_region_id totals.
Let members := region_segments segment_to_region unassigned_region_id.

(** After the assignment loop a bucket holds what the segments of its
    region added to it, in order. *)
Lemma assign_loop_lookup (segments : list (string * segment))
    (region_id : string) :
  forall regional_data : gmap string bucket,
    fold_left assign segments regional_data !! region_id
    = (fun rd => fold_left (add_store totals) (members region_id segments) rd)
        <$> (regional_data !! region_id).
Proof.
  induction segments as [|item segments IH]; intros regional_data.
  - cbn. by destruct (regional_data !! region_id).
  - cbn [fold_left]. rewrite IH. unfold members, region_segments.
    rewrite filter_cons. unfold assign at 1, assign_store.
    destruct (region_of segment_to_region unassigned_region_id item.1)
      as [r|] eqn:Hr.
    + destruct (decide (Some r = Some region_id)) as [[= ->]|Hne].
      * destruct (regional_data !! region_id) as [rd|] eqn:Hrd.
        -- by rewrite lookup_insert_eq.
        -- by rewrite Hrd.
      * assert (r <> region_id) by congruence.
        destruct (regional_data !! r) as [rd|]; [|done].
        by rewrite lookup_insert_ne.
    + by destruct (decide (None = Some region_id)).
Qed.

Lemma add_stores_fields (items : list (string * segment)) :
  forall rd : bucket,
    let rd' := fold_left (add_store totals) items rd in
    b_stores rd'
    = b_stores rd ++ map (fun item => store_data_of totals item.1 item.2) items /\
    b_total_sales rd'
    = fold_left (fun acc x => (acc + sales_of totals x)%Q) items
        (b_total_sales rd) /\
    b_total_customers rd'
    = fold_left (fun acc x => (acc + customers_of totals x)%Q) items
        (b_total_customers rd).
Proof.
  induction items as [|item items IH]; intros rd; cbn [fold_left map].
  - by rewrite app_nil_r.
  - destruct (IH (add_store totals rd item)) as (Hs & Ht & Hc).
    cbv zeta. rewrite Hs, Ht, Hc. cbn [add_store b_stores b_total_sales
                                       b_total_customers].
    by rewrite <- app_assoc.
Qed.
End Rollup.

Lemma init_regional_data_lookup (regions : list region) (r : region) :
  r ∈ regions ->
  exists rd : bucket,
    init_regional_data regions !! reg_id r = Some rd /\
    b_stores rd = [] /\ b_total_sales rd = 0%Q /\ b_total_customers rd = 0%Q.
Proof.
  unfold init_regional_data. generalize (∅ : gmap string bucket).
  induction regions as [|r0 regions IH] using rev_ind; intros acc Hin.
  - by apply elem_of_nil in Hin.
  - rewrite fold_left_app. cbn [fold_left].
    destruct (decide (reg_id r0 = reg_id r)) as [Heq|Hne].
    + rewrite Heq, lookup_insert_eq. by eexists.
    + rewrite lookup_insert_ne by done. apply IH.
      apply elem_of_app in Hin as [Hin|Hin]; [done|].
      apply list_elem_of_singleton in Hin. congruence.
Qed.

Lemma find_unassigned_region_id_elem (regions : list region) (u : string) :
  find_unassigned_region_id regions = Some u ->
  exists r : region,
    r ∈ regions /\ reg_id r = u /\ reg_name r = unassigned_region_name.
Proof.
  induction regions as [|r regions IH]; cbn [find_unassigned_region_id];
    [discriminate|].
  case_bool_decide as Hname.
  - intros [= <-]. exists r. split; [apply list_elem_of_here | done].
  - intros H. destruct (IH H) as (r' & Hin & Hid & Hn).
    exists r'. split; [by apply list_elem_of_further | done].
Qed.

(** The [for region in regions] loop, given what each bucket holds: it
    never misses a bucket, lists the regions that have stores in order and
    adds their totals up. *)
Lemma rollup_loop_run (regional_data : gmap string bucket)
    (stores : string -> list store_data) (sales customers : string -> Q)
    (regions : list region) :
  (forall r : region,
      r ∈ regions ->
      exists rd : bucket,
        regional_data !! reg_id r = Some rd /\
        b_stores rd = stores (reg_id r) /\
        b_total_sales rd = sales (reg_id r) /\
        b_total_customers rd = customers (reg_id r)) ->
  forall acc : rollup_acc,
  exists (acc' : rollup_acc) (entries : list region_summary),
    rollup_loop regional_data regions acc = Ok acc' /\
    result_regions acc' = result_regions acc ++ entries /\
    Forall2 (fun r e =>
               rs_region_id e = reg_id r /\
               rs_total_sales e = positive_or_none (sales (reg_id r)) /\
               rs_total_customers e
               = int_positive_or_none (customers (reg_id r)) /\
               rs_stores e = stores (reg_id r))
            (filter (fun r => stores (reg_id r) <> []) regions) entries /\
    grand_total_sales acc'
    = fold_left (fun a e => (a + sales (rs_region_id e))%Q) entries
        (grand_total_sales acc) /\
    grand_total_customers acc'
    = fold_left (fun a e => (a + customers (rs_region_id e))%Q) entries
        (grand_total_customers acc).
Proof.
  induction regions as [|r regions IH]; intros Hdata acc.
  - exists acc, []. cbn. rewrite app_nil_r. repeat split. constructor.
  - destruct (Hdata r) as (rd & Hrd & Hst & Hsa & Hcu);
      [apply list_elem_of_here|].
    assert (Hrest : forall r' : region,
               r' ∈ regions ->
               exists rd' : bucket,
                 regional_data !! reg_id r' = Some rd' /\
                 b_stores rd' = stores (reg_id r') /\
                 b_total_sales rd' = sales (reg_id r') /\
                 b_total_customers rd' = customers (reg_id r')).
    { intros r' Hr'. apply Hdata. by apply list_elem_of_further. }
    cbn [rollup_loop]. unfold rollup_step. rewrite Hrd. rewrite filter_cons.
    destruct (b_stores rd) as [|sd sds] eqn:Hstores.
    + cbn [rbind]. destruct (IH Hrest acc) as (acc' & entries & H).
      exists acc', entries.
      destruct (decide (stores (reg_id r) <> [])) as [Hne|_]; [congruence|].
      exact H.
    + cbn [rbind].
      match goal with
      | |- context [rollup_loop regional_data regions ?a] =>
          destruct (IH Hrest a)
            as (acc' & entries & Hrun & Hres & Hall & Hgs & Hgc)
      end.
      cbn [result_regions grand_total_sales grand_total_customers] in *.
      eexists acc', (_ :: entries).
      split; [exact Hrun|]. split; [by rewrite Hres, <- app_assoc|].
      destruct (decide (stores (reg_id r) <> [])) as [_|Heq];
        [|destruct Heq; congruence].
      split; [|split].
      * constructor; [|exact Hall]. cbn. by rewrite Hsa, Hcu, <- Hst.
      * cbn [fold_left rs_region_id]. by rewrite Hgs, Hsa.
      * cbn [fold_left rs_region_id]. by rewrite Hgc, Hcu.
Qed.




Lemma fetch_inv {A : Type} (query : database -> A) (s s' : service) (a : A) :
  fetch query s = (s', Ok a) -> a = query (db s) /\ db s' = db s.
Proof.
  unfold fetch. intros H.
  apply execute_inv in H as [[? _]|[[= ->] Hdb]]; [discriminate|].
  by cbn [fst snd] in *.
Qed.

Lemma segment_to_region_of_unmapped (rows : list region_mapping)
    (seg_id : string) :
  (forall m : region_mapping, m ∈ rows -> rm_segment_id m <> seg_id) ->
  segment_to_region_of rows !! seg_id = None.
Proof.
  unfold segment_to_region_of.
  induction rows as [|m rows IH] using rev_ind; intros Hrows; [done|].
  rewrite fold_left_app. cbn [fold_left].
  rewrite lookup_insert_ne.
  - apply IH. intros m' Hm'. apply Hrows, elem_of_app. by left.
  - apply Hrows, elem_of_app. right. apply list_elem_of_here.
Qed.

(** The regions and the grand total of a regional summary are the
    [regional_rollup] of the ordered region list, the segments of the
    department and the mapping rows of those segments. *)
Lemma get_regional_summary_rollup (department_id : string)
    (target_month : date) (period_type : string) (s s' : service)
    (summary : regional_summary) :
  get_regional_summary department_id target_month period_type s
  = (s', Ok summary) ->
  let segs :=
    segments_by_id
      (filter (fun x => seg_department_id x = department_id)
              (segments (db s))) in
  (segs = [] /\ rg_regions summary = [] /\ rg_grand_total summary = None) \/
  (exists totals : store_totals,
      regional_rollup (merge_sort by_region_order (regions (db s))) segs
        (segment_to_region_of
           (filter (fun m => rm_segment_id m ∈ map fst segs)
                   (store_region_mapping (db s))))
        totals
      = Ok (rg_regions summary, rg_grand_total summary)).
Proof.
  intros H segs. unfold get_regional_summary, get_regions in H.
  apply mbind_inv in H as (tm & s1 & Hs1 & H).
  apply mbind_inv in H as (pm & s2 & Hs2 & H).
  apply mbind_inv in H as ([fs pfs] & s3 & Hs3 & H).
  unfold lift in Hs1, Hs2, Hs3.
  injection Hs1 as <- _. injection Hs2 as <- _. injection Hs3 as <- _.
  apply mbind_inv in H as (regs & s4 & Hregs & H).
  apply fetch_inv in Hregs as [-> Hdb4].
  apply mbind_inv in H as (segment_rows & s5 & Hsegs & H).
  apply fetch_inv in Hsegs as [-> Hdb5]. rewrite Hdb4 in *.
  fold segs in H.
  destruct (map fst segs) as [|i0 ids] eqn:Hids.
  { left. injection H as _ <-. destruct segs; [done|discriminate]. }
  right.
  apply mbind_inv in H as (mapping_rows & s6 & Hmap & H).
  apply fetch_inv in Hmap as [-> Hdb6]. rewrite Hdb5 in *.
  apply mbind_inv in H as (kpi_rows & s7 & _ & H).
  apply mbind_inv in H as (current_rows & s8 & _ & H).
  apply mbind_inv in H as (prev_rows & s9 & _ & H).
  apply mbind_inv in H as (store_target_rows & s10 & _ & H).
  apply mbind_inv in H as ([regions_result grand_total] & s11 & Hroll & H).
  injection H as _ <-. cbn [rg_regions rg_grand_total].
  unfold lift in Hroll. injection Hroll as _ Hroll.
  eexists. exact Hroll.
Qed.

(** * Further properties *)

(** ** Quarters and period ranges ([period_utils.py]) *)

(** X1. Whatever integer it is given, [get_quarter] answers with a
    quarter from 1 to 4. *)
Theorem get_quarter_bounds (m : Z) :
  1 <= PeriodUtils.get_quarter m <= 4.
Proof.
  unfold PeriodUtils.get_quarter, PeriodUtils.FISCAL_YEAR_START_MONTH.
  Z.to_euclidean_division_equations. lia.
Qed.

Lemma get_quarter_cases (m : Z) :
  1 <= m <= 12 ->
  PeriodUtils.get_quarter m
  = (if (9 <=? m) && (m <=? 11) then 1
     else if (m =? 12) || (m <=? 2) then 2
     else if m <=? 5 then 3 else 4).
Proof.
  intros Hm.
  assert (Hc : m = 1 \/ m = 2 \/ m = 3 \/ m = 4 \/ m = 5 \/ m = 6 \/ m = 7 \/
               m = 8 \/ m = 9 \/ m = 10 \/ m = 11 \/ m = 12) by lia.
  repeat (destruct Hc as [->|Hc]; [reflexivity|]). by subst.
Qed.

(** X2. Months and quarters agree: a month from 1 to 12 is one of the
    three months of its quarter, and each of the three months of a quarter
    from 1 to 4 has that quarter. *)
Theorem quarter_months_round_trip (m q : Z) :
  (1 <= m <= 12 ->
   let '(a, b, c) := get_quarter_months (PeriodUtils.get_quarter m) in
   m = a \/ m = b \/ m = c) /\
  (1 <= q <= 4 ->
   let '(a, b, c) := get_quarter_months q in
   PeriodUtils.get_quarter a = q /\ PeriodUtils.get_quarter b = q /\
   PeriodUtils.get_quarter c = q).
Proof.
  split.
  - intros Hm.
    assert (Hc : m = 1 \/ m = 2 \/ m = 3 \/ m = 4 \/ m = 5 \/ m = 6 \/ m = 7 \/
                 m = 8 \/ m = 9 \/ m = 10 \/ m = 11 \/ m = 12) by lia.
    repeat (destruct Hc as [->|Hc]; [vm_compute; tauto|]).
    subst. vm_compute. tauto.
  - intros Hq.
    assert (Hc : q = 1 \/ q = 2 \/ q = 3 \/ q = 4) by lia.
    repeat (destruct Hc as [->|Hc]; [by vm_compute|]).
    subst. by vm_compute.
Qed.

Lemma quarter_months_round_trip_witness :
  (let '(a, b, c) := get_quarter_months (PeriodUtils.get_quarter 2) in
   2 = a \/ 2 = b \/ 2 = c) /\
  (let '(a, b, c) := get_quarter_months 3 in
   PeriodUtils.get_quarter a = 3 /\ PeriodUtils.get_quarter b = 3 /\
   PeriodUtils.get_quarter c = 3).
Proof.
  split.
  - apply (quarter_months_round_trip 2 3). lia.
  - apply (quarter_months_round_trip 2 3). lia.
Defined.

Lemma monthrange_ok (y m : Z) :
  1 <= m <= 12 -> monthrange y m = Ok (days_in_month y m).
Proof.
  intros Hm. unfold monthrange.
  destruct (Z.leb_spec 1 m); [|lia]. destruct (Z.leb_spec m 12); [|lia].
  reflexivity.
Qed.

Lemma valid_month_end (y m : Z) :
  MINYEAR <= y <= MAXYEAR -> 1 <= m <= 12 ->
  valid_ymd y m (days_in_month y m) = true.
Proof.
  intros Hy Hm. apply valid_ymd_spec.
  pose proof (days_in_month_lower y m). lia.
Qed.

Lemma date_between_spec (s e d : date) :
  date_between s e d = true <-> date_leb s d = true /\ date_leb d e = true.
Proof. unfold date_between. apply andb_true_iff. Qed.

(** The dates from the first to the last day of a month are the valid
    dates of that year and month. *)
Lemma month_span_membership (y1 m1 y2 m2 : Z) (d : date) :
  valid_date d = true ->
  1 <= m1 <= 12 -> 1 <= m2 <= 12 ->
  (date_between (Date y1 m1 1) (Date y2 m2 (days_in_month y2 m2)) d = true
   <-> 12 * y1 + m1 <= 12 * year d + month d <= 12 * y2 + m2).
Proof.
  intros Hd Hm1 Hm2. apply valid_ymd_spec in Hd.
  rewrite date_between_spec, !date_leb_spec. cbn [year month day].
  destruct d as [dy dm dd]. cbn [year month day] in *.
  split.
  - lia.
  - intros H. split; [lia|].
    destruct (decide (dy = y2 /\ dm = m2)) as [Heq|Hne];
      [destruct Heq; subst|]; lia.
Qed.

Lemma monthly_range_explicit (y m : Z) :
  MINYEAR <= y <= MAXYEAR -> 1 <= m <= 12 ->
  PeriodUtils._get_monthly_range y m
  = Ok (Date y m 1, Date y m (days_in_month y m),
        PeriodUtils.monthly_label y m).
Proof.
  intros Hy Hm. unfold PeriodUtils._get_monthly_range.
  rewrite date_new_ok by (by apply valid_month_start). cbn [rbind].
  rewrite monthrange_ok by done. cbn [rbind].
  rewrite date_new_ok by (by apply valid_month_end). reflexivity.
Qed.

(** X3. The monthly range, which is also what an unknown period type
    gives, runs from the first to the last day of the month and holds
    exactly the dates of that year and month; a month outside 1..12 is
    refused with [ValueError]. *)
Theorem monthly_range_membership (period_type : string) (y m q : Z) :
  period_type <> "quarterly" -> period_type <> "yearly" ->
  MINYEAR <= y <= MAXYEAR ->
  (1 <= m <= 12 ->
   PeriodUtils.get_period_range period_type y m q
   = Ok (Date y m 1, Date y m (days_in_month y m),
         PeriodUtils.monthly_label y m) /\
   forall d : date,
     valid_date d = true ->
     (date_between (Date y m 1) (Date y m (days_in_month y m)) d = true
      <-> year d = y /\ month d = m)) /\
  (m < 1 \/ 12 < m ->
   PeriodUtils.get_period_range period_type y m q = Raise ValueError).
Proof.
  intros Hq Hy Hyear.
  assert (Hrange : PeriodUtils.get_period_range period_type y m q
                   = PeriodUtils._get_monthly_range y m).
  { unfold PeriodUtils.get_period_range.
    repeat case_bool_decide; congruence. }
  rewrite Hrange. split.
  - intros Hm. split; [by apply monthly_range_explicit|].
    intros d Hd. rewrite month_span_membership by done.
    apply valid_ymd_spec in Hd. lia.
  - intros Hm. unfold PeriodUtils._get_monthly_range, date_new.
    assert (Hv : valid_ymd y m 1 = false).
    { apply not_true_is_false. rewrite valid_ymd_spec. lia. }
    by rewrite Hv.
Qed.

Lemma monthly_range_membership_witness :
  PeriodUtils.get_period_range "weekly" 2024 2 1
  = Ok (Date 2024 2 1, Date 2024 2 29, PeriodUtils.monthly_label 2024 2) /\
  PeriodUtils.get_period_range "monthly" 2024 13 1 = Raise ValueError.
Proof.
  destruct (monthly_range_membership "weekly" 2024 2 1) as [H _];
    [discriminate | discriminate | unfold MINYEAR, MAXYEAR; lia |].
  destruct (monthly_range_membership "monthly" 2024 13 1) as [_ H'];
    [discriminate | discriminate | unfold MINYEAR, MAXYEAR; lia |].
  split.
  - apply H. lia.
  - apply H'. lia.
Defined.

Lemma quarterly_range_explicit (Y q : Z) :
  MINYEAR <= Y -> Y + 1 <= MAXYEAR -> 1 <= q <= 4 ->
  PeriodUtils._get_quarterly_range Y q
  = (let '((sy, sm), (ey, em)) := quarter_span Y q in
     Ok (Date sy sm 1, Date ey em (days_in_month ey em),
         PeriodUtils.quarterly_label Y q)).
Proof.
  intros Hlo Hhi Hq.
  assert (Hc : q = 1 \/ q = 2 \/ q = 3 \/ q = 4) by lia.
  unfold PeriodUtils._get_quarterly_range.
  destruct Hc as [-> | [-> | [-> | ->]]]; cbv [get_quarter_months quarter_span];
    cbn [Z.eqb Pos.eqb];
    match goal with
    | |- context [default _ (quarter_to_months !! ?k)] =>
        let v := eval vm_compute in (quarter_to_months !! k) in
        change (quarter_to_months !! k) with v;
        cbv beta iota zeta delta [default from_option Datatypes.id]
    end;
    rewrite date_new_ok by (apply valid_month_start; lia); cbn [rbind];
    rewrite monthrange_ok by lia; cbn [rbind];
    rewrite date_new_ok by (apply valid_month_end; lia); reflexivity.
Qed.

Lemma period_get_fiscal_year_agrees (d : date) :
  PeriodUtils.get_fiscal_year d = get_fiscal_year d default_start_month.
Proof. reflexivity. Qed.

(** X4. For a quarter from 1 to 4 the quarterly range holds exactly the
    dates whose fiscal year is the requested one and whose month belongs
    to the quarter. *)
Theorem quarterly_range_membership (Y m q : Z) :
  MINYEAR <= Y -> Y + 1 <= MAXYEAR -> 1 <= q <= 4 ->
  exists start_date end_date : date,
    PeriodUtils.get_period_range "quarterly" Y m q
    = Ok (start_date, end_date, PeriodUtils.quarterly_label Y q) /\
    forall d : date,
      valid_date d = true ->
      (date_between start_date end_date d = true
       <-> PeriodUtils.get_fiscal_year d = Y
           /\ PeriodUtils.get_quarter (month d) = q).
Proof.
  intros Hlo Hhi Hq.
  change (PeriodUtils.get_period_range "quarterly" Y m q)
    with (PeriodUtils._get_quarterly_range Y q).
  rewrite quarterly_range_explicit by done.
  assert (Hc : q = 1 \/ q = 2 \/ q = 3 \/ q = 4) by lia.
  destruct Hc as [-> | [-> | [-> | ->]]]; cbn [quarter_span Z.eqb Pos.eqb];
    (eexists _, _; split; [reflexivity|]; intros d Hd;
     rewrite month_span_membership by (done || lia);
     apply valid_ymd_spec in Hd;
     rewrite get_quarter_cases by lia;
     unfold PeriodUtils.get_fiscal_year, PeriodUtils.FISCAL_YEAR_START_MONTH;
     repeat match goal with
            | |- context [?a <=? ?b] => destruct (Z.leb_spec a b)
            | |- context [?a =? ?b] => destruct (Z.eqb_spec a b)
            end; cbn [andb orb]; lia).
Qed.

Lemma quarterly_range_membership_witness :
  exists start_date end_date : date,
    PeriodUtils.get_period_range "quarterly" 2023 1 2
    = Ok (start_date, end_date, PeriodUtils.quarterly_label 2023 2) /\
    date_between start_date end_date (Date 2024 2 29) = true.
Proof.
  destruct (quarterly_range_membership 2023 1 2)
    as (s & e & Hrun & Hin); [unfold MINYEAR | unfold MAXYEAR | |]; try lia.
  exists s, e. split; [exact Hrun|].
  apply Hin; [reflexivity|]. split; reflexivity.
Defined.

(** X5. The four quarterly ranges of a fiscal year follow one another
    without gap or overlap and cover the yearly range, which is the
    fiscal-year range of [metrics.py]: the first starts with the year, the
    last ends with it, each ends on the last day of a month and the next
    starts on the first day of the month after. *)
Theorem quarters_tile_fiscal_year (Y : Z) :
  MINYEAR <= Y -> Y + 1 <= MAXYEAR ->
  exists s1 e1 s2 e2 s3 e3 s4 e4 : date,
    PeriodUtils._get_quarterly_range Y 1
    = Ok (s1, e1, PeriodUtils.quarterly_label Y 1) /\
    PeriodUtils._get_quarterly_range Y 2
    = Ok (s2, e2, PeriodUtils.quarterly_label Y 2) /\
    PeriodUtils._get_quarterly_range Y 3
    = Ok (s3, e3, PeriodUtils.quarterly_label Y 3) /\
    PeriodUtils._get_quarterly_range Y 4
    = Ok (s4, e4, PeriodUtils.quarterly_label Y 4) /\
    PeriodUtils._get_yearly_range Y = Ok (s1, e4, PeriodUtils.yearly_label Y) /\
    get_fiscal_year_range Y default_start_month = Ok (s1, e4) /\
    next_month_start e1 = Ok s2 /\
    next_month_start e2 = Ok s3 /\
    next_month_start e3 = Ok s4 /\
    Forall (fun e => day e = days_in_month (year e) (month e)) [e1; e2; e3; e4].
Proof.
  intros Hlo Hhi.
  do 8 eexists.
  rewrite !quarterly_range_explicit by (done || lia).
  cbn [quarter_span Z.eqb Pos.eqb].
  split; [reflexivity|]. split; [reflexivity|]. split; [reflexivity|].
  split; [reflexivity|].
  split.
  { unfold PeriodUtils._get_yearly_range, PeriodUtils.FISCAL_YEAR_START_MONTH.
    rewrite date_new_ok by (apply valid_month_start; lia). cbn [rbind].
    change (9 - 1) with 8. rewrite monthrange_ok by lia. cbn [rbind].
    rewrite date_new_ok by (apply valid_month_end; lia). reflexivity. }
  split; [by apply get_fiscal_year_range_default|].
  split; [apply (next_month_start_same_year Y 11); lia|].
  split; [apply (next_month_start_same_year (Y + 1) 2); lia|].
  split; [apply (next_month_start_same_year (Y + 1) 5); lia|].
  repeat constructor.
Qed.

Lemma quarters_tile_fiscal_year_witness :
  exists s1 e4 : date,
    PeriodUtils._get_yearly_range 2024
    = Ok (s1, e4, PeriodUtils.yearly_label 2024) /\
    get_fiscal_year_range 2024 default_start_month = Ok (s1, e4).
Proof.
  destruct (quarters_tile_fiscal_year 2024)
    as (s1 & e1 & s2 & e2 & s3 & e3 & s4 & e4 & _ & _ & _ & _ & Hy & Hf & _);
    [unfold MINYEAR; lia | unfold MAXYEAR; lia |].
  by exists s1, e4.
Defined.

(** X6. A quarter outside 1..4 is not refused: the range is September 1
    to November 30 of the year after the requested fiscal year, under the
    label of the requested year and quarter. *)
Theorem quarterly_range_out_of_range (Y q : Z) :
  q < 1 \/ 4 < q ->
  MINYEAR <= Y + 1 <= MAXYEAR ->
  PeriodUtils._get_quarterly_range Y q
  = Ok (Date (Y + 1) 9 1, Date (Y + 1) 11 30,
        PeriodUtils.quarterly_label Y q).
Proof.
  intros Hq Hy. unfold PeriodUtils._get_quarterly_range.
  assert (Hdefault : get_quarter_months q = (9, 10, 11)).
  { unfold get_quarter_months, quarter_to_months.
    rewrite !lookup_insert_ne by lia. by rewrite lookup_empty. }
  rewrite Hdefault.
  destruct (Z.eqb_spec q 1); [lia|]. destruct (Z.eqb_spec q 2); [lia|].
  rewrite date_new_ok by (apply valid_month_start; lia). cbn [rbind].
  rewrite monthrange_ok by lia. cbn [rbind].
  rewrite date_new_ok by (apply valid_month_end; lia). reflexivity.
Qed.

Lemma quarterly_range_out_of_range_witness :
  PeriodUtils._get_quarterly_range 2025 5
  = Ok (Date 2026 9 1, Date 2026 11 30, PeriodUtils.quarterly_label 2025 5).
Proof.
  apply (quarterly_range_out_of_range 2025 5);
    unfold MINYEAR, MAXYEAR; lia.
Defined.

(** X7. The yearly range holds exactly the dates of the requested fiscal
    year. *)
Theorem yearly_range_membership (Y m q : Z) :
  MINYEAR <= Y -> Y + 1 <= MAXYEAR ->
  exists start_date end_date : date,
    PeriodUtils.get_period_range "yearly" Y m q
    = Ok (start_date, end_date, PeriodUtils.yearly_label Y) /\
    forall d : date,
      valid_date d = true ->
      (date_between start_date end_date d = true
       <-> PeriodUtils.get_fiscal_year d = Y).
Proof.
  intros Hlo Hhi.
  change (PeriodUtils.get_period_range "yearly" Y m q)
    with (PeriodUtils._get_yearly_range Y).
  exists (Date Y 9 1), (Date (Y + 1) 8 (days_in_month (Y + 1) 8)).
  split.
  - unfold PeriodUtils._get_yearly_range, PeriodUtils.FISCAL_YEAR_START_MONTH.
    rewrite date_new_ok by (apply valid_month_start; lia). cbn [rbind].
    change (9 - 1) with 8. rewrite monthrange_ok by lia. cbn [rbind].
    rewrite date_new_ok by (apply valid_month_end; lia). reflexivity.
  - intros d Hd. rewrite month_span_membership by (done || lia).
    apply valid_ymd_spec in Hd.
    unfold PeriodUtils.get_fiscal_year, PeriodUtils.FISCAL_YEAR_START_MONTH.
    destruct (Z.leb_spec 9 (month d)); lia.
Qed.

Lemma yearly_range_membership_witness :
  exists start_date end_date : date,
    PeriodUtils.get_period_range "yearly" 2024 1 1
    = Ok (start_date, end_date, PeriodUtils.yearly_label 2024) /\
    date_between start_date end_date (Date 2025 8 31) = true.
Proof.
  destruct (yearly_range_membership 2024 1 1) as (s & e & Hrun & Hin);
    [unfold MINYEAR; lia | unfold MAXYEAR; lia |].
  exists s, e. split; [exact Hrun|]. by apply Hin.
Defined.

(** ** Previous-year ranges ([period_utils.py]) *)

Lemma isleap_mod4 (y : Z) : isleap y = true -> y mod 4 = 0.
Proof.
  unfold isleap. intros H. apply andb_true_iff in H as [H _].
  by apply Z.eqb_eq in H.
Qed.

Lemma not_leap_near (y k : Z) :
  isleap y = true -> k = 1 \/ k = 2 -> isleap (y - k) = false.
Proof.
  intros Hy Hk. apply isleap_mod4 in Hy.
  apply not_true_is_false. intros Hk'. apply isleap_mod4 in Hk'.
  revert Hy Hk'. Z.to_euclidean_division_equations. lia.
Qed.

Lemma days_in_month_other_year (y y' m : Z) :
  m <> 2 -> days_in_month y m = days_in_month y' m.
Proof.
  intros Hm. unfold days_in_month. by destruct (Z.eqb_spec m 2).
Qed.

Lemma days_in_february (y : Z) :
  days_in_month y 2 = if isleap y then 29 else 28.
Proof. reflexivity. Qed.

(** The shift of a valid date by one or two years back keeps the day when
    the month has it in the earlier year, and takes the last day of the
    month otherwise; only the year can make it fail. *)
Lemma date_or_month_end_spec (e : date) (k : Z) :
  valid_date e = true ->
  PeriodUtils.date_or_month_end (year e - k) (month e) (day e)
  = if (MINYEAR <=? year e - k) && (year e - k <=? MAXYEAR)
    then Ok (Date (year e - k) (month e)
               (Z.min (day e) (days_in_month (year e - k) (month e))))
    else Raise ValueError.
Proof.
  intros He. apply valid_ymd_spec in He.
  unfold PeriodUtils.date_or_month_end, date_new.
  pose proof (days_in_month_lower (year e - k) (month e)) as Hdim.
  destruct (valid_ymd (year e - k) (month e) (day e)) eqn:Hv.
  - apply valid_ymd_spec in Hv.
    destruct (Z.leb_spec MINYEAR (year e - k)); [|lia].
    destruct (Z.leb_spec (year e - k) MAXYEAR); [|lia].
    cbn [andb]. by rewrite Z.min_l by lia.
  - rewrite monthrange_ok by lia. cbn [rbind].
    destruct (valid_ymd (year e - k) (month e)
                (days_in_month (year e - k) (month e))) eqn:Hv'.
    + apply valid_ymd_spec in Hv'.
      destruct (Z.leb_spec MINYEAR (year e - k)); [|lia].
      destruct (Z.leb_spec (year e - k) MAXYEAR); [|lia].
      cbn [andb]. rewrite Z.min_r; [done|].
      destruct (Z.le_gt_cases (day e) (days_in_month (year e - k) (month e)));
        [|lia].
      assert (valid_ymd (year e - k) (month e) (day e) = true)
        by (apply valid_ymd_spec; lia).
      congruence.
    + destruct (Z.leb_spec MINYEAR (year e - k)); [|done].
      destruct (Z.leb_spec (year e - k) MAXYEAR); [|done].
      assert (valid_ymd (year e - k) (month e)
                (days_in_month (year e - k) (month e)) = true)
        by (apply valid_month_end; lia).
      congruence.
Qed.

(** X8. For valid dates after year MINYEAR, with a start that is not a
    February 29, the previous-year range is the start one year earlier and
    the end one year earlier, its day cut to the length of the month (so
    February 29 becomes February 28); both are valid dates, and a start
    not after the end stays so. *)
Theorem previous_year_range_spec (start_date end_date : date) :
  valid_date start_date = true -> valid_date end_date = true ->
  MINYEAR < year start_date -> MINYEAR < year end_date ->
  ~ (month start_date = 2 /\ day start_date = 29) ->
  exists prev_start prev_end : date,
    PeriodUtils.get_previous_year_range start_date end_date
    = Ok (prev_start, prev_end) /\
    prev_start
    = Date (year start_date - 1) (month start_date) (day start_date) /\
    prev_end
    = Date (year end_date - 1) (month end_date)
        (Z.min (day end_date)
               (days_in_month (year end_date - 1) (month end_date))) /\
    valid_date prev_start = true /\ valid_date prev_end = true /\
    (date_leb start_date end_date = true ->
     date_leb prev_start prev_end = true).
Proof.
  intros Hs He Hys Hye Hfeb.
  pose proof Hs as Hs'. pose proof He as He'.
  apply valid_ymd_spec in Hs'. apply valid_ymd_spec in He'.
  assert (Hps : valid_ymd (year start_date - 1) (month start_date)
                  (day start_date) = true).
  { apply valid_ymd_spec.
    destruct (decide (month start_date = 2)) as [Hm|Hm].
    - rewrite Hm in *. rewrite days_in_february in *.
      destruct (isleap (year start_date)), (isleap (year start_date - 1)); lia.
    - rewrite (days_in_month_other_year _ (year start_date)) by done. lia. }
  unfold PeriodUtils.get_previous_year_range.
  rewrite date_new_ok by done. cbn [rbind].
  rewrite date_or_month_end_spec by done.
  destruct (Z.leb_spec MINYEAR (year end_date - 1)); [|lia].
  destruct (Z.leb_spec (year end_date - 1) MAXYEAR); [|lia].
  cbn [andb rbind].
  pose proof (days_in_month_lower (year end_date - 1) (month end_date)).
  eexists _, _. split; [reflexivity|]. split; [reflexivity|].
  split; [reflexivity|]. split; [exact Hps|]. split.
  - apply valid_ymd_spec. cbn [year month day]. lia.
  - apply valid_ymd_spec in Hps.
    rewrite !date_leb_spec. cbn [year month day]. intros Hle.
    destruct (decide (year start_date = year end_date
                      /\ month start_date = month end_date)) as [[Hy Hm]|Hne];
      [|lia].
    rewrite Hy, Hm in *. lia.
Qed.

Lemma previous_year_range_spec_witness :
  PeriodUtils.get_previous_year_range (Date 2024 2 1) (Date 2024 2 29)
  = Ok (Date 2023 2 1, Date 2023 2 28).
Proof.
  destruct (previous_year_range_spec (Date 2024 2 1) (Date 2024 2 29))
    as (ps & pe & Hrun & -> & -> & _).
  - reflexivity.
  - reflexivity.
  - unfold MINYEAR. cbn. lia.
  - unfold MINYEAR. cbn. lia.
  - cbn. lia.
  - exact Hrun.
Defined.

(** X9. The fallback covers the end date only: a range that starts on a
    February 29 is refused with [ValueError]. *)
Theorem previous_year_range_leap_start (start_date end_date : date) :
  valid_date start_date = true ->
  month start_date = 2 -> day start_date = 29 ->
  PeriodUtils.get_previous_year_range start_date end_date = Raise ValueError /\
  PeriodUtils.get_two_years_ago_range start_date end_date = Raise ValueError.
Proof.
  intros Hs Hm Hd. apply valid_ymd_spec in Hs.
  rewrite Hm, Hd in Hs. rewrite days_in_february in Hs.
  destruct (isleap (year start_date)) eqn:Hleap; [|lia].
  assert (Hbad : forall k, k = 1 \/ k = 2 ->
                           valid_ymd (year start_date - k) 2 29 = false).
  { intros k Hk. apply not_true_is_false. rewrite valid_ymd_spec.
    rewrite days_in_february, (not_leap_near _ k Hleap Hk). lia. }
  unfold PeriodUtils.get_previous_year_range,
    PeriodUtils.get_two_years_ago_range, date_new.
  rewrite Hm, Hd, !Hbad by auto. done.
Qed.

Lemma previous_year_range_leap_start_witness :
  PeriodUtils.get_previous_year_range (Date 2024 2 29) (Date 2024 3 31)
  = Raise ValueError.
Proof.
  apply (previous_year_range_leap_start (Date 2024 2 29) (Date 2024 3 31));
    reflexivity.
Defined.

(** X10. Going back two years at once is the same as going back one year
    twice, in the result and in the refusal, for all valid dates. *)
Theorem two_years_ago_is_previous_twice (start_date end_date : date) :
  valid_date start_date = true -> valid_date end_date = true ->
  PeriodUtils.get_two_years_ago_range start_date end_date
  = (let! p := PeriodUtils.get_previous_year_range start_date end_date in
     PeriodUtils.get_previous_year_range p.1 p.2).
Proof.
  intros Hs He.
  pose proof Hs as Hs'. pose proof He as He'.
  apply valid_ymd_spec in Hs'. apply valid_ymd_spec in He'.
  unfold PeriodUtils.get_two_years_ago_range,
    PeriodUtils.get_previous_year_range.
  (* the start *)
  assert (Hstart :
      date_new (year start_date - 2) (month start_date) (day start_date)
      = (let! d1 := date_new (year start_date - 1) (month start_date)
                      (day start_date) in
         date_new (year d1 - 1) (month d1) (day d1))).
  { unfold date_new.
    destruct (valid_ymd (year start_date - 1) _ _) eqn:H1; cbn [rbind year month day].
    - by replace (year start_date - 1 - 1) with (year start_date - 2) by lia.
    - destruct (valid_ymd (year start_date - 2) _ _) eqn:H2; [|done].
      exfalso. apply valid_ymd_spec in H2.
      assert (valid_ymd (year start_date - 1) (month start_date)
                (day start_date) = true); [|congruence].
      apply valid_ymd_spec.
      destruct (decide (month start_date = 2)) as [Hm|Hm].
      + rewrite Hm in *. rewrite days_in_february in *.
        destruct (isleap (year start_date)) eqn:Hl.
        * rewrite (not_leap_near _ 2 Hl) in H2 by auto.
          destruct (isleap (year start_date - 1)); lia.
        * destruct (isleap (year start_date - 1)); lia.
      + rewrite (days_in_month_other_year _ (year start_date)) by done. lia. }
  rewrite Hstart. clear Hstart.
  destruct (date_new (year start_date - 1) _ _) as [ps|] eqn:Hps;
    cbn [rbind]; [|done].
  apply date_new_inv in Hps as [-> Hps]. cbn [year month day].
  rewrite (date_or_month_end_spec end_date 2) by done.
  rewrite (date_or_month_end_spec end_date 1) by done.
  apply valid_ymd_spec in Hps.
  pose proof (days_in_month_lower (year end_date - 1) (month end_date)) as Hd1.
  pose proof (days_in_month_lower (year end_date - 2) (month end_date)) as Hd2.
  destruct (Z.leb_spec MINYEAR (year end_date - 1)) as [Hlo1|Hlo1].
  2:{ cbn [andb rbind].
      destruct (Z.leb_spec MINYEAR (year end_date - 2)); [lia|].
      cbn [andb]. unfold date_new. by destruct (valid_ymd _ _ _). }
  destruct (Z.leb_spec (year end_date - 1) MAXYEAR) as [Hhi1|Hhi1]; [|lia].
  cbn [andb rbind].
  cbn [fst snd year month day].
  set (e1 := Date (year end_date - 1) (month end_date)
               (Z.min (day end_date)
                      (days_in_month (year end_date - 1) (month end_date)))).
  assert (He1 : valid_date e1 = true).
  { apply valid_ymd_spec. cbn [e1 year month day]. lia. }
  pose proof (date_or_month_end_spec e1 1 He1) as Hsecond.
  cbn [e1 year month day] in Hsecond.
  replace (year end_date - 1 - 1) with (year end_date - 2) in * by lia.
  rewrite Hsecond.
  assert (Hmin : Z.min (Z.min (day end_date)
                          (days_in_month (year end_date - 1) (month end_date)))
                   (days_in_month (year end_date - 2) (month end_date))
                 = Z.min (day end_date)
                     (days_in_month (year end_date - 2) (month end_date))).
  { destruct (decide (month end_date = 2)) as [Hm|Hm].
    - rewrite Hm in *. rewrite !days_in_february in *.
      destruct (isleap (year end_date)) eqn:Hl.
      + rewrite (not_leap_near _ 1 Hl), (not_leap_near _ 2 Hl) by auto. lia.
      + destruct (isleap (year end_date - 1)), (isleap (year end_date - 2)); lia.
    - rewrite (days_in_month_other_year (year end_date - 1) (year end_date)),
        (days_in_month_other_year (year end_date - 2) (year end_date)) by done.
      lia. }
  rewrite Hmin.
  unfold date_new.
  destruct (valid_ymd (year start_date - 1 - 1) _ _); cbn [rbind]; [|done].
  by destruct ((MINYEAR <=? year end_date - 2) && (year end_date - 2 <=? MAXYEAR)).
Qed.

Lemma two_years_ago_is_previous_twice_witness :
  PeriodUtils.get_two_years_ago_range (Date 2024 2 1) (Date 2024 2 29)
  = Ok (Date 2022 2 1, Date 2022 2 28).
Proof.
  rewrite (two_years_ago_is_previous_twice (Date 2024 2 1) (Date 2024 2 29));
    reflexivity.
Defined.

(** ** Ratios ([metrics.py]) *)

Lemma quantize_rounded (den : positive) (q : Q) :
  rounded_to den q (quantize den q).
Proof.
  exists (round_half_up (q * inject_Z (Z.pos den))). split; [reflexivity|].
  destruct (round_half_up_spec (q * inject_Z (Z.pos den))) as [Hpos Hneg].
  assert (Hden : (0 < inject_Z (Z.pos den))%Q).
  { unfold Qlt, inject_Z. cbn. lia. }
  split; intros Hq; [apply Hpos | apply Hneg]; nra.
Qed.

Lemma round_half_up_sign (q : Q) :
  ((0 <= q)%Q -> 0 <= round_half_up q) /\
  ((q <= 0)%Q -> round_half_up q <= 0).
Proof.
  destruct (round_half_up_spec q) as [Hpos Hneg].
  split; intros Hq.
  - destruct (Hpos Hq) as [_ Hhi].
    assert (H : (inject_Z (-1) < inject_Z (round_half_up q))%Q).
    { change (inject_Z (-1)) with (-1)%Q. lra. }
    rewrite <- Zlt_Qlt in H. lia.
  - destruct (Qlt_le_dec q 0) as [Hlt|Hge].
    + destruct (Hneg Hlt) as [Hlo _].
      assert (H : (inject_Z (round_half_up q) < inject_Z 1)%Q).
      { change (inject_Z 1) with 1%Q. lra. }
      rewrite <- Zlt_Qlt in H. lia.
    + destruct (Hpos Hge) as [Hlo _].
      assert (H : (inject_Z (round_half_up q) < inject_Z 1)%Q).
      { change (inject_Z 1) with 1%Q. lra. }
      rewrite <- Zlt_Qlt in H. lia.
Qed.

Lemma quantize_sign (den : positive) (q : Q) :
  ((0 <= q)%Q -> (0 <= quantize den q)%Q) /\
  ((q <= 0)%Q -> (quantize den q <= 0)%Q).
Proof.
  assert (Hden : (0 < inject_Z (Z.pos den))%Q).
  { unfold Qlt, inject_Z. cbn. lia. }
  destruct (round_half_up_sign (q * inject_Z (Z.pos den))) as [Hpos Hneg].
  unfold quantize. split; intros Hq.
  - assert (H : 0 <= round_half_up (q * inject_Z (Z.pos den)))
      by (apply Hpos; nra).
    unfold Qle. cbn. lia.
  - assert (H : round_half_up (q * inject_Z (Z.pos den)) <= 0)
      by (apply Hneg; nra).
    unfold Qle. cbn. lia.
Qed.





(** ** Month normalisation ([metrics.py]) *)

(** X13. Normalising a valid date never fails: it gives the first day of
    the same month, a valid date not after the original and of the same
    fiscal year, and normalising again changes nothing. *)
Theorem normalize_to_month_start_spec (d : date) :
  valid_date d = true ->
  exists n : date,
    normalize_to_month_start d = Ok n /\
    n = Date (year d) (month d) 1 /\
    valid_date n = true /\
    date_leb n d = true /\
    get_fiscal_year n default_start_month
    = get_fiscal_year d default_start_month /\
    normalize_to_month_start n = Ok n.
Proof.
  intros Hd. pose proof Hd as Hd'. apply valid_ymd_spec in Hd'.
  assert (Hv : valid_ymd (year d) (month d) 1 = true)
    by (apply valid_month_start; lia).
  exists (Date (year d) (month d) 1).
  unfold normalize_to_month_start. cbn [year month day].
  rewrite !date_new_ok by done.
  repeat split; try done.
  apply date_leb_spec. cbn [year month day]. lia.
Qed.

Lemma normalize_to_month_start_spec_witness :
  normalize_to_month_start (Date 2024 2 29) = Ok (Date 2024 2 1).
Proof.
  destruct (normalize_to_month_start_spec (Date 2024 2 29))
    as (n & Hrun & -> & _); [reflexivity|]. exact Hrun.
Defined.

(** X14. The same month of the previous year is the first day of that
    month, one fiscal year earlier, whatever the day (a February 29 does
    not matter); in year MINYEAR there is no previous year and the call
    raises [ValueError]. *)
Theorem get_previous_year_month_spec (d : date) :
  valid_date d = true ->
  (MINYEAR < year d ->
   exists p : date,
     get_previous_year_month d = Ok p /\
     p = Date (year d - 1) (month d) 1 /\
     valid_date p = true /\
     get_fiscal_year p default_start_month
     = get_fiscal_year d default_start_month - 1) /\
  (year d = MINYEAR -> get_previous_year_month d = Raise ValueError).
Proof.
  intros Hd. apply valid_ymd_spec in Hd.
  unfold get_previous_year_month. split.
  - intros Hy.
    assert (Hv : valid_ymd (year d - 1) (month d) 1 = true)
      by (apply valid_month_start; lia).
    eexists. rewrite date_new_ok by done.
    repeat split; try done.
    unfold get_fiscal_year. cbn [year month].
    destruct (default_start_month <=? month d); lia.
  - intros Hy. unfold date_new.
    assert (Hv : valid_ymd (year d - 1) (month d) 1 = false).
    { apply not_true_is_false. rewrite valid_ymd_spec. lia. }
    by rewrite Hv.
Qed.

Lemma get_previous_year_month_spec_witness :
  get_previous_year_month (Date 2024 2 29) = Ok (Date 2023 2 1) /\
  get_previous_year_month (Date 1 5 10) = Raise ValueError.
Proof.
  destruct (get_previous_year_month_spec (Date 2024 2 29)) as [H _];
    [reflexivity|].
  destruct (get_previous_year_month_spec (Date 1 5 10)) as [_ H'];
    [reflexivity|].
  destruct H as (p & Hrun & -> & _); [unfold MINYEAR; cbn; lia|].
  split; [exact Hrun | by apply H'].
Defined.

(** ** Months up to a date ([metrics.py]) *)

Lemma filter_none {A : Type} (P : A -> Prop) `{!forall x, Decision (P x)}
    (l : list A) :
  (forall x : A, x ∈ l -> ~ P x) -> filter P l = [].
Proof.
  induction l as [|x l IH]; intros Hl; [done|].
  rewrite filter_cons. destruct (decide (P x)) as [Hx|_].
  - destruct (Hl x); [apply list_elem_of_here | done].
  - apply IH. intros y Hy. apply Hl. by apply list_elem_of_further.
Qed.

Lemma date_leb_min (c a b : date) :
  date_leb c (date_min a b) = true
  <-> date_leb c a = true /\ date_leb c b = true.
Proof.
  unfold date_min. destruct (date_ltb b a) eqn:Hlt.
  - apply date_ltb_spec in Hlt. rewrite !date_leb_spec. lia.
  - assert (Hge : ~ (year b < year a \/
                     (year b = year a /\
                      (month b < month a \/
                       (month b = month a /\ day b < day a))))).
    { rewrite <- date_ltb_spec. congruence. }
    rewrite !date_leb_spec. lia.
Qed.

Lemma next_month_start_later (current next : date) :
  next_month_start current = Ok next ->
  day current = 1 ->
  date_leb current next = true /\ day next = 1.
Proof.
  intros Hnext Hday. pose proof (next_month_start_inv _ _ Hnext) as [Hm Hstep].
  unfold next_month_start in Hnext.
  destruct (month current =? 12) eqn:H12; apply date_new_inv in Hnext as [-> Hv];
    apply valid_ymd_spec in Hv; rewrite date_leb_spec; cbn [year month day] in *;
    [apply Z.eqb_eq in H12 | apply Z.eqb_neq in H12]; lia.
Qed.

Lemma date_leb_trans (a b c : date) :
  date_leb a b = true -> date_leb b c = true -> date_leb a c = true.
Proof. rewrite !date_leb_spec. lia. Qed.

(** Every month of a chain is a month start not before its first one. *)
Lemma month_chain_from (end_date current : date) (months : list date) :
  month_chain end_date current months ->
  day current = 1 ->
  forall x : date, x ∈ months -> date_leb current x = true /\ day x = 1.
Proof.
  induction 1 as [current Hend | current next months Hle Hnext Hchain IH];
    intros Hday x Hx.
  - by apply elem_of_nil in Hx.
  - destruct (next_month_start_later _ _ Hnext Hday) as [Hlater Hday'].
    apply elem_of_cons in Hx as [->|Hx].
    + split; [apply date_leb_refl | done].
    + destruct (IH Hday' x Hx) as [Hx1 Hx2].
      split; [by eapply date_leb_trans | done].
Qed.

(** With fuel for every month of the chain, the loop up to the earlier of
    [end_date] and [u] returns the months of the chain that are not after
    [u]. *)
Lemma months_loop_chain (end_date u current : date) (months : list date) :
  month_chain end_date current months ->
  day current = 1 ->
  forall fuel : nat,
    (length months <= fuel)%nat ->
    months_loop fuel current (date_min end_date u)
    = Ok (filter (fun m => date_leb m u = true) months).
Proof.
  induction 1 as [current Hend | current next months Hle Hnext Hchain IH];
    intros Hday fuel Hfuel.
  - apply months_loop_stop. apply not_true_is_false.
    rewrite date_leb_min. intros [H _]. congruence.
  - destruct (next_month_start_later _ _ Hnext Hday) as [Hlater Hday'].
    rewrite filter_cons.
    destruct (decide (date_leb current u = true)) as [Hu|Hu].
    + destruct fuel as [|fuel]; [cbn in Hfuel; lia|].
      rewrite (months_loop_step fuel current next).
      * rewrite IH by (done || (cbn in Hfuel; lia)). reflexivity.
      * by apply date_leb_min.
      * done.
    + rewrite months_loop_stop.
      * symmetry. f_equal. apply filter_none. intros x Hx Hxu.
        destruct (month_chain_from _ _ _ Hchain Hday' x Hx) as [Hnx _].
        apply Hu. eapply date_leb_trans; [exact Hlater|].
        by eapply date_leb_trans.
      * apply not_true_is_false. rewrite date_leb_min. tauto.
Qed.

(** The outcome of the loop does not depend on the fuel, as long as the
    fuel is not what stops it. *)
Lemma months_loop_fuel_irrelevant (end_date : date) (fuel : nat) :
  forall (fuel' : nat) (current : date),
    months_loop fuel current end_date <> Raise FuelExhausted ->
    months_loop fuel' current end_date <> Raise FuelExhausted ->
    months_loop fuel current end_date = months_loop fuel' current end_date.
Proof.
  induction fuel as [|fuel IH]; intros fuel' current H1 H2;
    destruct fuel' as [|fuel']; cbn [months_loop] in *;
    destruct (date_leb current end_date); try done.
  destruct (next_month_start current) as [next|e]; cbn [rbind] in *; [|done].
  rewrite (IH fuel' next); [done| |].
  - intros H. rewrite H in H1. by cbn in H1.
  - intros H. rewrite H in H2. by cbn in H2.
Qed.

Lemma fiscal_months_chain (Y : Z) :
  MINYEAR <= Y -> Y + 1 <= MAXYEAR ->
  month_chain (Date (Y + 1) 8 31) (Date Y 9 1) (fiscal_months Y).
Proof.
  intros Hlo Hhi. unfold fiscal_months.
  do 12 (eapply chain_step;
         [ apply date_leb_spec; cbn [year month day]; lia
         | first [ apply next_month_start_december; lia
                 | apply (next_month_start_same_year _ _); lia ]
         | cbn [Z.add Pos.add Pos.succ] ]).
  apply chain_end. apply not_true_is_false. rewrite date_leb_spec.
  cbn [year month day]. lia.
Qed.

(** X15. With an up-to date the months of fiscal year Y are those of its
    twelve month starts that are not after that date: none when the date
    lies before the fiscal year, all twelve when it lies at or after its
    last month. *)
Theorem months_up_to (Y : Z) (u : date) :
  MINYEAR <= Y -> Y + 1 <= MAXYEAR ->
  get_months_in_fiscal_year Y (Some u) default_start_month
  = Ok (filter (fun m => date_leb m u = true) (fiscal_months Y)) /\
  (date_ltb u (Date Y 9 1) = true ->
   get_months_in_fiscal_year Y (Some u) default_start_month = Ok []) /\
  (date_leb (Date (Y + 1) 8 1) u = true ->
   get_months_in_fiscal_year Y (Some u) default_start_month
   = Ok (fiscal_months Y)).
Proof.
  intros Hlo Hhi.
  assert (Hrun : get_months_in_fiscal_year Y (Some u) default_start_month
                 = Ok (filter (fun m => date_leb m u = true) (fiscal_months Y))).
  { pose proof (get_months_never_exhausts Y (Some u) default_start_month)
      as Hnever.
    unfold get_months_in_fiscal_year in *.
    rewrite get_fiscal_year_range_default in * by done.
    cbn [rbind] in *.
    rewrite <- (months_loop_chain (Date (Y + 1) 8 31) u (Date Y 9 1)
                  (fiscal_months Y) (fiscal_months_chain Y Hlo Hhi) eq_refl
                  12%nat) by (cbn; lia).
    symmetry. apply months_loop_fuel_irrelevant; [|exact Hnever].
    rewrite (months_loop_chain (Date (Y + 1) 8 31) u (Date Y 9 1)
               (fiscal_months Y) (fiscal_months_chain Y Hlo Hhi) eq_refl
               12%nat) by (cbn; lia).
    discriminate. }
  split; [exact Hrun|]. rewrite Hrun. split.
  - intros Hbefore. f_equal. apply filter_none. intros x Hx Hxu.
    destruct (month_chain_from _ _ _ (fiscal_months_chain Y Hlo Hhi) eq_refl
                x Hx) as [Hfrom _].
    apply date_ltb_spec in Hbefore. apply date_leb_spec in Hxu, Hfrom.
    cbn [year month day] in *. lia.
  - intros Hafter. f_equal. unfold fiscal_months.
    repeat (rewrite filter_cons;
            match goal with
            | |- context [decide (date_leb ?m u = true)] =>
                destruct (decide (date_leb m u = true)) as [_|Hn];
                [| destruct Hn; apply date_leb_spec;
                   apply date_leb_spec in Hafter; cbn [year month day] in *;
                   lia ]
            end).
    reflexivity.
Qed.

Lemma months_up_to_witness :
  get_months_in_fiscal_year 2024 (Some (Date 2024 11 1)) default_start_month
  = Ok [Date 2024 9 1; Date 2024 10 1; Date 2024 11 1].
Proof.
  destruct (months_up_to 2024 (Date 2024 11 1)) as [H _];
    [unfold MINYEAR; lia | unfold MAXYEAR; lia |].
  rewrite H. reflexivity.
Defined.

(** ** Year-to-date sums compose ([metrics.py]) *)

Lemma foldr_Qplus_app (l1 l2 : list Q) :
  (foldr Qplus 0 (l1 ++ l2) == foldr Qplus 0 l1 + foldr Qplus 0 l2)%Q.
Proof.
  induction l1 as [|x l1 IH]; cbn [app foldr]; [lra|]. rewrite IH. lra.
Qed.

Lemma foldr_Qplus_perm (l1 l2 : list Q) :
  l1 ≡ₚ l2 -> (foldr Qplus 0 l1 == foldr Qplus 0 l2)%Q.
Proof.
  induction 1 as [|x l1 l2 _ IH|x y l|l1 l2 l3 _ IH1 _ IH2]; cbn [foldr].
  - reflexivity.
  - by rewrite IH.
  - lra.
  - by rewrite IH1.
Qed.

Lemma ytd_reference_app (l1 l2 : list kpi_value) (d : date) (is_target : bool) :
  (ytd_reference (l1 ++ l2) d is_target
   == ytd_reference l1 d is_target + ytd_reference l2 d is_target)%Q.
Proof.
  unfold ytd_reference. rewrite filter_app, map_app. apply foldr_Qplus_app.
Qed.

Lemma ytd_reference_perm (l1 l2 : list kpi_value) (d : date)
    (is_target : bool) :
  l1 ≡ₚ l2 ->
  (ytd_reference l1 d is_target == ytd_reference l2 d is_target)%Q.
Proof.
  intros Hp. unfold ytd_reference. apply foldr_Qplus_perm.
  apply Permutation_map. by apply filter_Permutation.
Qed.

Lemma calculate_ytd_ok_iff (values values' : list kpi_value) (d : date)
    (is_target : bool) (t : Q) :
  calculate_ytd values d is_target = Ok t ->
  exists t' : Q, calculate_ytd values' d is_target = Ok t'.
Proof.
  unfold calculate_ytd.
  destruct (get_fiscal_year_range _ _) as [[s e]|]; cbn [rbind]; [|done].
  intros _. by eexists.
Qed.



Lemma filter_sum_split (P Q R : kpi_value -> bool) (l : list kpi_value) :
  (forall r : kpi_value, P r = Q r || R r) ->
  (forall r : kpi_value, Q r && R r = false) ->
  (foldr Qplus 0 (map (fun r => default 0%Q (kv_value r))
                    (filter (fun r => P r = true) l))
   == foldr Qplus 0 (map (fun r => default 0%Q (kv_value r))
                       (filter (fun r => Q r = true) l))
      + foldr Qplus 0 (map (fun r => default 0%Q (kv_value r))
                         (filter (fun r => R r = true) l)))%Q.
Proof.
  intros Hor Hex. induction l as [|r l IH]; [cbn; lra|].
  rewrite !filter_cons.
  pose proof (Hor r) as H1. pose proof (Hex r) as H2.
  destruct (P r), (Q r), (R r); try discriminate;
    repeat case_decide; try done; cbn [map foldr]; rewrite IH; lra.
Qed.



(** ** Target update and deletion ([target_service.py]) *)

Lemma same_identity_with_value (r : kpi_value) (value : Q) :
  same_identity (with_value r value) r.
Proof. by unfold same_identity. Qed.

Lemma same_identity_sym (r1 r2 : kpi_value) :
  same_identity r1 r2 -> same_identity r2 r1.
Proof. unfold same_identity. intuition congruence. Qed.

Lemma same_identity_trans (r1 r2 r3 : kpi_value) :
  same_identity r1 r2 -> same_identity r2 r3 -> same_identity r1 r3.
Proof. unfold same_identity. intuition congruence. Qed.

Lemma identity_unique_replace (t : gmap Z kpi_value) (i : Z)
    (r r' : kpi_value) :
  identity_unique t -> t !! i = Some r -> same_identity r' r ->
  identity_unique (<[i := r']> t).
Proof.
  intros Huniq Hi Hsame a b ra rb Ha Hb Hab.
  assert (Hlook : forall j x, <[i := r']> t !! j = Some x ->
                    exists y, t !! j = Some y /\ same_identity x y).
  { intros j x Hj. destruct (decide (j = i)) as [->|Hne].
    - rewrite lookup_insert_eq in Hj. injection Hj as <-. by exists r.
    - rewrite lookup_insert_ne in Hj by done. exists x.
      split; [done|]. by unfold same_identity. }
  destruct (Hlook a ra Ha) as (ya & Hya & Sa).
  destruct (Hlook b rb Hb) as (yb & Hyb & Sb).
  apply (Huniq a b ya yb Hya Hyb).
  unfold same_identity in *. intuition congruence.
Qed.

Lemma identity_unique_delete (t : gmap Z kpi_value) (i : Z) :
  identity_unique t -> identity_unique (delete i t).
Proof.
  intros Huniq a b ra rb Ha Hb Hab.
  apply lookup_delete_Some in Ha as [_ Ha].
  apply lookup_delete_Some in Hb as [_ Hb].
  by apply (Huniq a b ra rb).
Qed.


(** One call of [create_target_value] on a working service, by cases: a
    row of the identity exists and is replaced under its id, or none
    exists and the row is inserted under an id the table does not use. *)
Lemma create_target_value_cases (segment_id kpi_id : string) (d : date)
    (value : Q) (s : service) :
  valid_date d = true ->
  served 2 s ->
  let t := kpi_values (db s) in
  let data := target_row segment_id kpi_id d value in
  exists (i : Z) (created : bool),
    create_target_value segment_id kpi_id d value s
    = ({| db := set_kpi_values (db s) (<[i := data]> t);
          faults := tail (tail (faults s)) |},
       Ok {| id := i; is_created := created |}) /\
    (if created
     then t !! i = None /\
          (forall (j : Z) (r : kpi_value),
              t !! j = Some r -> ~ same_identity r data) /\
          i = fresh (dom t)
     else exists r0 : kpi_value, t !! i = Some r0 /\ same_identity r0 data).
Proof.
  intros Hd Hserved t data.
  set (p := has_identity segment_id kpi_id (Date (year d) (month d) 1) true).
  assert (Hp : forall r, p r = true <-> same_identity r data).
  { intros r. unfold p. rewrite has_identity_spec. unfold same_identity, data.
    cbn. tauto. }
  assert (Hnorm : normalize_to_month_start d = Ok (Date (year d) (month d) 1)).
  { apply date_new_ok, valid_month_start; apply valid_ymd_spec in Hd; lia. }
  destruct (served_execute (fun d0 => (d0, select_ids p d0)) 1 s Hserved)
    as [Hsel Hserved1].
  cbn [fst snd] in Hsel, Hserved1.
  unfold create_target_value, mbind at 1, lift. rewrite Hnorm.
  unfold mbind at 1, fetch. fold p. rewrite Hsel.
  change (KpiValue segment_id kpi_id (Date (year d) (month d) 1) (Some value)
            true) with data.
  destruct (select_ids p (db s)) as [|i0 rest] eqn:Hids.
  - set (i := fresh (dom t)).
    assert (Hfresh : t !! i = None).
    { apply not_elem_of_dom. apply is_fresh. }
    exists i, true.
    destruct (served_execute (insert_row data) 0
                {| db := db s; faults := tail (faults s) |} Hserved1)
      as [Hins _].
    unfold mbind. rewrite Hins. unfold insert_row, mret. cbn.
    split; [reflexivity|]. split; [done|]. split; [|done].
    intros j r Hj Hsame. apply Hp in Hsame.
    assert (Hin : j ∈ select_ids p (db s)) by (apply select_ids_elem; eauto).
    rewrite Hids in Hin. by apply elem_of_nil in Hin.
  - assert (Hi0 : i0 ∈ select_ids p (db s)) by (rewrite Hids; apply list_elem_of_here).
    apply select_ids_elem in Hi0 as (r0 & Hr0 & Hp0).
    exists i0, false.
    destruct (served_execute (update_by_id i0 data) 0
                {| db := db s; faults := tail (faults s) |} Hserved1)
      as [Hupd _].
    unfold mbind. rewrite Hupd. unfold update_by_id, mret. cbn [db].
    rewrite Hr0. cbn.
    split; [reflexivity|]. exists r0. split; [done|]. by apply Hp.
Qed.

Lemma served_weaken (n m : nat) (s : service) :
  (m <= n)%nat -> served n s -> served m s.
Proof. intros Hle Hs i Hi. apply Hs. lia. Qed.

Lemma served_tail (n : nat) (d : database) (s : service) :
  served (S n) s -> served n {| db := d; faults := tail (faults s) |}.
Proof. intros Hs i Hi. cbn [faults]. rewrite lookup_tail. apply Hs. lia. Qed.


(** X19. Whatever the service does, [delete_target_value] answers true
    only after removing the target row of that id, and nothing else;
    otherwise the table is as it was.  A row of actual values is never
    removed, and on a service that answers the answer is true exactly when
    the id holds a target row. *)
Theorem delete_target_value_spec (target_id : Z) (s s' : service)
    (o : result bool) :
  delete_target_value target_id s = (s', o) ->
  let t := kpi_values (db s) in
  let t' := kpi_values (db s') in
  match o with
  | Ok true =>
      (exists r : kpi_value, t !! target_id = Some r /\ kv_is_target r = true)
      /\ t' = delete target_id t
  | Ok false | Raise _ => t' = t
  end /\
  (forall (j : Z) (r : kpi_value),
      t !! j = Some r -> kv_is_target r = false -> t' !! j = Some r) /\
  (identity_unique t -> identity_unique t') /\
  (served 1 s ->
   exists b : bool,
     o = Ok b /\
     (b = true <->
      exists r : kpi_value, t !! target_id = Some r /\ kv_is_target r = true)).
Proof.
  intros Hrun t t'. subst t t'.
  unfold delete_target_value, mbind in Hrun.
  destruct (execute _ s) as [s1 [response|e]] eqn:Hexec.
  2:{ injection Hrun as <- <-.
      pose proof Hexec as Hinv.
      apply execute_inv in Hinv as [[_ Hdb]|[? _]]; [|done]. rewrite Hdb.
      split; [done|]. split; [done|]. split; [done|].
      intros Hserved. exfalso. unfold execute in Hexec.
      destruct (faults s) as [|[|] rest] eqn:Hf;
        [| destruct (Hserved 0%nat); [lia | by rewrite Hf] |];
        by destruct (delete_target_by_id target_id (db s)). }
  apply execute_inv in Hexec as [[? _]|[[= ->] Hdb]]; [done|].
  unfold mret in Hrun. injection Hrun as <- <-. rewrite Hdb.
  unfold delete_target_by_id.
  destruct (kpi_values (db s) !! target_id) as [r|] eqn:Hr.
  - destruct (kv_is_target r) eqn:Ht; cbn [fst snd kpi_values set_kpi_values].
    + split; [split; [by exists r | done]|].
      split.
      { intros j x Hj Hx. rewrite lookup_delete_ne; [done|].
        intros <-. congruence. }
      split; [apply identity_unique_delete|].
      intros _. exists true. split; [done|]. split; [by exists r | done].
    + split; [done|]. split; [done|]. split; [done|].
      intros _. exists false. split; [done|]. split; [done|].
      intros (r0 & Hr0 & Ht0). congruence.
  - cbn [fst snd]. split; [done|]. split; [done|]. split; [done|].
    intros _. exists false. split; [done|]. split; [done|].
    by intros (r0 & Hr0 & _).
Qed.

Lemma delete_target_value_spec_witness :
  exists s' : service,
    delete_target_value 7 one_target_service = (s', Ok true) /\
    kpi_values (db s') !! 7 = None.
Proof.
  destruct (delete_target_value 7 one_target_service) as [s' o] eqn:Hrun.
  destruct (delete_target_value_spec 7 one_target_service s' o Hrun)
    as (Hout & _ & _ & Hserved).
  destruct Hserved as (b & -> & Hb).
  { intros i _. cbn. by rewrite lookup_nil. }
  assert (b = true) as ->.
  { apply Hb. eexists. split; [apply lookup_singleton_eq | reflexivity]. }
  destruct Hout as [_ Ht].
  exists s'. split; [reflexivity|]. rewrite Ht. apply lookup_delete_eq.
Defined.

(** X20. What an upsert leaves alone: on a service that answers, every
    row of another identity, the actual row of the same segment, KPI and
    month included, is as it was, and the table has one row more when the
    target was created and as many as before when it was updated. *)
Theorem create_target_value_frame (segment_id kpi_id : string) (d : date)
    (value : Q) (s : service) :
  valid_date d = true ->
  served 2 s ->
  exists (s' : service) (res : upsert_result),
    create_target_value segment_id kpi_id d value s = (s', Ok res) /\
    (forall (j : Z) (r : kpi_value),
        kpi_values (db s) !! j = Some r ->
        ~ same_identity r (target_row segment_id kpi_id d value) ->
        kpi_values (db s') !! j = Some r) /\
    (forall (j : Z) (r : kpi_value),
        kpi_values (db s) !! j = Some r -> kv_is_target r = false ->
        kpi_values (db s') !! j = Some r) /\
    size (kpi_values (db s'))
    = (if is_created res then S (size (kpi_values (db s)))
       else size (kpi_values (db s))).
Proof.
  intros Hd Hserved.
  destruct (create_target_value_cases segment_id kpi_id d value s Hd Hserved)
    as (i & created & Hrun & Hcase).
  cbv zeta in *.
  set (data := target_row segment_id kpi_id d value) in *.
  set (t := kpi_values (db s)) in *.
  eexists _, _. split; [exact Hrun|].
  cbn [db kpi_values set_kpi_values is_created].
  assert (Hother : forall (j : Z) (r : kpi_value),
             t !! j = Some r -> ~ same_identity r data ->
             <[i := data]> t !! j = Some r).
  { intros j r Hj Hdiff. rewrite lookup_insert_ne; [done|]. intros <-.
    destruct created.
    - destruct Hcase as [Hnone _]. congruence.
    - destruct Hcase as (r0 & Hr0 & Hsame). congruence. }
  split; [exact Hother|]. split.
  - intros j r Hj Hact. apply Hother; [done|].
    intros (_ & _ & _ & Ht). cbn in Ht. congruence.
  - destruct created.
    + destruct Hcase as [Hnone _]. by rewrite map_size_insert_None.
    + destruct Hcase as (r0 & Hr0 & _). rewrite map_size_insert_Some; [done | by exists r0].
Qed.

Lemma create_target_value_frame_witness :
  exists (s' : service) (res : upsert_result),
    create_target_value "s2" "k1" (Date 2024 11 15) 80%Q one_target_service
    = (s', Ok res) /\
    kpi_values (db s') !! 7
    = Some (KpiValue "s1" "k1" (Date 2024 11 1) (Some 100%Q) true).
Proof.
  destruct (create_target_value_frame "s2" "k1" (Date 2024 11 15) 80%Q
              one_target_service)
    as (s' & res & Hrun & Hother & _).
  - reflexivity.
  - intros i _. cbn. by rewrite lookup_nil.
  - exists s', res. split; [exact Hrun|].
    apply Hother; [apply lookup_singleton_eq|].
    intros (Hseg & _). discriminate Hseg.
Defined.

(** X21. Creating a target and then deleting it under the returned id:
    on a service that answers the deletion answers true and no row of the
    identity is left; when the target was created, and not updated, the
    table is again what it was before, and either way a further upsert
    of the identity reports a creation. *)
Theorem create_then_delete (segment_id kpi_id : string) (d : date)
    (value value' : Q) (s : service) :
  valid_date d = true ->
  served 5 s ->
  identity_unique (kpi_values (db s)) ->
  exists (s1 s2 s3 : service) (r1 r3 : upsert_result),
    create_target_value segment_id kpi_id d value s = (s1, Ok r1) /\
    delete_target_value (id r1) s1 = (s2, Ok true) /\
    kpi_values (db s2) = delete (id r1) (kpi_values (db s)) /\
    (is_created r1 = true -> kpi_values (db s2) = kpi_values (db s)) /\
    (forall (j : Z) (r : kpi_value),
        kpi_values (db s2) !! j = Some r ->
        ~ same_identity r (target_row segment_id kpi_id d value)) /\
    create_target_value segment_id kpi_id d value' s2 = (s3, Ok r3) /\
    is_created r3 = true.
Proof.
  intros Hd Hserved Huniq.
  destruct (create_target_value_cases segment_id kpi_id d value s Hd)
    as (i & created & Hrun & Hcase); [apply (served_weaken 5); [lia | done]|].
  cbv zeta in *.
  set (data := target_row segment_id kpi_id d value) in *.
  set (t := kpi_values (db s)) in *.
  set (s1 := {| db := set_kpi_values (db s) (<[i := data]> t);
                faults := tail (tail (faults s)) |}) in *.
  assert (Hs1 : served 3 s1).
  { intros k Hk. unfold s1. cbn [faults]. rewrite !lookup_tail.
    apply Hserved. lia. }
  destruct (served_execute (delete_target_by_id i) 2 s1 Hs1) as [Hdel Hs2].
  assert (Hq : delete_target_by_id i (db s1)
               = (set_kpi_values (db s1) (delete i t), [(i, data)])).
  { unfold delete_target_by_id, s1. cbn [db kpi_values set_kpi_values].
    rewrite lookup_insert_eq. cbn [kv_is_target data target_row].
    by rewrite delete_insert_eq. }
  rewrite Hq in Hdel, Hs2. cbn [fst snd] in Hdel, Hs2.
  set (s2 := {| db := set_kpi_values (db s1) (delete i t);
                faults := tail (faults s1) |}) in *.
  assert (Hgone : forall (j : Z) (r : kpi_value),
             kpi_values (db s2) !! j = Some r -> ~ same_identity r data).
  { intros j r Hj Hsame. unfold s2 in Hj. cbn in Hj.
    apply lookup_delete_Some in Hj as [Hne Hj].
    destruct created.
    - destruct Hcase as (_ & Hnone & _). by apply (Hnone j r).
    - destruct Hcase as (r0 & Hr0 & Hsame0). apply Hne. symmetry.
      apply (Huniq j i r r0 Hj Hr0). unfold same_identity in *.
      intuition congruence. }
  destruct (create_target_value_cases segment_id kpi_id d value' s2 Hd)
    as (i3 & created3 & Hrun3 & Hcase3); [apply (served_weaken 2); [lia | done]|].
  cbv zeta in Hrun3, Hcase3.
  eexists s1, s2, _, _, _. split; [exact Hrun|]. cbn [id is_created].
  split.
  { unfold delete_target_value, mbind. rewrite Hdel. reflexivity. }
  split; [reflexivity|]. split.
  { intros ->. destruct Hcase as [Hnone _]. cbn. by apply delete_id. }
  split; [exact Hgone|]. split; [exact Hrun3|]. cbn [is_created].
  destruct created3; [done|]. destruct Hcase3 as (r0 & Hr0 & Hsame0).
  destruct (Hgone i3 r0 Hr0). unfold same_identity in *. cbn in *.
  intuition congruence.
Qed.

Lemma create_then_delete_witness :
  exists (s1 s2 s3 : service) (r1 r3 : upsert_result),
    create_target_value "s2" "k1" (Date 2024 11 15) 80%Q one_target_service
    = (s1, Ok r1) /\
    delete_target_value (id r1) s1 = (s2, Ok true) /\
    create_target_value "s2" "k1" (Date 2024 11 15) 90%Q s2 = (s3, Ok r3) /\
    is_created r3 = true.
Proof.
  destruct (create_then_delete "s2" "k1" (Date 2024 11 15) 80%Q 90%Q
              one_target_service)
    as (s1 & s2 & s3 & r1 & r3 & H1 & H2 & _ & _ & _ & H3 & H4).
  - reflexivity.
  - intros i _. cbn. by rewrite lookup_nil.
  - intros i j ra rb Ha Hb _. cbn in Ha, Hb.
    apply lookup_singleton_Some in Ha as [<- _].
    by apply lookup_singleton_Some in Hb as [<- _].
  - by exists s1, s2, s3, r1, r3.
Defined.

(** X22. Upserting a target and then setting another value under the
    returned id leaves the table the upsert of that other value would
    have left in the first place, under the same id: the update returns
    the row with the new value. *)
Theorem create_then_update (segment_id kpi_id : string) (d : date)
    (value value' : Q) (s : service) :
  valid_date d = true ->
  served 3 s ->
  identity_unique (kpi_values (db s)) ->
  exists (s1 s2 s' : service) (r1 r' : upsert_result),
    create_target_value segment_id kpi_id d value s = (s1, Ok r1) /\
    update_target_value (id r1) value' s1
    = (s2, Ok (id r1, target_row segment_id kpi_id d value')) /\
    create_target_value segment_id kpi_id d value' s = (s', Ok r') /\
    r' = r1 /\
    kpi_values (db s2) = kpi_values (db s').
Proof.
  intros Hd Hserved Huniq.
  assert (Hserved2 : served 2 s) by (apply (served_weaken 3); [lia | done]).
  destruct (create_target_value_cases segment_id kpi_id d value s Hd Hserved2)
    as (i & created & Hrun & Hcase).
  destruct (create_target_value_cases segment_id kpi_id d value' s Hd Hserved2)
    as (i' & created' & Hrun' & Hcase').
  cbv zeta in *.
  set (data := target_row segment_id kpi_id d value) in *.
  set (data' := target_row segment_id kpi_id d value') in *.
  set (t := kpi_values (db s)) in *.
  assert (Hsame : forall r, same_identity r data <-> same_identity r data').
  { intros r. unfold same_identity, data, data'. cbn. tauto. }
  assert (created' = created /\ i' = i) as [-> ->].
  { destruct created, created'.
    - destruct Hcase as (_ & _ & ->), Hcase' as (_ & _ & ->). done.
    - destruct Hcase as (_ & Hnew & _), Hcase' as (r0 & Hr0 & S0).
      destruct (Hnew i' r0 Hr0). by apply Hsame.
    - destruct Hcase' as (_ & Hnew & _), Hcase as (r0 & Hr0 & S0).
      destruct (Hnew i r0 Hr0). by apply Hsame.
    - destruct Hcase as (r0 & Hr0 & S0), Hcase' as (r0' & Hr0' & S0').
      split; [done|]. apply (Huniq i' i r0' r0 Hr0' Hr0).
      apply (same_identity_trans _ data'); [done|].
      apply same_identity_sym. by apply Hsame. }
  set (s1 := {| db := set_kpi_values (db s) (<[i := data]> t);
                faults := tail (tail (faults s)) |}) in *.
  assert (Hs1 : served 1 s1).
  { intros k Hk. unfold s1. cbn [faults]. rewrite !lookup_tail.
    apply Hserved. lia. }
  destruct (served_execute (update_value_by_id i value') 0 s1 Hs1) as [Hupd _].
  assert (Hq : update_value_by_id i value' (db s1)
               = (set_kpi_values (db s1) (<[i := data']> t), [(i, data')])).
  { unfold update_value_by_id, s1. cbn [db kpi_values set_kpi_values].
    rewrite lookup_insert_eq. cbn [kv_is_target data target_row].
    by rewrite insert_insert_eq. }
  rewrite Hq in Hupd. cbn [fst snd] in Hupd.
  eexists s1, _, _, _, _. split; [exact Hrun|]. cbn [id].
  split.
  { unfold update_target_value, mbind. rewrite Hupd. reflexivity. }
  split; [exact Hrun'|]. split; reflexivity.
Qed.

Lemma create_then_update_witness :
  exists (s1 s2 s' : service) (r1 r' : upsert_result),
    create_target_value "s2" "k1" (Date 2024 11 15) 80%Q one_target_service
    = (s1, Ok r1) /\
    update_target_value (id r1) 90%Q s1
    = (s2, Ok (id r1, KpiValue "s2" "k1" (Date 2024 11 1) (Some 90%Q) true)) /\
    create_target_value "s2" "k1" (Date 2024 11 15) 90%Q one_target_service
    = (s', Ok r') /\
    kpi_values (db s2) = kpi_values (db s').
Proof.
  destruct (create_then_update "s2" "k1" (Date 2024 11 15) 80%Q 90%Q
              one_target_service)
    as (s1 & s2 & s' & r1 & r' & H1 & H2 & H3 & _ & H4).
  - reflexivity.
  - intros i _. cbn. by rewrite lookup_nil.
  - intros i j ra rb Ha Hb _. cbn in Ha, Hb.
    apply lookup_singleton_Some in Ha as [<- _].
    by apply lookup_singleton_Some in Hb as [<- _].
  - by exists s1, s2, s', r1, r'.
Defined.

(** ** Repeating a bulk upsert *)

Lemma apply_writes_lookup (ws : list (Z * kpi_value)) (j : Z) :
  forall t : gmap Z kpi_value,
    apply_writes ws t !! j
    = match last_write j ws with Some r => Some r | None => t !! j end.
Proof.
  induction ws as [|w ws IH]; intros t; [reflexivity|].
  cbn [apply_writes fold_left last_write]. fold (apply_writes ws).
  rewrite IH. destruct (last_write j ws); [reflexivity|].
  destruct (decide (w.1 = j)) as [<-|Hne].
  - apply lookup_insert_eq.
  - by apply lookup_insert_ne.
Qed.

Lemma apply_writes_twice (ws : list (Z * kpi_value)) (t : gmap Z kpi_value) :
  apply_writes ws (apply_writes ws t) = apply_writes ws t.
Proof.
  apply map_eq. intros j. rewrite !apply_writes_lookup.
  by destruct (last_write j ws).
Qed.

Lemma keeps_identities_refl (t : gmap Z kpi_value) : keeps_identities t t.
Proof. intros j r Hj. exists r. split; [done|]. by unfold same_identity. Qed.

Lemma keeps_identities_trans (t1 t2 t3 : gmap Z kpi_value) :
  keeps_identities t1 t2 -> keeps_identities t2 t3 -> keeps_identities t1 t3.
Proof.
  intros H12 H23 j r Hj. destruct (H12 j r Hj) as (r2 & Hr2 & S2).
  destruct (H23 j r2 Hr2) as (r3 & Hr3 & S3). exists r3.
  split; [done|]. by apply (same_identity_trans _ r2).
Qed.

Lemma served_drop (n m : nat) (d : database) (s : service) :
  served (n + m) s -> served m {| db := d; faults := drop n (faults s) |}.
Proof.
  intros Hs i Hi. cbn [faults]. rewrite lookup_drop. apply Hs. lia.
Qed.

(** One step of the loop on a working service *)
Lemma bulk_step_served (result : bulk_result) (target : target_input)
    (s : service) :
  valid_date (ti_month target) = true ->
  served 2 s ->
  identity_unique (kpi_values (db s)) ->
  let t := kpi_values (db s) in
  exists (i : Z) (created : bool),
    bulk_step result target s
    = ({| db := set_kpi_values (db s) (<[i := row_of target]> t);
          faults := drop 2 (faults s) |},
       {| created_count :=
            (if created then created_count result + 1
             else created_count result);
          updated_count :=
            (if created then updated_count result
             else updated_count result + 1);
          errors := errors result |}) /\
    (if created
     then t !! i = None /\
          (forall (j : Z) (r : kpi_value),
              t !! j = Some r -> ~ same_identity r (row_of target)) /\
          i = fresh (dom t)
     else exists r0 : kpi_value,
            t !! i = Some r0 /\ same_identity r0 (row_of target)) /\
    identity_unique (<[i := row_of target]> t) /\
    keeps_identities t (<[i := row_of target]> t).
Proof.
  intros Hd Hserved Huniq t.
  destruct (create_target_value_cases (ti_segment_id target) (ti_kpi_id target)
              (ti_month target) (ti_value target) s Hd Hserved)
    as (i & created & Hrun & Hcase).
  cbv zeta in Hrun, Hcase. fold (row_of target) in Hrun, Hcase. fold t in Hrun, Hcase.
  exists i, created. split.
  { unfold bulk_step. rewrite Hrun. cbn [is_created].
    replace (drop 2 (faults s)) with (tail (tail (faults s)))
      by (by destruct (faults s) as [|? [|? ?]]).
    by destruct created. }
  split; [exact Hcase|].
  destruct created.
  - destruct Hcase as (Hnone & Hnew & _). split.
    + intros a b ra rb Ha Hb Hsame.
      destruct (decide (a = i)) as [->|Ha']; destruct (decide (b = i)) as [->|Hb'];
        [done | | |].
      * rewrite lookup_insert_eq in Ha. injection Ha as <-.
        rewrite lookup_insert_ne in Hb by done.
        destruct (Hnew b rb Hb). by apply same_identity_sym.
      * rewrite lookup_insert_eq in Hb. injection Hb as <-.
        rewrite lookup_insert_ne in Ha by done.
        by destruct (Hnew a ra Ha).
      * rewrite lookup_insert_ne in Ha, Hb by done.
        by apply (Huniq a b ra rb).
    + intros j r Hj. exists r. split; [|by unfold same_identity].
      rewrite lookup_insert_ne; [done|]. intros <-. fold t in Hj. congruence.
  - destruct Hcase as (r0 & Hr0 & Hsame0). split.
    + by apply (identity_unique_replace _ _ r0); [| | apply same_identity_sym].
    + intros j r Hj. destruct (decide (j = i)) as [->|Hne].
      * exists (row_of target). rewrite lookup_insert_eq. split; [done|].
        apply same_identity_sym. fold t in Hj. congruence.
      * exists r. rewrite lookup_insert_ne by done.
        split; [done|]. by unfold same_identity.
Qed.

(** The whole loop on a working service: no error, and the table is the
    start table after one write per row. *)
Lemma bulk_loop_served (targets : list target_input) :
  forall (result : bulk_result) (s : service),
    Forall (fun target => valid_date (ti_month target) = true) targets ->
    served (2 * length targets) s ->
    identity_unique (kpi_values (db s)) ->
    exists (ws : list (Z * kpi_value)) (d' : database) (result' : bulk_result),
      bulk_loop targets result s
      = ({| db := d'; faults := drop (2 * length targets) (faults s) |},
         result') /\
      kpi_values d' = apply_writes ws (kpi_values (db s)) /\
      Forall2 (fun w target => w.2 = row_of target) ws targets /\
      Forall (fun w => exists r : kpi_value,
                  kpi_values d' !! w.1 = Some r /\ same_identity r w.2) ws /\
      identity_unique (kpi_values d') /\
      keeps_identities (kpi_values (db s)) (kpi_values d') /\
      errors result' = errors result /\
      created_count result' + updated_count result'
      = created_count result + updated_count result
        + Z.of_nat (length targets).
Proof.
  induction targets as [|target targets IH]; intros result s Hvalid Hserved Huniq.
  - exists [], (db s), result. cbn [bulk_loop length Nat.mul drop].
    split; [by destruct s|]. split; [done|]. split; [constructor|].
    split; [constructor|]. split; [done|].
    split; [apply keeps_identities_refl|]. split; [done|]. cbn. lia.
  - apply Forall_cons in Hvalid as [Hd Hvalid].
    destruct (bulk_step_served result target s Hd) as
      (i & created & Hstep & _ & Huniq1 & Hkeep1); [|done|].
    { apply (served_weaken (2 * length (target :: targets))); [cbn; lia | done]. }
    cbv zeta in Hstep, Huniq1, Hkeep1.
    set (t := kpi_values (db s)) in *.
    set (s1 := {| db := set_kpi_values (db s) (<[i := row_of target]> t);
                  faults := drop 2 (faults s) |}) in *.
    set (r1 := {| created_count := _ |}) in Hstep.
    destruct (IH r1 s1) as
      (ws & d' & result' & Hloop & Htab & Hrows & Hheld & Huniq' & Hkeep' &
       Herr & Hcount); [done | | done |].
    { unfold s1. apply served_drop.
      replace (2 + 2 * length targets)%nat with (2 * length (target :: targets))%nat
        by (cbn [length]; lia). done. }
    exists ((i, row_of target) :: ws), d', result'.
    cbn [bulk_loop]. rewrite Hstep, Hloop. unfold s1 at 1. cbn [faults].
    rewrite drop_drop.
    replace (2 + 2 * length targets)%nat with (2 * length (target :: targets))%nat
      by (cbn [length]; lia).
    split; [reflexivity|]. split; [exact Htab|].
    split; [by constructor|]. split.
    { constructor; [|done]. cbn [fst snd].
      destruct (Hkeep' i (row_of target)) as (r' & Hr' & Hsame);
        [unfold s1; cbn; apply lookup_insert_eq|]. by exists r'. }
    split; [done|]. split.
    { apply (keeps_identities_trans _ (<[i := row_of target]> t)); done. }
    split; [by rewrite Herr|].
    rewrite Hcount. unfold r1. cbn [created_count updated_count length].
    destruct created; lia.
Qed.

(** The loop on a table that already holds a row of every identity of the
    request, under known ids: every row is an update under its id. *)
Lemma bulk_loop_settled (ws : list (Z * kpi_value))
    (targets : list target_input) :
  Forall2 (fun w target => w.2 = row_of target) ws targets ->
  forall (result : bulk_result) (s : service),
    Forall (fun target => valid_date (ti_month target) = true) targets ->
    served (2 * length targets) s ->
    identity_unique (kpi_values (db s)) ->
    Forall (fun w => exists r : kpi_value,
                kpi_values (db s) !! w.1 = Some r /\ same_identity r w.2) ws ->
    exists s' : service,
      bulk_loop targets result s
      = (s', {| created_count := created_count result;
                updated_count :=
                  updated_count result + Z.of_nat (length targets);
                errors := errors result |}) /\
      kpi_values (db s') = apply_writes ws (kpi_values (db s)).
Proof.
  induction 1 as [|w target ws targets Hw Hrows IH];
    intros result s Hvalid Hserved Huniq Hheld.
  - exists s. cbn. split; [|done]. f_equal. destruct result; cbn. f_equal. lia.
  - apply Forall_cons in Hvalid as [Hd Hvalid].
    apply Forall_cons in Hheld as [(r & Hr & Hsame) Hheld].
    destruct (bulk_step_served result target s Hd) as
      (i & created & Hstep & Hcase & Huniq1 & Hkeep1); [|done|].
    { apply (served_weaken (2 * length (target :: targets))); [cbn; lia | done]. }
    cbv zeta in Hstep, Hcase, Huniq1, Hkeep1. rewrite Hw in Hsame.
    destruct created.
    { destruct Hcase as (_ & Hnew & _). by destruct (Hnew w.1 r Hr). }
    destruct Hcase as (r0 & Hr0 & Hsame0).
    assert (i = w.1) as ->.
    { apply (Huniq i w.1 r0 r Hr0 Hr).
      apply (same_identity_trans _ (row_of target)); [done|].
      by apply same_identity_sym. }
    set (t := kpi_values (db s)) in *.
    set (s1 := {| db := set_kpi_values (db s) (<[w.1 := row_of target]> t);
                  faults := drop 2 (faults s) |}) in *.
    set (r1 := {| created_count := _ |}) in Hstep.
    destruct (IH r1 s1) as (s' & Hloop & Htab); [done | | done | |].
    { unfold s1. apply served_drop.
      replace (2 + 2 * length targets)%nat with (2 * length (target :: targets))%nat
        by (cbn [length]; lia). done. }
    { eapply Forall_impl; [exact Hheld|]. intros w' (r' & Hr' & Hsame').
      destruct (Hkeep1 w'.1 r' Hr') as (r'' & Hr'' & Hsame'').
      exists r''. split; [done|]. by apply (same_identity_trans _ r'). }
    exists s'. cbn [bulk_loop]. rewrite Hstep, Hloop. split.
    + unfold r1. cbn [created_count updated_count errors length]. f_equal.
      f_equal. lia.
    + rewrite Htab. unfold s1. cbn [db kpi_values set_kpi_values].
      cbn [apply_writes fold_left]. by rewrite Hw.
Qed.

(** X23. A bulk upsert may be repeated: on a service that answers, with
    valid months and a table with unique identities, the first call
    reports no error and accounts for every row as created or updated,
    the second call of the same request reports every row as updated and
    none as created, and leaves the table exactly as the first call left
    it. *)
Theorem bulk_upsert_targets_twice (targets : list target_input)
    (s : service) :
  Forall (fun target => valid_date (ti_month target) = true) targets ->
  served (4 * length targets) s ->
  identity_unique (kpi_values (db s)) ->
  exists (s1 s2 : service) (report1 : bulk_result),
    bulk_upsert_targets targets s = (s1, Ok report1) /\
    errors report1 = [] /\
    created_count report1 + updated_count report1
    = Z.of_nat (length targets) /\
    bulk_upsert_targets targets s1
    = (s2, Ok {| created_count := 0;
                 updated_count := Z.of_nat (length targets);
                 errors := [] |}) /\
    kpi_values (db s2) = kpi_values (db s1) /\
    identity_unique (kpi_values (db s1)).
Proof.
  intros Hvalid Hserved Huniq.
  destruct (bulk_loop_served targets initial_bulk_result s Hvalid)
    as (ws & d1 & report1 & Hloop1 & Htab1 & Hrows & Hheld & Huniq1 & _ &
        Herr & Hcount); [| done |].
  { apply (served_weaken (4 * length targets)); [lia | done]. }
  set (s1 := {| db := d1; faults := drop (2 * length targets) (faults s) |})
    in *.
  destruct (bulk_loop_settled ws targets Hrows initial_bulk_result s1 Hvalid)
    as (s2 & Hloop2 & Htab2); [| done | done |].
  { unfold s1. apply served_drop.
    replace (2 * length targets + 2 * length targets)%nat
      with (4 * length targets)%nat by lia. done. }
  exists s1, s2, report1. unfold bulk_upsert_targets.
  rewrite Hloop1, Hloop2. split; [reflexivity|]. split; [by rewrite Herr|].
  split; [rewrite Hcount; cbn; lia|]. split; [reflexivity|].
  split; [|done].
  rewrite Htab2. unfold s1. cbn [db]. rewrite Htab1. apply apply_writes_twice.
Qed.

Lemma bulk_upsert_targets_twice_witness :
  exists (s1 s2 : service) (report1 : bulk_result),
    bulk_upsert_targets three_targets one_target_service = (s1, Ok report1) /\
    bulk_upsert_targets three_targets s1
    = (s2, Ok {| created_count := 0; updated_count := 3; errors := [] |}) /\
    kpi_values (db s2) = kpi_values (db s1).
Proof.
  destruct (bulk_upsert_targets_twice three_targets one_target_service)
    as (s1 & s2 & report1 & H1 & _ & _ & H2 & Htab & _).
  - repeat constructor.
  - intros i _. cbn. by rewrite lookup_nil.
  - intros i j ra rb Ha Hb _. cbn in Ha, Hb.
    apply lookup_singleton_Some in Ha as [<- _].
    by apply lookup_singleton_Some in Hb as [<- _].
  - by exists s1, s2, report1.
Defined.

(** ** Target listing ([target_service.py]) *)

Section Dicts.
Context {A : Type}.
Variable key : A -> string.

Lemma odict_get_set (k k' : string) (v : A) (l : list (string * A)) :
  odict_get k (odict_set k' v l)
  = if bool_decide (k' = k) then Some v else odict_get k l.
Proof.
  induction l as [|[k0 v0] l IH]; cbn [odict_set odict_get].
  - reflexivity.
  - destruct (bool_decide (k0 = k')) eqn:H0; cbn [odict_get].
    + apply bool_decide_eq_true in H0 as ->.
      by destruct (bool_decide (k' = k)).
    + apply bool_decide_eq_false in H0.
      destruct (bool_decide (k0 = k)) eqn:H1.
      * apply bool_decide_eq_true in H1 as ->.
        by rewrite bool_decide_eq_false_2 by congruence.
      * exact IH.
Qed.

Lemma odict_get_keys (k : string) (l : list (string * A)) :
  k ∈ l.*1 <-> is_Some (odict_get k l).
Proof.
  induction l as [|[k0 v0] l IH]; cbn [odict_get fmap list_fmap fst].
  - split; [by intros ?%elem_of_nil | by intros [? ?]].
  - rewrite elem_of_cons. destruct (bool_decide (k0 = k)) eqn:H0.
    + apply bool_decide_eq_true in H0 as ->. split; [by eexists | by left].
    + apply bool_decide_eq_false in H0. rewrite <- IH. split; [|by right].
      by intros [->|?].
Qed.

Lemma dict_by_get (rows : list A) (k : string) :
  forall (acc : list (string * A)) (x : A),
    odict_get k (fold_left (fun acc x => odict_set (key x) x acc) rows acc)
    = Some x ->
    (x ∈ rows /\ key x = k) \/ odict_get k acc = Some x.
Proof.
  induction rows as [|y rows IH]; intros acc x; cbn [fold_left].
  - by right.
  - intros H. apply IH in H as [[Hin Hk]|H].
    + left. split; [by right | done].
    + rewrite odict_get_set in H.
      destruct (bool_decide (key y = k)) eqn:Hy; [|by right].
      apply bool_decide_eq_true in Hy. injection H as <-. left.
      split; [by left | done].
Qed.

Lemma dict_by_keys (rows : list A) (k : string) :
  forall acc : list (string * A),
    k ∈ (fold_left (fun acc x => odict_set (key x) x acc) rows acc).*1
    <-> (exists x : A, x ∈ rows /\ key x = k) \/ k ∈ acc.*1.
Proof.
  induction rows as [|y rows IH]; intros acc; cbn [fold_left].
  - split; [by right|]. intros [(x & Hx%elem_of_nil & _)|H]; done.
  - rewrite IH, !odict_get_keys, odict_get_set. split.
    + intros [(x & Hin & Hk)|H].
      * left. exists x. split; [by right | done].
      * destruct (bool_decide (key y = k)) eqn:Hy; [|by right].
        apply bool_decide_eq_true in Hy. left. exists y. split; [by left | done].
    + intros [(x & Hin & Hk)|H].
      * apply elem_of_cons in Hin as [->|Hin].
        -- right. by rewrite bool_decide_eq_true_2.
        -- left. by exists x.
      * right. by destruct (bool_decide (key y = k)).
Qed.

End Dicts.

Lemma select_rows_elem (p : kpi_value -> bool) (d : database) (j : Z)
    (r : kpi_value) :
  (j, r) ∈ select_rows p d <-> kpi_values d !! j = Some r /\ p r = true.
Proof.
  unfold select_rows. rewrite list_elem_of_filter, elem_of_map_to_list.
  cbn. tauto.
Qed.

Lemma select_rows_NoDup (p : kpi_value -> bool) (d : database) :
  NoDup (select_rows p d).*1.
Proof.
  apply (sublist_NoDup _ (map_to_list (kpi_values d)).*1).
  - apply NoDup_fst_map_to_list.
  - apply fmap_sublist, sublist_filter.
Qed.

Lemma for_each_ok {A B : Type} (body : A -> result B) (l : list A) :
  (forall x : A, x ∈ l -> exists y : B, body x = Ok y) ->
  exists ys : list B, for_each body l = Ok ys.
Proof.
  induction l as [|x l IH]; intros Hall; cbn [for_each].
  - by exists [].
  - destruct (Hall x) as [y Hy]; [by left|]. rewrite Hy. cbn [rbind].
    destruct IH as [ys Hys]; [intros z Hz; apply Hall; by right|].
    rewrite Hys. cbn [rbind]. by eexists.
Qed.

Lemma for_each_raise {A B : Type} (body : A -> result B) (l : list A)
    (e : exn) :
  (exists x : A, x ∈ l /\ body x = Raise e) ->
  (forall (x : A) (e' : exn), body x = Raise e' -> e' = e) ->
  for_each body l = Raise e.
Proof.
  intros (x & Hin & Hx) Honly. induction l as [|y l IH]; cbn [for_each].
  - by apply elem_of_nil in Hin.
  - destruct (body y) as [b|e'] eqn:Hy; cbn [rbind].
    + apply elem_of_cons in Hin as [->|Hin]; [congruence|].
      rewrite (IH Hin). reflexivity.
    + f_equal. by apply (Honly y).
Qed.

(** What the service returns is the listing of the database, unless a
    request fails; the database is only read. *)
Lemma get_target_values_run (department_id : string) (month : date)
    (segment_id kpi_id : option string) (s : service) :
  exists (s' : service) (o : result (list target_value_entry)),
    get_target_values department_id month segment_id kpi_id s = (s', o) /\
    db s' = db s /\
    (o = Raise APIError \/
     o = target_listing department_id month segment_id kpi_id (db s)) /\
    (served 3 s ->
     o = target_listing department_id month segment_id kpi_id (db s)).
Proof.
  unfold get_target_values, mbind at 1, lift.
  destruct (normalize_to_month_start month) as [m|e] eqn:Hnorm.
  2:{ eexists _, _. split; [reflexivity|]. split; [done|].
      unfold target_listing. rewrite Hnorm. split; [by right|done]. }
  set (segq := fun d : database => filter _ (segments d)).
  set (kpiq := fun d : database => merge_sort by_display_order _).
  assert (HL : target_listing department_id month segment_id kpi_id (db s)
               = for_each
                   (target_value_entry_of (segments_by_id (segq (db s)))
                      (kpis_by_id (kpiq (db s))))
                   (select_rows (fun v =>
                      bool_decide (kv_segment_id v
                                   ∈ (segments_by_id (segq (db s))).*1)
                      && bool_decide (kv_kpi_id v
                                      ∈ (kpis_by_id (kpiq (db s))).*1)
                      && date_eqb (kv_date v) m && kv_is_target v) (db s))).
  { unfold target_listing. rewrite Hnorm. reflexivity. }
  rewrite HL. clear HL.
  unfold mbind at 1.
  destruct (fetch segq s) as [s1 [segs|e]] eqn:H1.
  2:{ unfold fetch in H1. pose proof H1 as H1'.
      apply execute_inv in H1 as [[[= ->] Hdb]|[? _]]; [|done].
      eexists _, _. split; [reflexivity|]. split; [done|]. split; [by left|].
      intros Hs. destruct (served_execute (fun d => (d, segq d)) 2 s Hs) as [E _].
      rewrite E in H1'. discriminate. }
  pose proof H1 as H1'. apply fetch_inv in H1' as [-> Hdb1].
  assert (Hf1 : faults s1 = tail (faults s)).
  { unfold fetch, execute in H1. destruct (faults s) as [|[|] rest];
      injection H1 as <-; done. }
  destruct (segments_by_id (segq (db s))) as [|sg0 segs] eqn:Hsegs.
  { eexists _, _. split; [reflexivity|]. split; [done|].
    replace (select_rows _ (db s)) with ([] : list (Z * kpi_value)).
    { split; [by right | done]. }
    symmetry. unfold select_rows. apply filter_none.
    intros [j r] _. cbn. rewrite bool_decide_eq_false_2; [done|].
    apply not_elem_of_nil. }
  rewrite <- Hsegs. set (segd := segments_by_id (segq (db s))) in *.
  unfold mbind at 1.
  destruct (fetch kpiq s1) as [s2 [kpis|e]] eqn:H2.
  2:{ unfold fetch in H2. pose proof H2 as H2'.
      apply execute_inv in H2 as [[[= ->] Hdb]|[? _]]; [|done].
      eexists _, _. split; [reflexivity|]. split; [congruence|].
      split; [by left|].
      intros Hs.
      assert (Hs1 : served 2 s1).
      { intros i Hi. rewrite Hf1, lookup_tail. apply Hs. lia. }
      destruct (served_execute (fun d => (d, kpiq d)) 1 s1 Hs1) as [E _].
      rewrite E in H2'. discriminate. }
  pose proof H2 as H2'. apply fetch_inv in H2' as [-> Hdb2].
  assert (Hf2 : faults s2 = tail (faults s1)).
  { unfold fetch, execute in H2. destruct (faults s1) as [|[|] rest];
      injection H2 as <-; done. }
  rewrite Hdb1.
  destruct (kpis_by_id (kpiq (db s))) as [|k0 kpis] eqn:Hkpis.
  { eexists _, _. split; [reflexivity|]. split; [congruence|].
    replace (select_rows _ (db s)) with ([] : list (Z * kpi_value)).
    { split; [by right | done]. }
    symmetry. unfold select_rows. apply filter_none.
    intros [j r] _. cbn.
    rewrite (bool_decide_eq_false_2 (kv_kpi_id r ∈ [])), andb_false_r;
      [done|]. apply not_elem_of_nil. }
  rewrite <- Hkpis. set (kpid := kpis_by_id (kpiq (db s))) in *.
  set (valq := select_rows _).
  unfold mbind.
  destruct (fetch valq s2) as [s3 [rows|e]] eqn:H3.
  2:{ unfold fetch in H3. pose proof H3 as H3'.
      apply execute_inv in H3 as [[[= ->] Hdb]|[? _]]; [|done].
      eexists _, _. split; [reflexivity|]. split; [congruence|].
      split; [by left|].
      intros Hs.
      assert (Hs2 : served 1 s2).
      { intros i Hi. rewrite Hf2, Hf1, !lookup_tail. apply Hs. lia. }
      destruct (served_execute (fun d => (d, valq d)) 0 s2 Hs2) as [E _].
      rewrite E in H3'. discriminate. }
  apply fetch_inv in H3 as [-> Hdb3].
  eexists _, _. split; [reflexivity|]. split; [congruence|].
  rewrite Hdb2, Hdb1. split; [by right | done].
Qed.

(** The rows the listing is built from *)
Lemma target_listing_rows (department_id : string) (when m : date)
    (segment_id kpi_id : option string) (d : database) :
  normalize_to_month_start when = Ok m ->
  exists (segs : list (string * segment))
         (kpis : list (string * kpi_definition)) (rows : list (Z * kpi_value)),
    target_listing department_id when segment_id kpi_id d
    = for_each (target_value_entry_of segs kpis) rows /\
    NoDup rows.*1 /\
    (forall (k : string) (sg : segment),
        odict_get k segs = Some sg ->
        listed_segment department_id segment_id d sg /\ seg_id sg = k) /\
    (forall (k : string) (kd : kpi_definition),
        odict_get k kpis = Some kd ->
        listed_kpi department_id kpi_id d kd /\ kd_id kd = k) /\
    (forall sg : segment,
        listed_segment department_id segment_id d sg ->
        is_Some (odict_get (seg_id sg) segs)) /\
    (forall kd : kpi_definition,
        listed_kpi department_id kpi_id d kd ->
        is_Some (odict_get (kd_id kd) kpis)) /\
    (forall (j : Z) (r : kpi_value),
        (j, r) ∈ rows <->
        kpi_values d !! j = Some r /\
        is_Some (odict_get (kv_segment_id r) segs) /\
        is_Some (odict_get (kv_kpi_id r) kpis) /\
        kv_date r = m /\
        kv_is_target r = true).
Proof.
  intros Hnorm.
  unfold target_listing. rewrite Hnorm. cbn [rbind].
  set (segrows := filter _ (segments d)).
  set (kpirows := merge_sort by_display_order _).
  assert (Hseg_in : forall sg, sg ∈ segrows <->
                      listed_segment department_id segment_id d sg).
  { intros sg. unfold segrows, listed_segment.
    rewrite list_elem_of_filter. tauto. }
  assert (Hkpi_in : forall kd, kd ∈ kpirows <->
                      listed_kpi department_id kpi_id d kd).
  { intros kd. unfold kpirows, listed_kpi.
    rewrite merge_sort_Permutation, list_elem_of_filter. tauto. }
  eexists _, _, _. split; [reflexivity|].
  split; [apply select_rows_NoDup|]. split.
  { intros k sg Hget. unfold segments_by_id in Hget.
    apply (dict_by_get seg_id) in Hget as [[Hin Hk]|Hget]; [|done].
    split; [by apply Hseg_in | done]. }
  split.
  { intros k kd Hget. unfold kpis_by_id in Hget.
    apply (dict_by_get kd_id) in Hget as [[Hin Hk]|Hget]; [|done].
    split; [by apply Hkpi_in | done]. }
  split.
  { intros sg Hsg. apply odict_get_keys. unfold segments_by_id.
    apply (dict_by_keys seg_id). left. exists sg.
    split; [by apply Hseg_in | done]. }
  split.
  { intros kd Hkd. apply odict_get_keys. unfold kpis_by_id.
    apply (dict_by_keys kd_id). left. exists kd.
    split; [by apply Hkpi_in | done]. }
  intros j r. rewrite select_rows_elem, !andb_true_iff, !bool_decide_eq_true,
    date_eqb_spec, !odict_get_keys. tauto.
Qed.

Lemma target_value_entry_of_inv (segs : list (string * segment))
    (kpis : list (string * kpi_definition)) (v : Z * kpi_value)
    (e : target_value_entry) :
  target_value_entry_of segs kpis v = Ok e ->
  kv_value v.2 = Some (tv_value e) /\ tv_id e = v.1 /\
  tv_segment_id e = kv_segment_id v.2 /\ tv_kpi_id e = kv_kpi_id v.2 /\
  tv_month e = kv_date v.2 /\
  tv_segment_name e = seg_name <$> odict_get (kv_segment_id v.2) segs /\
  tv_kpi_name e = kd_name <$> odict_get (kv_kpi_id v.2) kpis.
Proof.
  unfold target_value_entry_of. destruct (kv_value v.2) as [q|]; cbn; [|done].
  by intros [= <-].
Qed.

Lemma for_each_ids {A B : Type} (body : A -> result B) (f : A -> Z)
    (g : B -> Z) (l : list A) (ys : list B) :
  (forall (x : A) (y : B), body x = Ok y -> g y = f x) ->
  Forall2 (fun x y => body x = Ok y) l ys -> g <$> ys = f <$> l.
Proof.
  intros Hfg. induction 1 as [|x y l ys Hxy _ IH]; [done|].
  cbn. by rewrite IH, (Hfg x y Hxy).
Qed.

(** The listing is sound and complete for the target rows of the month
    that belong to a listed segment and a listed KPI. *)
Lemma target_listing_spec (department_id : string) (when : date)
    (segment_id kpi_id : option string) (d : database)
    (entries : list target_value_entry) :
  target_listing department_id when segment_id kpi_id d = Ok entries ->
  let t := kpi_values d in
  let m := Date (year when) (month when) 1 in
  NoDup (tv_id <$> entries) /\
  (forall e : target_value_entry,
      e ∈ entries ->
      exists (r : kpi_value) (sg : segment) (kd : kpi_definition),
        t !! tv_id e = Some r /\ kv_is_target r = true /\ kv_date r = m /\
        kv_value r = Some (tv_value e) /\
        kv_segment_id r = tv_segment_id e /\ kv_kpi_id r = tv_kpi_id e /\
        tv_month e = m /\
        listed_segment department_id segment_id d sg /\
        seg_id sg = tv_segment_id e /\
        tv_segment_name e = Some (seg_name sg) /\
        listed_kpi department_id kpi_id d kd /\
        kd_id kd = tv_kpi_id e /\
        tv_kpi_name e = Some (kd_name kd)) /\
  (forall (j : Z) (r : kpi_value) (sg : segment) (kd : kpi_definition),
      t !! j = Some r -> kv_is_target r = true -> kv_date r = m ->
      listed_segment department_id segment_id d sg ->
      seg_id sg = kv_segment_id r ->
      listed_kpi department_id kpi_id d kd ->
      kd_id kd = kv_kpi_id r ->
      exists e : target_value_entry,
        e ∈ entries /\ tv_id e = j /\ kv_value r = Some (tv_value e)).
Proof.
  intros Hok t m.
  destruct (normalize_to_month_start when) as [m'|e] eqn:Hnorm.
  2:{ unfold target_listing in Hok. by rewrite Hnorm in Hok. }
  destruct (target_listing_rows department_id when m' segment_id kpi_id d Hnorm)
    as (segs & kpis & rows & Heq & Hnodup & Hsegs & Hkpis & Hsegs_all &
        Hkpis_all & Hrows).
  unfold normalize_to_month_start in Hnorm.
  apply date_new_inv in Hnorm as [-> _]. fold m in Hrows.
  rewrite Heq in Hok. apply for_each_entries in Hok.
  split.
  { rewrite (for_each_ids (target_value_entry_of segs kpis) fst tv_id rows
               entries); [done| |done].
    intros x y Hxy. by apply target_value_entry_of_inv in Hxy as (_ & ? & _). }
  split.
  - intros e He. apply list_elem_of_lookup in He as [i Hi].
    destruct (Forall2_lookup_r _ _ _ _ _ Hok Hi) as ([j r] & Hv & Hbody).
    apply target_value_entry_of_inv in Hbody
      as (Hval & Hid & Hsid & Hkid & Hmon & Hsname & Hkname).
    cbn [fst snd] in *.
    assert (Hin : (j, r) ∈ rows) by (by apply list_elem_of_lookup; exists i).
    apply Hrows in Hin as (Hj & [sg Hsg] & [kd Hkd] & Hdate & Ht).
    destruct (Hsegs _ _ Hsg) as [Hls Hsk]. destruct (Hkpis _ _ Hkd) as [Hlk Hkk].
    exists r, sg, kd. rewrite Hid, Hsid, Hkid, Hmon, Hsname, Hkname, Hsg, Hkd.
    repeat split; try done; apply Hls || apply Hlk.
  - intros j r sg kd Hj Ht Hdate Hls Hsk Hlk Hkk.
    assert (Hin : (j, r) ∈ rows).
    { apply Hrows. split; [done|].
      split; [rewrite <- Hsk; by apply Hsegs_all|].
      split; [rewrite <- Hkk; by apply Hkpis_all | done]. }
    apply list_elem_of_lookup in Hin as [i Hi].
    destruct (Forall2_lookup_l _ _ _ _ _ Hok Hi) as (e & He & Hbody).
    apply target_value_entry_of_inv in Hbody as (Hval & Hid & _).
    exists e. split; [by apply list_elem_of_lookup; exists i | done].
Qed.

Lemma target_listing_total (department_id : string) (when : date)
    (segment_id kpi_id : option string) (d : database) :
  (exists m : date, normalize_to_month_start when = Ok m) ->
  (forall (j : Z) (r : kpi_value),
      kpi_values d !! j = Some r -> kv_is_target r = true ->
      kv_date r = Date (year when) (month when) 1 -> is_Some (kv_value r)) ->
  exists entries : list target_value_entry,
    target_listing department_id when segment_id kpi_id d = Ok entries.
Proof.
  intros [m Hnorm] Hvalues.
  destruct (target_listing_rows department_id when m segment_id kpi_id d Hnorm)
    as (segs & kpis & rows & Heq & _ & _ & _ & _ & _ & Hrows).
  unfold normalize_to_month_start in Hnorm.
  apply date_new_inv in Hnorm as [-> _].
  rewrite Heq. apply for_each_ok. intros [j r] Hin.
  apply Hrows in Hin as (Hj & _ & _ & Hdate & Ht).
  destruct (Hvalues j r Hj Ht Hdate) as [q Hq].
  unfold target_value_entry_of. cbn [snd]. rewrite Hq. cbn. by eexists.
Qed.

Lemma target_listing_null (department_id : string) (when : date)
    (segment_id kpi_id : option string) (d : database) (j : Z)
    (r : kpi_value) (sg : segment) (kd : kpi_definition) :
  (exists m : date, normalize_to_month_start when = Ok m) ->
  kpi_values d !! j = Some r -> kv_is_target r = true ->
  kv_date r = Date (year when) (month when) 1 -> kv_value r = None ->
  listed_segment department_id segment_id d sg -> seg_id sg = kv_segment_id r ->
  listed_kpi department_id kpi_id d kd -> kd_id kd = kv_kpi_id r ->
  target_listing department_id when segment_id kpi_id d = Raise TypeError.
Proof.
  intros [m Hnorm] Hj Ht Hdate Hnull Hls Hsk Hlk Hkk.
  destruct (target_listing_rows department_id when m segment_id kpi_id d Hnorm)
    as (segs & kpis & rows & Heq & _ & _ & _ & Hsegs_all & Hkpis_all & Hrows).
  unfold normalize_to_month_start in Hnorm.
  apply date_new_inv in Hnorm as [-> _].
  rewrite Heq. apply for_each_raise.
  - exists (j, r). split.
    + apply Hrows. split; [done|].
      split; [rewrite <- Hsk; by apply Hsegs_all|].
      split; [rewrite <- Hkk; by apply Hkpis_all | done].
    + unfold target_value_entry_of. cbn [snd]. by rewrite Hnull.
  - intros [j' r'] e'. unfold target_value_entry_of. cbn [snd].
    destruct (kv_value r'); cbn; [done | by intros [= <-]].
Qed.

(** X24. What [get_target_values] returns, when it returns: exactly one
    entry, under the row's id and with its value, for every target row of
    the month whose segment belongs to the department and whose KPI is a
    visible KPI of the department, both passing the optional filters,
    and nothing else.  Every entry carries the name of such a segment and
    of such a KPI, never a null name.  The database is only read. *)
Theorem get_target_values_listing (department_id : string) (when : date)
    (segment_id kpi_id : option string) (s s' : service)
    (entries : list target_value_entry) :
  get_target_values department_id when segment_id kpi_id s = (s', Ok entries) ->
  let t := kpi_values (db s) in
  let m := Date (year when) (month when) 1 in
  db s' = db s /\
  NoDup (tv_id <$> entries) /\
  (forall e : target_value_entry,
      e ∈ entries ->
      exists (r : kpi_value) (sg : segment) (kd : kpi_definition),
        t !! tv_id e = Some r /\ kv_is_target r = true /\ kv_date r = m /\
        kv_value r = Some (tv_value e) /\
        kv_segment_id r = tv_segment_id e /\ kv_kpi_id r = tv_kpi_id e /\
        tv_month e = m /\
        listed_segment department_id segment_id (db s) sg /\
        seg_id sg = tv_segment_id e /\
        tv_segment_name e = Some (seg_name sg) /\
        listed_kpi department_id kpi_id (db s) kd /\
        kd_id kd = tv_kpi_id e /\
        tv_kpi_name e = Some (kd_name kd)) /\
  (forall (j : Z) (r : kpi_value) (sg : segment) (kd : kpi_definition),
      t !! j = Some r -> kv_is_target r = true -> kv_date r = m ->
      listed_segment department_id segment_id (db s) sg ->
      seg_id sg = kv_segment_id r ->
      listed_kpi department_id kpi_id (db s) kd ->
      kd_id kd = kv_kpi_id r ->
      exists e : target_value_entry,
        e ∈ entries /\ tv_id e = j /\ kv_value r = Some (tv_value e)).
Proof.
  intros Hrun t m.
  destruct (get_target_values_run department_id when segment_id kpi_id s)
    as (s0 & o & Hrun0 & Hdb & [Ho|Ho] & _);
    rewrite Hrun in Hrun0; injection Hrun0 as <- <-; [done|].
  split; [done|]. by apply target_listing_spec.
Qed.

Lemma get_target_values_listing_witness :
  exists (s' : service) (e : target_value_entry),
    get_target_values "d1" (Date 2024 11 20) None None listing_service
    = (s', Ok [e]) /\
    tv_id e = 7 /\ tv_segment_name e = Some "Store 1" /\
    tv_kpi_name e = Some "Sales".
Proof.
  destruct (get_target_values "d1" (Date 2024 11 20) None None listing_service)
    as [s' o] eqn:Hrun.
  assert (Ho : o = Ok [TargetValueEntry 7 "s1" (Some "Store 1") "k1"
                         (Some "Sales") (Date 2024 11 1) 100%Q]).
  { vm_compute in Hrun. by injection Hrun as _ <-. }
  subst o.
  destruct (get_target_values_listing "d1" (Date 2024 11 20) None None
              listing_service s' _ Hrun) as (_ & _ & Hsound & _).
  destruct (Hsound _ (list_elem_of_here _ _))
    as (r & sg & kd & _ & _ & _ & _ & _ & _ & _ & _ & _ & Hsname & _ & _ & Hkname).
  eexists s', _. split; [reflexivity|]. split; [reflexivity|].
  split; [reflexivity | reflexivity].
Defined.

(** X25. A null target value makes the listing fail: on a service that
    answers, if a target row of the month of a listed segment and a
    listed KPI has no value, [get_target_values] raises [TypeError], for
    the whole listing. *)
Theorem get_target_values_null_value (department_id : string) (when : date)
    (segment_id kpi_id : option string) (s : service) (j : Z)
    (r : kpi_value) (sg : segment) (kd : kpi_definition) :
  valid_date when = true ->
  served 3 s ->
  kpi_values (db s) !! j = Some r -> kv_is_target r = true ->
  kv_date r = Date (year when) (month when) 1 -> kv_value r = None ->
  listed_segment department_id segment_id (db s) sg ->
  seg_id sg = kv_segment_id r ->
  listed_kpi department_id kpi_id (db s) kd ->
  kd_id kd = kv_kpi_id r ->
  exists s' : service,
    get_target_values department_id when segment_id kpi_id s
    = (s', Raise TypeError) /\ db s' = db s.
Proof.
  intros Hd Hserved Hj Ht Hdate Hnull Hls Hsk Hlk Hkk.
  destruct (get_target_values_run department_id when segment_id kpi_id s)
    as (s' & o & Hrun & Hdb & _ & Ho).
  exists s'. split; [|done]. rewrite Hrun, (Ho Hserved). f_equal.
  apply (target_listing_null _ _ _ _ _ j r sg kd); try done.
  eexists. apply date_new_ok, valid_month_start; apply valid_ymd_spec in Hd; lia.
Qed.

Lemma get_target_values_null_value_witness :
  exists s' : service,
    get_target_values "d1" (Date 2024 11 20) None None
      {| db := set_kpi_values (db listing_service)
                 (<[9 := KpiValue "s1" "k2" (Date 2024 11 1) None true]>
                    (kpi_values (db listing_service)));
         faults := [] |}
    = (s', Raise TypeError).
Proof.
  destruct (get_target_values_null_value "d1" (Date 2024 11 20) None None
              {| db := set_kpi_values (db listing_service)
                 (<[9 := KpiValue "s1" "k2" (Date 2024 11 1) None true]>
                    (kpi_values (db listing_service)));
                 faults := [] |}
              9 (KpiValue "s1" "k2" (Date 2024 11 1) None true)
              (Segment "s1" "Store 1" "d1")
              (KpiDefinition "k2" "d1" "Customers" "people" "all" 2 true))
    as (s' & Hrun & _).
  - reflexivity.
  - intros i _. cbn. by rewrite lookup_nil.
  - cbn. apply lookup_insert_eq.
  - reflexivity.
  - reflexivity.
  - reflexivity.
  - split; [|done]. cbn. apply list_elem_of_here.
  - reflexivity.
  - split; [|done]. cbn. apply list_elem_of_further, list_elem_of_here.
  - reflexivity.
  - by exists s'.
Defined.

(** X26. Reading back what was written: on a service that answers, after
    the upsert of a target for a segment of the department and a visible
    KPI of the department, the listing of the month, when no target of
    the month has a null value, holds one entry for that segment and KPI:
    under the returned id and with the value just written. *)
Theorem target_read_after_write (department_id segment_id kpi_id : string)
    (d : date) (value : Q) (s : service) :
  valid_date d = true ->
  served 5 s ->
  identity_unique (kpi_values (db s)) ->
  (exists sg : segment,
      listed_segment department_id None (db s) sg /\ seg_id sg = segment_id) ->
  (exists kd : kpi_definition,
      listed_kpi department_id None (db s) kd /\ kd_id kd = kpi_id) ->
  (forall (j : Z) (r : kpi_value),
      kpi_values (db s) !! j = Some r -> kv_is_target r = true ->
      kv_date r = Date (year d) (month d) 1 -> is_Some (kv_value r)) ->
  exists (s1 s2 : service) (res : upsert_result)
         (entries : list target_value_entry) (e : target_value_entry),
    create_target_value segment_id kpi_id d value s = (s1, Ok res) /\
    get_target_values department_id d None None s1 = (s2, Ok entries) /\
    e ∈ entries /\
    tv_id e = id res /\ tv_value e = value /\
    tv_segment_id e = segment_id /\ tv_kpi_id e = kpi_id /\
    (forall e' : target_value_entry,
        e' ∈ entries -> tv_segment_id e' = segment_id ->
        tv_kpi_id e' = kpi_id -> e' = e).
Proof.
  intros Hd Hserved Huniq (sg & Hls & Hsk) (kd & Hlk & Hkk) Hvalues.
  destruct (create_target_value_run segment_id kpi_id d value s Hd)
    as (i & created & Hrun & _ & _ & Honly); [| done |].
  { apply (served_weaken 5); [lia | done]. }
  cbv zeta in Hrun, Honly.
  set (data := target_row segment_id kpi_id d value) in *.
  set (t1 := <[i := data]> (kpi_values (db s))) in *.
  set (s1 := {| db := set_kpi_values (db s) t1;
                faults := tail (tail (faults s)) |}) in *.
  assert (Hs1 : served 3 s1).
  { intros k Hk. unfold s1. cbn [faults]. rewrite !lookup_tail.
    apply Hserved. lia. }
  assert (Hnorm : exists m, normalize_to_month_start d = Ok m).
  { eexists. apply date_new_ok, valid_month_start; apply valid_ymd_spec in Hd; lia. }
  destruct (get_target_values_run department_id d None None s1)
    as (s2 & o & Hget & _ & _ & Ho).
  specialize (Ho Hs1).
  destruct (target_listing_total department_id d None None (db s1) Hnorm)
    as [entries Hlist].
  { intros j r Hj Ht Hdate. unfold s1 in Hj. cbn in Hj.
    destruct (decide (j = i)) as [->|Hne].
    - unfold t1 in Hj. rewrite lookup_insert_eq in Hj. injection Hj as <-.
      by eexists.
    - unfold t1 in Hj. rewrite lookup_insert_ne in Hj by done.
      by apply (Hvalues j r). }
  rewrite Hlist in Ho. subst o.
  destruct (target_listing_spec _ _ _ _ _ _ Hlist)
    as (Hnodup & Hsound & Hcomplete).
  destruct (Hcomplete i data sg kd) as (e & He & Hid & Hval); try done.
  { unfold s1, t1. cbn. apply lookup_insert_eq. }
  assert (Hfields : forall e', e' ∈ entries -> tv_id e' = i ->
            tv_value e' = value /\ tv_segment_id e' = segment_id /\
            tv_kpi_id e' = kpi_id).
  { intros e' He' Hid'.
    destruct (Hsound e' He') as (r & _ & _ & Hr & _ & _ & Hv & Hs & Hk & _).
    rewrite Hid' in Hr. unfold s1, t1 in Hr. cbn in Hr.
    rewrite lookup_insert_eq in Hr. injection Hr as <-. cbn in Hv, Hs, Hk.
    by injection Hv as <-. }
  destruct (Hfields e He Hid) as (Hv & Hs & Hk).
  exists s1, s2, {| id := i; is_created := created |}, entries, e.
  split; [exact Hrun|]. split; [exact Hget|]. split; [done|].
  split; [done|]. split; [done|]. split; [done|]. split; [done|].
  intros e' He' Hs' Hk'.
  destruct (Hsound e' He')
    as (r & _ & _ & Hr & Hrt & Hrd & _ & Hrs & Hrk & _).
  assert (Hid' : tv_id e' = i).
  { apply (Honly (tv_id e') r); [exact Hr|].
    unfold same_identity, data. cbn. by rewrite Hrs, Hrk, Hrd, Hrt, Hs', Hk'. }
  apply list_elem_of_lookup in He as [a Ha].
  apply list_elem_of_lookup in He' as [b Hb].
  assert (a = b) as ->.
  { apply (NoDup_lookup (tv_id <$> entries) a b i); [done | |];
      rewrite list_lookup_fmap; [by rewrite Ha; cbn; rewrite Hid
                                | by rewrite Hb; cbn; rewrite Hid']. }
  congruence.
Qed.

Lemma target_read_after_write_witness :
  exists (s1 s2 : service) (res : upsert_result)
         (entries : list target_value_entry) (e : target_value_entry),
    create_target_value "s1" "k2" (Date 2024 11 20) 55%Q listing_service
    = (s1, Ok res) /\
    get_target_values "d1" (Date 2024 11 20) None None s1 = (s2, Ok entries) /\
    e ∈ entries /\ tv_id e = id res /\ tv_value e = 55%Q.
Proof.
  destruct (target_read_after_write "d1" "s1" "k2" (Date 2024 11 20) 55%Q
              listing_service)
    as (s1 & s2 & res & entries & e & H1 & H2 & He & Hid & Hv & _).
  - reflexivity.
  - intros i _. cbn. by rewrite lookup_nil.
  - intros i j ra rb Ha Hb _. cbn in Ha, Hb.
    apply lookup_singleton_Some in Ha as [<- _].
    by apply lookup_singleton_Some in Hb as [<- _].
  - exists (Segment "s1" "Store 1" "d1"). split; [|done].
    split; [|done]. cbn. apply list_elem_of_here.
  - exists (KpiDefinition "k2" "d1" "Customers" "people" "all" 2 true).
    split; [|done]. split; [|done]. cbn.
    apply list_elem_of_further, list_elem_of_here.
  - intros j r Hj _ _. cbn in Hj. apply lookup_singleton_Some in Hj as [_ <-].
    by eexists.
  - by exists s1, s2, res, entries, e.
Defined.

(** ** Regional rollup: which store goes where ([regional_service.py]) *)

(** After the assignment loop every region of the list has its bucket,
    holding the stores routed to it. *)
Lemma regional_data_buckets (regions : list region)
    (segments : list (string * segment))
    (segment_to_region : gmap string string) (totals : store_totals)
    (r : region) :
  r ∈ regions ->
  let fallback := find_unassigned_region_id regions in
  let members := region_segments segment_to_region fallback in
  exists rd : bucket,
    fold_left (assign_store segment_to_region fallback totals) segments
      (init_regional_data regions) !! reg_id r = Some rd /\
    b_stores rd
    = map (fun item : string * segment => store_data_of totals item.1 item.2)
        (members (reg_id r) segments) /\
    b_total_sales rd
    = sum_over (sales_of totals) (members (reg_id r) segments) /\
    b_total_customers rd
    = sum_over (customers_of totals) (members (reg_id r) segments).
Proof.
  intros Hr fallback members.
  destruct (init_regional_data_lookup regions r Hr)
    as (rd0 & Hrd0 & Hst0 & Hsa0 & Hcu0).
  rewrite assign_loop_lookup, Hrd0. cbn [fmap option_fmap option_map].
  eexists. split; [reflexivity|].
  destruct (add_stores_fields totals
              (region_segments segment_to_region fallback (reg_id r) segments)
              rd0) as (Hs & Ht & Hc).
  cbv zeta in Hs, Ht, Hc. rewrite Hs, Ht, Hc, Hst0, Hsa0, Hcu0.
  done.
Qed.


(** ** Store-region mapping ([regional_service.py]) *)

Lemma remapped_lookup (mappings : list region_mapping) (k : string) :
  forall base : gmap string string,
    remapped mappings base !! k
    = match remapped mappings ∅ !! k with
      | Some v => Some v
      | None => base !! k
      end.
Proof.
  unfold remapped.
  induction mappings as [|m mappings IH]; intros base; cbn [fold_left].
  - by rewrite lookup_empty.
  - rewrite (IH (<[_ := _]> base)), (IH (<[_ := _]> ∅)).
    destruct (fold_left _ mappings ∅ !! k); [done|].
    destruct (decide (rm_segment_id m = k)) as [<-|Hne].
    + by rewrite !lookup_insert_eq.
    + by rewrite !lookup_insert_ne, lookup_empty.
Qed.

Lemma segment_to_region_of_absent (rows : list region_mapping) (k : string) :
  k ∉ rm_segment_id <$> rows -> segment_to_region_of rows !! k = None.
Proof.
  intros Hk. apply segment_to_region_of_unmapped. intros m Hm <-.
  apply Hk. apply list_elem_of_fmap. by exists m.
Qed.

Lemma upsert_by_segment_keys (m : region_mapping)
    (rows : list region_mapping) :
  rm_segment_id <$> upsert_by_segment m rows
  = if decide (rm_segment_id m ∈ rm_segment_id <$> rows)
    then rm_segment_id <$> rows
    else (rm_segment_id <$> rows) ++ [rm_segment_id m].
Proof.
  induction rows as [|r rows IH]; cbn [upsert_by_segment fmap list_fmap].
  - rewrite decide_False; [done | apply not_elem_of_nil].
  - case_bool_decide as Hr.
    + cbn [fmap list_fmap]. rewrite Hr.
      rewrite decide_True; [done | apply list_elem_of_here].
    + cbn [fmap list_fmap]. fold (fmap (M := list) rm_segment_id).
      rewrite IH.
      destruct (decide (rm_segment_id m ∈ rm_segment_id <$> rows))
        as [Hin|Hnot].
      * rewrite decide_True; [done | by apply list_elem_of_further].
      * rewrite decide_False; [done|].
        intros [Heq|Hin']%elem_of_cons; [by destruct Hr | done].
Qed.

Lemma upsert_by_segment_NoDup (m : region_mapping)
    (rows : list region_mapping) :
  NoDup (rm_segment_id <$> rows) ->
  NoDup (rm_segment_id <$> upsert_by_segment m rows).
Proof.
  intros Hnd. rewrite upsert_by_segment_keys.
  destruct (decide _) as [_|Hnot]; [done|].
  apply NoDup_app. split; [done|]. split.
  - intros x Hx Hx'. apply list_elem_of_singleton in Hx' as ->. done.
  - apply NoDup_singleton.
Qed.

Lemma upsert_by_segment_map (m : region_mapping)
    (rows : list region_mapping) :
  NoDup (rm_segment_id <$> rows) ->
  segment_to_region_of (upsert_by_segment m rows)
  = <[rm_segment_id m := rm_region_id m]> (segment_to_region_of rows).
Proof.
  change segment_to_region_of with (fun rows => remapped rows ∅).
  cbv beta.
  induction rows as [|r rows IH]; intros Hnd; [done|].
  rewrite fmap_cons in Hnd.
  apply NoDup_cons in Hnd as [Hr Hnd]. specialize (IH Hnd).
  cbn [upsert_by_segment]. apply map_eq. intros k.
  case_bool_decide as Hkey.
  - change (remapped (m :: rows) ∅)
      with (remapped rows (<[rm_segment_id m := rm_region_id m]> ∅)).
    change (remapped (r :: rows) ∅)
      with (remapped rows (<[rm_segment_id r := rm_region_id r]> ∅)).
    rewrite (remapped_lookup rows k (<[rm_segment_id m := _]> ∅)).
    destruct (decide (rm_segment_id m = k)) as [<-|Hne].
    + rewrite !lookup_insert_eq.
      change (remapped rows ∅) with (segment_to_region_of rows).
      by rewrite segment_to_region_of_absent by (by rewrite <- Hkey).
    + rewrite !(lookup_insert_ne _ (rm_segment_id m)) by done.
      rewrite (remapped_lookup rows k (<[rm_segment_id r := _]> ∅)).
      destruct (remapped rows ∅ !! k); [done|].
      rewrite lookup_insert_ne by congruence. done.
  - change (remapped (r :: upsert_by_segment m rows) ∅)
      with (remapped (upsert_by_segment m rows)
              (<[rm_segment_id r := rm_region_id r]> ∅)).
    change (remapped (r :: rows) ∅)
      with (remapped rows (<[rm_segment_id r := rm_region_id r]> ∅)).
    rewrite (remapped_lookup (upsert_by_segment m rows) k
               (<[rm_segment_id r := _]> ∅)), IH.
    destruct (decide (rm_segment_id m = k)) as [<-|Hne].
    + by rewrite !lookup_insert_eq.
    + rewrite !(lookup_insert_ne _ (rm_segment_id m)) by done.
      by rewrite (remapped_lookup rows k (<[rm_segment_id r := _]> ∅)).
Qed.

Lemma segment_to_region_of_filter (ids : list string)
    (rows : list region_mapping) (k : string) :
  segment_to_region_of (filter (fun m => rm_segment_id m ∈ ids) rows) !! k
  = if decide (k ∈ ids) then segment_to_region_of rows !! k else None.
Proof.
  unfold segment_to_region_of.
  induction rows as [|m rows IH] using rev_ind.
  - cbn. rewrite lookup_empty. by destruct (decide _).
  - rewrite filter_app, !fold_left_app. cbn [fold_left].
    rewrite filter_cons, filter_nil.
    destruct (decide (rm_segment_id m ∈ ids)) as [Hin|Hnot]; cbn [fold_left].
    + destruct (decide (rm_segment_id m = k)) as [<-|Hne].
      * rewrite !lookup_insert_eq. by rewrite decide_True.
      * by rewrite !lookup_insert_ne.
    + rewrite IH. destruct (decide (k ∈ ids)) as [Hk|_]; [|done].
      rewrite lookup_insert_ne; [done|]. by intros <-.
Qed.

(** One update: the service fails on it, or the row is upserted. *)
Lemma update_store_region_mapping_run (segment_id region_id : string)
    (s : service) :
  (faults s !! 0%nat = Some true /\
   update_store_region_mapping segment_id region_id s
   = ({| db := db s; faults := tail (faults s) |}, Raise APIError)) \/
  (faults s !! 0%nat <> Some true /\
   update_store_region_mapping segment_id region_id s
   = ({| db := set_store_region_mapping (db s)
                 (upsert_by_segment (RegionMapping segment_id region_id)
                    (store_region_mapping (db s)));
         faults := tail (faults s) |},
      Ok {| mu_success := true;
            mu_data := [RegionMapping segment_id region_id] |})).
Proof.
  unfold update_store_region_mapping, mbind, execute.
  destruct (faults s) as [|[|] rest]; cbn; [right | left | right]; done.
Qed.

(** X28. An update of a store's region either fails on the service, and
    changes nothing, or returns the row it wrote.  On a table with one
    row per segment it then keeps one row per segment, adds a row only
    for a segment that had none, and the mapping the regional summary
    reads is the previous one with that segment sent to the new region:
    for the segments of a department that hold the segment, the summary
    routes it there and every other segment where it routed it before. *)
Theorem update_store_region_mapping_spec (segment_id region_id : string)
    (s s' : service) (o : result mapping_update) :
  update_store_region_mapping segment_id region_id s = (s', o) ->
  let rows := store_region_mapping (db s) in
  let rows' := store_region_mapping (db s') in
  (o = Raise APIError /\ db s' = db s /\ ~ served 1 s) \/
  (o = Ok {| mu_success := true;
             mu_data := [RegionMapping segment_id region_id] |} /\
   served 1 s /\
   kpi_values (db s') = kpi_values (db s) /\
   segments (db s') = segments (db s) /\ regions (db s') = regions (db s) /\
   (NoDup (rm_segment_id <$> rows) ->
    NoDup (rm_segment_id <$> rows') /\
    length rows'
    = (if decide (segment_id ∈ rm_segment_id <$> rows) then length rows
       else S (length rows)) /\
    segment_to_region_of rows'
    = <[segment_id := region_id]> (segment_to_region_of rows) /\
    forall (ids : list string) (fallback : option string) (k : string),
      segment_id ∈ ids ->
      region_of
        (segment_to_region_of
           (filter (fun m => rm_segment_id m ∈ ids) rows')) fallback k
      = if decide (k = segment_id) then Some region_id
        else region_of
               (segment_to_region_of
                  (filter (fun m => rm_segment_id m ∈ ids) rows))
               fallback k)).
Proof.
  intros Hrun rows rows'. subst rows rows'.
  set (m := RegionMapping segment_id region_id).
  destruct (update_store_region_mapping_run segment_id region_id s)
    as [[Hf E]|[Hf E]]; rewrite E in Hrun; injection Hrun as <- <-.
  { left. split; [done|]. split; [done|]. intros Hserved.
    by destruct (Hserved 0%nat); [lia|]. }
  right. cbn [db store_region_mapping set_store_region_mapping kpi_values
              segments regions].
  split; [done|]. split.
  { intros i Hi. by assert (i = 0%nat) as -> by lia. }
  split; [done|]. split; [done|]. split; [done|].
  intros Hnd. split; [by apply upsert_by_segment_NoDup|]. split.
  { rewrite <- !(length_fmap rm_segment_id), upsert_by_segment_keys.
    cbn [rm_segment_id m].
    destruct (decide _); [done|]. rewrite length_app. cbn. lia. }
  split; [by apply (upsert_by_segment_map m)|].
  intros ids fallback k Hin. unfold region_of.
  rewrite !segment_to_region_of_filter, (upsert_by_segment_map m) by done.
  cbn [rm_segment_id rm_region_id m].
  destruct (decide (k = segment_id)) as [->|Hne].
  - by rewrite decide_True, lookup_insert_eq.
  - destruct (decide (k ∈ ids)); [|done]. by rewrite lookup_insert_ne.
Qed.

Lemma update_store_region_mapping_spec_witness :
  exists s' : service,
    update_store_region_mapping "s2" "r2" mapping_service
    = (s', Ok {| mu_success := true;
                 mu_data := [RegionMapping "s2" "r2"] |}) /\
    segment_to_region_of (store_region_mapping (db s')) !! "s2" = Some "r2" /\
    segment_to_region_of (store_region_mapping (db s')) !! "s1" = Some "r1".
Proof.
  destruct (update_store_region_mapping "s2" "r2" mapping_service)
    as [s' o] eqn:Hrun.
  destruct (update_store_region_mapping_spec "s2" "r2" mapping_service s' o
              Hrun) as [(_ & _ & Hnot)|(-> & _ & _ & _ & _ & Hrows)].
  - destruct Hnot. intros i Hi. assert (i = 0%nat) as -> by lia. done.
  - destruct Hrows as (_ & _ & Hmap & _).
    { cbn. apply (bool_decide_unpack _). by vm_compute. }
    exists s'. split; [reflexivity|]. rewrite Hmap. split; reflexivity.
Defined.

(** The update loop stops at the first update the service fails on. *)
Lemma update_mappings_run (mappings : list region_mapping) :
  forall s : service,
    NoDup (rm_segment_id <$> store_region_mapping (db s)) ->
    exists (n : nat) (s' : service) (o : result unit),
      update_mappings mappings s = (s', o) /\
      (n <= length mappings)%nat /\ served n s /\
      NoDup (rm_segment_id <$> store_region_mapping (db s')) /\
      segment_to_region_of (store_region_mapping (db s'))
      = remapped (take n mappings)
          (segment_to_region_of (store_region_mapping (db s))) /\
      kpi_values (db s') = kpi_values (db s) /\
      match o with
      | Ok _ => n = length mappings
      | Raise e =>
          e = APIError /\ (n < length mappings)%nat /\
          faults s !! n = Some true
      end.
Proof.
  induction mappings as [|m mappings IH]; intros s Hnd.
  - exists 0%nat, s, (Ok tt). cbn. split; [done|]. split; [lia|].
    split; [intros i Hi; lia|]. done.
  - cbn [update_mappings]. unfold mbind.
    destruct (update_store_region_mapping_run (rm_segment_id m)
                (rm_region_id m) s) as [[Hf E]|[Hf E]]; rewrite E.
    + exists 0%nat. eexists _, _. split; [reflexivity|]. cbn.
      split; [lia|]. split; [intros i Hi; lia|]. split; [done|].
      split; [done|]. split; [done|]. split; [done|]. split; [lia | done].
    + set (s1 := {| db := _; faults := tail (faults s) |}).
      destruct (IH s1) as (n & s' & o & Hrun & Hn & Hserved & Hnd' & Hmap &
                           Hkv & Hout).
      { unfold s1. cbn. by apply upsert_by_segment_NoDup. }
      exists (S n), s', o. split; [exact Hrun|]. cbn [length].
      split; [lia|]. split.
      { intros [|i] Hi; [done|]. specialize (Hserved i).
        unfold s1 in Hserved. cbn [faults] in Hserved.
        rewrite lookup_tail in Hserved. apply Hserved. lia. }
      split; [done|]. split.
      { rewrite Hmap. unfold s1.
        cbn [db store_region_mapping set_store_region_mapping firstn take].
        rewrite upsert_by_segment_map by done. by destruct m. }
      split; [by rewrite Hkv|].
      destruct o as [u|e]; [lia|]. destruct Hout as (-> & Hlt & Hfault).
      split; [done|]. split; [lia|]. unfold s1 in Hfault.
      cbn [faults] in Hfault. by rewrite lookup_tail in Hfault.
Qed.

(** X29. The bulk update of store regions applies the rows in order and
    stops at the first update the service fails on: the rows before it
    stay written, the rows after it are not tried, and the call raises.
    When every update is served the call reports the number of rows of
    the request, repeated segments included, and the mapping is the
    previous one overwritten by the rows in order, so that the last row
    of a segment wins. *)
Theorem bulk_update_store_region_mappings_spec
    (mappings : list region_mapping) (s s' : service)
    (o : result bulk_mapping_update) :
  bulk_update_store_region_mappings mappings s = (s', o) ->
  NoDup (rm_segment_id <$> store_region_mapping (db s)) ->
  exists n : nat,
    (n <= length mappings)%nat /\ served n s /\
    NoDup (rm_segment_id <$> store_region_mapping (db s')) /\
    segment_to_region_of (store_region_mapping (db s'))
    = remapped (take n mappings)
        (segment_to_region_of (store_region_mapping (db s))) /\
    kpi_values (db s') = kpi_values (db s) /\
    match o with
    | Ok r =>
        n = length mappings /\
        r = {| bm_success := true;
               bm_updated := Z.of_nat (length mappings) |}
    | Raise e =>
        e = APIError /\ (n < length mappings)%nat /\
        faults s !! n = Some true
    end /\
    (served (length mappings) s -> exists r, o = Ok r).
Proof.
  intros Hrun Hnd.
  destruct (update_mappings_run mappings s Hnd)
    as (n & s1 & o1 & Hloop & Hn & Hserved & Hnd' & Hmap & Hkv & Hout).
  unfold bulk_update_store_region_mappings, mbind in Hrun.
  rewrite Hloop in Hrun. exists n.
  destruct o1 as [u|e]; unfold mret in Hrun; injection Hrun as <- <-.
  - repeat (split; [done|]). intros _. by eexists.
  - repeat (split; [done|]). intros Hall.
    destruct Hout as (_ & Hlt & Hfault). by destruct (Hall n).
Qed.

Lemma bulk_update_store_region_mappings_spec_witness :
  exists s' : service,
    bulk_update_store_region_mappings
      [RegionMapping "s2" "r2"; RegionMapping "s1" "r3"] mapping_service
    = (s', Raise APIError) /\
    segment_to_region_of (store_region_mapping (db s')) !! "s2" = Some "r2" /\
    segment_to_region_of (store_region_mapping (db s')) !! "s1" = Some "r1".
Proof.
  destruct (bulk_update_store_region_mappings
              [RegionMapping "s2" "r2"; RegionMapping "s1" "r3"]
              mapping_service) as [s' o] eqn:Hrun.
  destruct (bulk_update_store_region_mappings_spec _ _ _ _ Hrun)
    as (n & Hn & Hserved & _ & Hmap & _ & Hout & _).
  { cbn. apply (bool_decide_unpack _). by vm_compute. }
  assert (n = 1%nat) as ->.
  { destruct n as [|[|n]].
    - destruct o as [r|e]; [by destruct Hout | by destruct Hout as (_ & _ & ?)].
    - done.
    - by destruct (Hserved 1%nat); [lia|]. }
  destruct o as [r|e]; [by destruct Hout|]. destruct Hout as (-> & _).
  exists s'. split; [reflexivity|]. rewrite Hmap. split; reflexivity.
Defined.

(** ** Alerts ([kpi_service.py]) *)

Section Loops.
Context {A B : Type}.
Variable body : list B -> A -> result (list B).
Hypothesis body_grows :
  forall (acc : list B) (x : A) (acc' : list B),
    body acc x = Ok acc' -> acc ⊆ acc'.

Lemma for_loop_grows (l : list A) :
  forall acc acc' : list B, for_loop body l acc = Ok acc' -> acc ⊆ acc'.
Proof.
  induction l as [|x l IH]; intros acc acc'; cbn [for_loop].
  - by intros [= <-].
  - destruct (body acc x) as [acc1|] eqn:Hx; cbn [rbind]; [|done].
    intros H. apply IH in H. apply body_grows in Hx. by etrans.
Qed.

Lemma for_loop_visit (l : list A) (x : A) :
  forall acc acc' : list B,
    for_loop body l acc = Ok acc' -> x ∈ l ->
    exists acc1 acc2 : list B, body acc1 x = Ok acc2 /\ acc2 ⊆ acc'.
Proof.
  induction l as [|y l IH]; intros acc acc'; cbn [for_loop].
  - by intros _ ?%elem_of_nil.
  - destruct (body acc y) as [acc1|] eqn:Hy; cbn [rbind]; [|done].
    intros H [->|Hin]%elem_of_cons.
    + exists acc, acc1. split; [done|]. by apply for_loop_grows in H.
    + by apply (IH acc1).
Qed.

Lemma for_loop_Forall (P : B -> Prop) (l : list A) :
  (forall (acc : list B) (x : A) (acc' : list B),
      x ∈ l -> body acc x = Ok acc' -> Forall P acc -> Forall P acc') ->
  forall acc acc' : list B,
    for_loop body l acc = Ok acc' -> Forall P acc -> Forall P acc'.
Proof.
  induction l as [|x l IH]; intros Hbody acc acc'; cbn [for_loop].
  - by intros [= <-].
  - destruct (body acc x) as [acc1|] eqn:Hx; cbn [rbind]; [|done].
    intros H Hacc. apply (IH (fun a y a' Hy => Hbody a y a' (list_elem_of_further _ _ _ Hy)) acc1);
      [done|]. apply (Hbody acc x); [apply list_elem_of_here | done | done].
Qed.
End Loops.

Lemma read_only_fetch {A : Type} (query : database -> A) :
  read_only (fetch query).
Proof.
  intros s s' o H. unfold fetch in H.
  by apply execute_inv in H as [[_ ?]|[_ ?]].
Qed.

Lemma read_only_lift {A : Type} (r : result A) : read_only (lift r).
Proof. by intros s s' o [= <- _]. Qed.

Lemma read_only_mret {A : Type} (a : A) : read_only (mret a).
Proof. by intros s s' o [= <- _]. Qed.

Lemma read_only_mbind {A B : Type} (c : M A) (k : A -> M B) :
  read_only c -> (forall a : A, read_only (k a)) -> read_only (mbind c k).
Proof.
  intros Hc Hk s s' o. unfold mbind.
  destruct (c s) as [s1 [a|e]] eqn:Hcs.
  - intros H. apply Hk in H. apply Hc in Hcs. congruence.
  - intros [= <- _]. by apply Hc in Hcs.
Qed.

Lemma read_only_for_loop_m {A S : Type} (body : S -> A -> M S) (l : list A) :
  (forall (acc : S) (x : A), read_only (body acc x)) ->
  forall acc : S, read_only (for_loop_m body l acc).
Proof.
  intros Hbody. induction l as [|x l IH]; intros acc; cbn [for_loop_m].
  - apply read_only_mret.
  - apply read_only_mbind; [apply Hbody | apply IH].
Qed.

Section LoopsM.
Context {A B : Type}.
Variable body : list B -> A -> M (list B).
Hypothesis body_reads : forall (acc : list B) (x : A), read_only (body acc x).
Hypothesis body_grows :
  forall (acc : list B) (x : A) (s s' : service) (acc' : list B),
    body acc x s = (s', Ok acc') -> acc ⊆ acc'.

Lemma for_loop_m_grows (l : list A) :
  forall (acc acc' : list B) (s s' : service),
    for_loop_m body l acc s = (s', Ok acc') -> acc ⊆ acc'.
Proof.
  induction l as [|x l IH]; intros acc acc' s s'; cbn [for_loop_m].
  - by intros [= _ <-].
  - intros H. apply mbind_inv in H as (acc1 & s1 & Hx & H).
    apply IH in H. apply body_grows in Hx. by etrans.
Qed.

Lemma for_loop_m_visit (l : list A) (x : A) :
  forall (acc acc' : list B) (s s' : service),
    for_loop_m body l acc s = (s', Ok acc') -> x ∈ l ->
    exists (acc1 acc2 : list B) (s1 s2 : service),
      body acc1 x s1 = (s2, Ok acc2) /\ acc2 ⊆ acc' /\ db s1 = db s.
Proof.
  induction l as [|y l IH]; intros acc acc' s s'; cbn [for_loop_m].
  - by intros _ ?%elem_of_nil.
  - intros H Hin. apply mbind_inv in H as (acc1 & s1 & Hy & H).
    apply elem_of_cons in Hin as [->|Hin].
    + exists acc, acc1, s, s1. split; [done|].
      split; [by apply for_loop_m_grows in H | done].
    + destruct (IH acc1 acc' s1 s' H Hin) as (a1 & a2 & t1 & t2 & Hb & Hsub & Hdb).
      exists a1, a2, t1, t2. split; [done|]. split; [done|].
      rewrite Hdb. by apply (body_reads acc y s s1 (Ok acc1)).
Qed.

Lemma for_loop_m_Forall (P : B -> Prop) (d : database) (l : list A) :
  (forall (acc : list B) (x : A) (s s' : service) (acc' : list B),
      x ∈ l -> db s = d -> body acc x s = (s', Ok acc') ->
      Forall P acc -> Forall P acc') ->
  forall (acc acc' : list B) (s s' : service),
    db s = d ->
    for_loop_m body l acc s = (s', Ok acc') ->
    Forall P acc -> Forall P acc'.
Proof.
  intros Hbody. induction l as [|x l IH]; intros acc acc' s s' Hd;
    cbn [for_loop_m].
  - by intros [= _ <-].
  - intros H Hacc. apply mbind_inv in H as (acc1 & s1 & Hx & H).
    assert (Hs1 : db s1 = d).
    { rewrite <- Hd. by apply (body_reads acc x s s1 (Ok acc1)). }
    apply (IH (fun a y t t' a' Hy => Hbody a y t t' a'
                 (list_elem_of_further _ _ _ Hy)) acc1 acc' s1 s' Hs1 H).
    apply (Hbody acc x s s1); [apply list_elem_of_here | done | done | done].
Qed.
End LoopsM.

(** Rows outside the year-to-date window do not count: a filter that
    keeps the rows of the window leaves the sum as it is. *)
Lemma calculate_ytd_prefilter (P : kpi_value -> Prop)
    `{!forall v, Decision (P v)} (values : list kpi_value) (m fs fe : date)
    (is_target : bool) :
  get_fiscal_year_range (get_fiscal_year m default_start_month)
    default_start_month = Ok (fs, fe) ->
  (forall v : kpi_value,
      v ∈ values ->
      date_leb fs (kv_date v) && date_leb (kv_date v) m = true -> P v) ->
  calculate_ytd (filter P values) m is_target
  = calculate_ytd values m is_target.
Proof.
  intros Hrange Hkeep. unfold calculate_ytd. rewrite Hrange. cbn [rbind].
  f_equal. generalize 0%Q.
  induction values as [|v values IH]; intros total; [done|].
  rewrite filter_cons. cbn [fold_left].
  assert (Hrest : forall v0, v0 ∈ values ->
            date_leb fs (kv_date v0) && date_leb (kv_date v0) m = true -> P v0).
  { intros v0 Hv0. apply Hkeep. by apply list_elem_of_further. }
  destruct (decide (P v)) as [Hp|Hnp]; cbn [fold_left].
  - by apply IH.
  - rewrite (IH Hrest). f_equal. unfold ytd_step.
    destruct (negb _); [done|].
    destruct (date_leb fs (kv_date v) && date_leb (kv_date v) m) eqn:Hw;
      [|done].
    destruct Hnp. apply Hkeep; [apply list_elem_of_here | done].
Qed.

(** The rows of a cell among the fetched rows give the year-to-date sums
    of the cell. *)
Lemma cell_values_ytd (d : database) (ids : list string)
    (kpi_id segment_id : string) (m fs fe : date) (is_target : bool) :
  get_fiscal_year_range (get_fiscal_year m default_start_month)
    default_start_month = Ok (fs, fe) ->
  segment_id ∈ ids ->
  calculate_ytd
    (filter (fun v => kv_kpi_id v = kpi_id /\ kv_segment_id v = segment_id)
       (select_values (fun v =>
          bool_decide (kv_segment_id v ∈ ids)
          && date_leb fs (kv_date v) && date_leb (kv_date v) m) d))
    m is_target
  = calculate_ytd (cell_rows d kpi_id segment_id) m is_target.
Proof.
  intros Hrange Hin. unfold select_values, cell_rows.
  set (rows := (map_to_list (kpi_values d)).*2).
  set (pre := fun r : kpi_value => _ = true).
  set (cell := fun v : kpi_value => _ /\ _).
  assert (Hswap : filter cell (filter pre rows) = filter pre (filter cell rows)).
  { rewrite !list_filter_filter. apply list_filter_iff. intros v. tauto. }
  rewrite Hswap. apply (calculate_ytd_prefilter pre _ m fs fe); [done|].
  intros v Hv Hw. apply list_elem_of_filter in Hv as [[_ Hs] _].
  unfold pre. apply andb_true_iff in Hw as [H1 H2].
  rewrite H1, H2, !andb_true_r. apply bool_decide_eq_true. by rewrite Hs.
Qed.

Lemma get_alert_level_alerting (r : Q) :
  get_alert_level (Some r) ∈ ["warning"; "critical"] <-> (r < 100)%Q.
Proof.
  unfold get_alert_level. destruct (Qle_bool 100 r) eqn:H100.
  - apply Qle_bool_iff in H100. split; [|lra].
    intros [H|[H|H%elem_of_nil]%elem_of_cons]%elem_of_cons; done.
  - assert (Hlt : (r < 100)%Q).
    { apply Qnot_le_lt. intros H. apply Qle_bool_iff in H. congruence. }
    split; [done|]. intros _.
    destruct (Qle_bool 80 r); [apply list_elem_of_here|].
    apply list_elem_of_further, list_elem_of_here.
Qed.

Lemma get_alert_level_below (r : Q) :
  (r < 100)%Q -> get_alert_level (Some r) = level_below_100 r.
Proof.
  intros Hr. unfold get_alert_level, level_below_100.
  destruct (Qle_bool 100 r) eqn:H100; [|done].
  apply Qle_bool_iff in H100. lra.
Qed.

Lemma is_positive_true (q : Q) : is_positive q = true <-> (0 < q)%Q.
Proof.
  unfold is_positive. rewrite negb_true_iff. split.
  - intros H. apply Qnot_le_lt. intros Hle. apply Qle_bool_iff in Hle.
    congruence.
  - intros H. apply not_true_is_false. intros Hle.
    apply Qle_bool_iff in Hle. lra.
Qed.

Lemma achievement_rate_positive (actual target : Q) :
  (0 < target)%Q ->
  calculate_achievement_rate (Some actual) (Some target)
  = Ok (Some (quantize 100 (actual / target * 100)%Q)).
Proof.
  intros Hpos. unfold calculate_achievement_rate.
  assert (Hz : py_is_zero (Some target) = false).
  { apply not_true_is_false. intros Hz. apply py_is_zero_Some in Hz. lra. }
  by rewrite Hz.
Qed.

(** One cell: the year-to-date sums are computed, and the alert is
    appended exactly for a positive target and a rate below 100. *)
Lemma check_cell_spec (dept : department) (kpi_def : kpi_definition)
    (all_values : list kpi_value) (m : date) (alerts alerts' : list alert)
    (item : string * segment) :
  check_cell dept kpi_def all_values m alerts item = Ok alerts' ->
  exists actual target : Q,
    let values :=
      filter (fun v => kv_kpi_id v = kd_id kpi_def
                       /\ kv_segment_id v = item.1) all_values in
    let rate := quantize 100 (actual / target * 100)%Q in
    calculate_ytd values m false = Ok actual /\
    calculate_ytd values m true = Ok target /\
    (((0 < target)%Q /\ (rate < 100)%Q /\
      alerts' = alerts ++
        [{| al_department_name := dept_name dept;
            al_segment_name := seg_name item.2;
            al_kpi_name := kd_name kpi_def;
            al_achievement_rate := rate;
            al_alert_level := level_below_100 rate;
            al_ytd_actual := actual;
            al_ytd_target := target |}]) \/
     (~ ((0 < target)%Q /\ (rate < 100)%Q) /\ alerts' = alerts)).
Proof.
  unfold check_cell.
  destruct (calculate_ytd _ m false) as [actual|] eqn:Ha; cbn [rbind]; [|done].
  destruct (calculate_ytd _ m true) as [target|] eqn:Ht; cbn [rbind]; [|done].
  intros H. exists actual, target. cbv zeta. split; [done|]. split; [done|].
  destruct (is_positive target) eqn:Hpos.
  - apply is_positive_true in Hpos.
    rewrite (achievement_rate_positive actual target Hpos) in H. cbn [rbind] in H.
    case_bool_decide as Hlevel.
    + apply get_alert_level_alerting in Hlevel. cbn [rbind to_float] in H.
      injection H as <-. left. split; [done|]. split; [done|].
      by rewrite <- (get_alert_level_below _ Hlevel).
    + injection H as <-. right. split; [|done]. intros [_ Hr].
      by apply Hlevel, get_alert_level_alerting.
  - injection H as <-. right. split; [|done]. intros [Hp _].
    apply is_positive_true in Hp. congruence.
Qed.

Lemma odict_set_elem {A : Type} (k k' : string) (x v : A)
    (l : list (string * A)) :
  (k, x) ∈ odict_set k' v l -> (k = k' /\ x = v) \/ (k, x) ∈ l.
Proof.
  induction l as [|[k0 v0] l IH]; cbn [odict_set].
  - intros [= -> ->]%list_elem_of_singleton. by left.
  - case_bool_decide as H0.
    + intros [[= -> ->]|Hin]%elem_of_cons; [by left|].
      right. by apply list_elem_of_further.
    + intros [[= -> ->]|Hin]%elem_of_cons; [right; apply list_elem_of_here|].
      destruct (IH Hin) as [?|?]; [by left|].
      right. by apply list_elem_of_further.
Qed.

Lemma dict_by_elem {A : Type} (key : A -> string) (rows : list A)
    (k : string) (x : A) :
  forall acc : list (string * A),
    (k, x) ∈ fold_left (fun acc x => odict_set (key x) x acc) rows acc ->
    (x ∈ rows /\ key x = k) \/ (k, x) ∈ acc.
Proof.
  induction rows as [|y rows IH]; intros acc; cbn [fold_left].
  - by right.
  - intros H. apply IH in H as [[Hin Hk]|H].
    + left. split; [by apply list_elem_of_further | done].
    + apply odict_set_elem in H as [[-> ->]|H]; [|by right].
      left. split; [apply list_elem_of_here | done].
Qed.

Lemma check_cell_grows (dept : department) (kpi_def : kpi_definition)
    (all_values : list kpi_value) (m : date) (alerts : list alert)
    (item : string * segment) (alerts' : list alert) :
  check_cell dept kpi_def all_values m alerts item = Ok alerts' ->
  alerts ⊆ alerts'.
Proof.
  intros H. apply check_cell_spec in H as (a & t & _ & _ & [(_ & _ & ->)|[_ ->]]).
  - intros x Hx. apply elem_of_app. by left.
  - done.
Qed.

Lemma read_only_check_department (fs m : date) (alerts : list alert)
    (dept : department) :
  read_only (check_department fs m alerts dept).
Proof.
  unfold check_department.
  apply read_only_mbind; [apply read_only_fetch|]. intros kpi_defs.
  apply read_only_mbind; [apply read_only_fetch|]. intros segment_rows.
  destruct (segments_by_id segment_rows); [apply read_only_mret|].
  apply read_only_mbind; [apply read_only_fetch|]. intros all_values.
  apply read_only_lift.
Qed.

(** The responses of one department *)
Lemma check_department_run (fs m : date) (alerts alerts' : list alert)
    (dept : department) (s s' : service) :
  check_department fs m alerts dept s = (s', Ok alerts') ->
  let kpi_defs :=
    filter (fun k => kd_department_id k = dept_id dept
                     /\ kd_is_visible k = true) (kpi_definitions (db s)) in
  let segs :=
    segments_by_id
      (filter (fun x => seg_department_id x = dept_id dept)
              (segments (db s))) in
  let all_values :=
    select_values (fun v =>
      bool_decide (kv_segment_id v ∈ segs.*1)
      && date_leb fs (kv_date v) && date_leb (kv_date v) m) (db s) in
  (segs = [] /\ alerts' = alerts) \/
  (segs <> [] /\
   for_loop (fun alerts kpi_def =>
               for_loop (check_cell dept kpi_def all_values m) segs alerts)
     kpi_defs alerts = Ok alerts').
Proof.
  intros H. unfold check_department in H.
  apply mbind_inv in H as (kpi_defs & s1 & Hk & H).
  apply fetch_inv in Hk as [-> Hdb1].
  apply mbind_inv in H as (segment_rows & s2 & Hs & H).
  apply fetch_inv in Hs as [-> Hdb2]. rewrite Hdb1 in *.
  cbv zeta.
  destruct (segments_by_id _) as [|item0 segs] eqn:Hsegs.
  { left. by injection H as _ <-. }
  right. split; [done|].
  apply mbind_inv in H as (all_values & s3 & Hv & H).
  apply fetch_inv in Hv as [-> Hdb3]. rewrite ?Hdb2, ?Hdb1 in *.
  unfold lift in H. by injection H as _ H.
Qed.

Lemma check_department_grows (fs m : date) (alerts : list alert)
    (dept : department) (s s' : service) (alerts' : list alert) :
  check_department fs m alerts dept s = (s', Ok alerts') -> alerts ⊆ alerts'.
Proof.
  intros H. apply check_department_run in H as [[_ ->]|[_ H]]; [done|].
  revert H. apply for_loop_grows. intros acc kd acc'.
  apply for_loop_grows. intros acc0 item acc0'. apply check_cell_grows.
Qed.

Lemma segments_by_id_item (rows : list segment) (k : string) (sg : segment) :
  (k, sg) ∈ segments_by_id rows -> sg ∈ rows /\ seg_id sg = k.
Proof.
  unfold segments_by_id. intros H.
  apply (dict_by_elem seg_id) in H as [?|H]; [done|].
  by apply elem_of_nil in H.
Qed.

Lemma segments_by_id_key (rows : list segment) (sg : segment) :
  sg ∈ rows ->
  exists sg' : segment, (seg_id sg, sg') ∈ segments_by_id rows.
Proof.
  intros Hin.
  assert (Hk : seg_id sg ∈ (segments_by_id rows).*1).
  { unfold segments_by_id. apply (dict_by_keys seg_id). left. by exists sg. }
  apply list_elem_of_fmap in Hk as ([k sg'] & Hk & Hitem). cbn in Hk.
  subst k. by exists sg'.
Qed.

(** The alert of a cell, from the sums of the cell *)
Lemma check_cell_alert (d : database) (dept : department)
    (kpi_def : kpi_definition) (segs : list (string * segment))
    (fs fe m : date) (alerts alerts' : list alert) (item : string * segment) :
  get_fiscal_year_range (get_fiscal_year m default_start_month)
    default_start_month = Ok (fs, fe) ->
  item ∈ segs ->
  check_cell dept kpi_def
    (select_values (fun v =>
       bool_decide (kv_segment_id v ∈ segs.*1)
       && date_leb fs (kv_date v) && date_leb (kv_date v) m) d)
    m alerts item = Ok alerts' ->
  exists actual target : Q,
    let rate := quantize 100 (actual / target * 100)%Q in
    calculate_ytd (cell_rows d (kd_id kpi_def) item.1) m false = Ok actual /\
    calculate_ytd (cell_rows d (kd_id kpi_def) item.1) m true = Ok target /\
    (((0 < target)%Q /\ (rate < 100)%Q /\
      alerts' = alerts ++
        [{| al_department_name := dept_name dept;
            al_segment_name := seg_name item.2;
            al_kpi_name := kd_name kpi_def;
            al_achievement_rate := rate;
            al_alert_level := level_below_100 rate;
            al_ytd_actual := actual;
            al_ytd_target := target |}]) \/
     (~ ((0 < target)%Q /\ (rate < 100)%Q) /\ alerts' = alerts)).
Proof.
  intros Hrange Hitem H.
  apply check_cell_spec in H as (actual & target & Ha & Ht & Hcase).
  assert (Hk : item.1 ∈ segs.*1).
  { apply list_elem_of_fmap. by exists item. }
  rewrite (cell_values_ytd d _ _ _ m fs fe _ Hrange Hk) in Ha.
  rewrite (cell_values_ytd d _ _ _ m fs fe _ Hrange Hk) in Ht.
  by exists actual, target.
Qed.

Lemma check_department_sound (department_id : option string)
    (fs fe m : date) (alerts alerts' : list alert) (dept : department)
    (s s' : service) :
  get_fiscal_year_range (get_fiscal_year m default_start_month)
    default_start_month = Ok (fs, fe) ->
  dept ∈ departments (db s) ->
  eq_if_given department_id (dept_id dept) = true ->
  check_department fs m alerts dept s = (s', Ok alerts') ->
  Forall (justified_alert (db s) department_id m) alerts ->
  Forall (justified_alert (db s) department_id m) alerts'.
Proof.
  intros Hrange Hdept Hgiven H Hacc.
  apply check_department_run in H as [[_ ->]|[_ H]]; [done|].
  revert H Hacc. apply for_loop_Forall. intros acc kd acc' Hkd.
  apply list_elem_of_filter in Hkd as [[Hkdept Hvis] Hkd].
  apply for_loop_Forall. intros acc0 item acc0' Hitem Hcell Hacc0.
  destruct item as [k sg].
  pose proof (segments_by_id_item _ _ _ Hitem) as [Hsg Hk].
  apply list_elem_of_filter in Hsg as [Hsdept Hsg].
  apply (check_cell_alert (db s) _ _ _ fs fe) in Hcell
    as (actual & target & Ha & Ht & [(Hpos & Hrate & ->)|[_ ->]]);
    [| done | done | done].
  apply Forall_app. split; [done|]. apply Forall_singleton.
  cbn [fst snd] in *. subst k.
  exists dept, kd, sg. unfold alert_cell. cbn.
  repeat (split; [done|]). done.
Qed.

Lemma check_department_complete (department_id : option string)
    (fs fe m : date) (alerts alerts' : list alert) (dept : department)
    (s s' : service) (kd : kpi_definition) (sg : segment)
    (actual target : Q) :
  get_fiscal_year_range (get_fiscal_year m default_start_month)
    default_start_month = Ok (fs, fe) ->
  check_department fs m alerts dept s = (s', Ok alerts') ->
  alert_cell (db s) department_id dept kd sg ->
  calculate_ytd (cell_rows (db s) (kd_id kd) (seg_id sg)) m false
  = Ok actual ->
  calculate_ytd (cell_rows (db s) (kd_id kd) (seg_id sg)) m true
  = Ok target ->
  (0 < target)%Q ->
  (quantize 100 (actual / target * 100) < 100)%Q ->
  exists (a : alert) (sg' : segment),
    a ∈ alerts' /\
    sg' ∈ segments (db s) /\ seg_id sg' = seg_id sg /\
    seg_department_id sg' = dept_id dept /\
    a = {| al_department_name := dept_name dept;
           al_segment_name := seg_name sg';
           al_kpi_name := kd_name kd;
           al_achievement_rate := quantize 100 (actual / target * 100)%Q;
           al_alert_level :=
             level_below_100 (quantize 100 (actual / target * 100)%Q);
           al_ytd_actual := actual;
           al_ytd_target := target |}.
Proof.
  intros Hrange H (Hdept & Hgiven & Hkd & Hkdept & Hvis & Hsg & Hsdept)
    Ha Ht Hpos Hrate.
  assert (Hrow : sg ∈ filter (fun x => seg_department_id x = dept_id dept)
                       (segments (db s))).
  { by apply list_elem_of_filter. }
  destruct (segments_by_id_key _ _ Hrow) as [sg' Hitem].
  apply check_department_run in H as [[Hnil _]|[_ H]].
  { rewrite Hnil in Hitem. by apply elem_of_nil in Hitem. }
  assert (Hkd' : kd ∈ filter (fun k => kd_department_id k = dept_id dept
                                       /\ kd_is_visible k = true)
                        (kpi_definitions (db s))).
  { by apply list_elem_of_filter. }
  eapply for_loop_visit in H as (acc1 & acc2 & Hinner & Hsub2); [| |exact Hkd'].
  2:{ intros acc x acc'. apply for_loop_grows. intros a0 i0 a0'.
      apply check_cell_grows. }
  eapply for_loop_visit in Hinner as (acc3 & acc4 & Hcell & Hsub4);
    [| |exact Hitem].
  2:{ intros a0 i0 a0'. apply check_cell_grows. }
  apply (check_cell_alert (db s) _ _ _ fs fe) in Hcell
    as (actual' & target' & Ha' & Ht' & Hcase); [| done | done].
  cbn [fst snd] in *.
  rewrite Ha in Ha'. rewrite Ht in Ht'.
  injection Ha' as <-. injection Ht' as <-.
  destruct Hcase as [(_ & _ & ->)|[Hno _]]; [|by destruct Hno].
  pose proof (segments_by_id_item _ _ _ Hitem) as [Hsg' Hk].
  apply list_elem_of_filter in Hsg' as [Hsdept' Hsg'].
  eexists _, sg'. split.
  { apply Hsub2, Hsub4. apply elem_of_app. right. apply list_elem_of_here. }
  done.
Qed.

Lemma alert_le_total (a b : alert) : ~ alert_le a b -> alert_le b a.
Proof.
  unfold alert_le, key_le. destruct (alert_key a) as [la ra].
  destruct (alert_key b) as [lb rb]. cbn [fst snd].
  intros H. apply not_true_is_false in H.
  apply orb_false_iff in H as [H1 H2]. apply Z.ltb_ge in H1.
  destruct (lb <? la) eqn:Hlt; [done|]. apply Z.ltb_ge in Hlt.
  assert (la = lb) as -> by lia. rewrite Z.eqb_refl in *. cbn in *.
  apply Qle_bool_iff. apply Qlt_le_weak, Qnot_le_lt. intros Hle.
  apply Qle_bool_iff in Hle. congruence.
Qed.

Lemma alert_le_trans (a b c : alert) :
  alert_le a b -> alert_le b c -> alert_le a c.
Proof.
  unfold alert_le, key_le. destruct (alert_key a) as [la ra].
  destruct (alert_key b) as [lb rb]. destruct (alert_key c) as [lc rc].
  cbn [fst snd]. rewrite !orb_true_iff, !andb_true_iff, !Z.ltb_lt, !Z.eqb_eq,
    !Qle_bool_iff.
  intros [H1|[H1 H1']] [H2|[H2 H2']]; try (left; lia).
  right. split; [lia | lra].
Qed.

Lemma insert_alert_perm (x : alert) (l : list alert) :
  insert_alert x l ≡ₚ x :: l.
Proof.
  induction l as [|y l IH]; cbn [insert_alert]; [done|].
  destruct (key_le _ _); [done|]. rewrite IH. apply Permutation_swap.
Qed.

Lemma sort_alerts_perm (l : list alert) : sort_alerts l ≡ₚ l.
Proof.
  induction l as [|x l IH]; [done|]. cbn [sort_alerts foldr].
  fold (sort_alerts l). by rewrite insert_alert_perm, IH.
Qed.

Lemma insert_alert_sorted (x : alert) (l : list alert) :
  StronglySorted alert_le l -> StronglySorted alert_le (insert_alert x l).
Proof.
  induction 1 as [|y l Hl IH Hy]; cbn [insert_alert].
  - repeat constructor.
  - destruct (key_le (alert_key x) (alert_key y)) eqn:Hxy.
    + constructor; [by constructor|]. constructor; [done|].
      eapply Forall_impl; [exact Hy|]. intros z Hz.
      by apply (alert_le_trans x y z).
    + constructor; [done|].
      rewrite (insert_alert_perm x l). constructor; [|done].
      apply alert_le_total. unfold alert_le. congruence.
Qed.

Lemma sort_alerts_sorted (l : list alert) :
  StronglySorted alert_le (sort_alerts l).
Proof.
  induction l as [|x l IH]; [constructor|]. by apply insert_alert_sorted.
Qed.

Lemma StronglySorted_lookup {A : Type} (R : A -> A -> Prop) (l : list A) :
  StronglySorted R l ->
  forall (i j : nat) (a b : A),
    (i < j)%nat -> l !! i = Some a -> l !! j = Some b -> R a b.
Proof.
  induction 1 as [|x l Hl IH Hx]; intros i j a b Hij Hi Hj.
  - by rewrite lookup_nil in Hi.
  - destruct j as [|j]; [lia|]. cbn in Hj. destruct i as [|i].
    + cbn in Hi. injection Hi as <-.
      rewrite Forall_forall in Hx. apply Hx.
      by apply list_elem_of_lookup; exists j.
    + cbn in Hi. apply (IH i j); [lia | done | done].
Qed.


